(** * Habit-flow: streaks, completion rates, the progress ledger and groups

    A shallow embedding of the backend models (Habit, Progress, Group, User)
    and of the controllers that mutate them, followed by the properties that
    the specification states about them.

    Modelling conventions, used throughout:
    - a JavaScript [Date] is its epoch value in milliseconds, a [Z];
      [new Date()] is an explicit argument [now];
    - the server's local time zone is taken to be UTC without daylight
      saving, so that [setHours(0,0,0,0)] rounds down to a multiple of one
      day and [setDate(getDate() - 1)] subtracts exactly one day; this
      only names the days where the source compares local midnights with
      each other (the streaks, the ledger);
    - where the source takes the UTC date ([toISOString]) of a local
      midnight, in [markCompleted] and [isCompletedToday] of the Habit
      model, the zone matters and is an explicit argument [offset], the
      milliseconds by which the server's clock is ahead of UTC;
    - a JavaScript [Number] that the code divides or compares (rates,
      durations, values) is an exact rational, a [Q];
    - an [ObjectId] is a natural number; [a.toString() === b.toString()],
      [a.equals(b)] and Mongoose's [includes] are equality of ids;
    - the collections that are only read by id or by a filter are finite
      maps from [_id] to document; the progress ledger, which is sorted,
      limited and counted, is a list of documents in insertion order;
    - [save] runs the schema validators, then the pre-save hook, then the
      write; a rejected [save] returns the error and writes nothing, and a
      handler turns it into status 500;
    - strings are sequences of ASCII characters;
    - the [updatedAt] stamp that Mongoose maintains by itself is read
      nowhere in the source and is left out of the documents. *)

From Stdlib Require Import ZArith QArith Qminmax Qround Lia.
From stdpp Require Import base decidable option list sorting gmap strings.

Local Open Scope Z_scope.

Definition ObjectId : Type := nat.

(** A rejected promise: the [message] of the error that was thrown. *)
Inductive result (A : Type) : Type :=
  | Ok (a : A)
  | Err (message : string).
Arguments Ok {A} a.
Arguments Err {A} message.

(** [String.prototype.trim], on strings of ASCII characters. *)
Fixpoint trimStart (s : string) : string :=
  match s with
  | EmptyString => EmptyString
  | String c rest => if Ascii.is_space c then trimStart rest else s
  end.

Definition trim (s : string) : string :=
  String.rev (trimStart (String.rev (trimStart s))).

(** Truthiness of a field that holds an object or [null]. *)
Definition is_set {A} (o : option A) : bool :=
  match o with Some _ => true | None => false end.

(** Truthiness of a string: [if (notes)]. *)
Definition truthy (s : string) : bool :=
  match s with EmptyString => false | String _ _ => true end.

(** [String.prototype.toLowerCase], on strings of ASCII characters. *)
Definition lower_ascii (c : Ascii.ascii) : Ascii.ascii :=
  let n := Ascii.nat_of_ascii c in
  if (65 <=? n)%nat && (n <=? 90)%nat then Ascii.ascii_of_nat (n + 32) else c.

Fixpoint toLowerCase (s : string) : string :=
  match s with
  | EmptyString => EmptyString
  | String c rest => String (lower_ascii c) (toLowerCase rest)
  end.

(** [String.prototype.toUpperCase], on strings of ASCII characters. *)
Definition upper_ascii (c : Ascii.ascii) : Ascii.ascii :=
  let n := Ascii.nat_of_ascii c in
  if (97 <=? n)%nat && (n <=? 122)%nat then Ascii.ascii_of_nat (n - 32) else c.

Fixpoint toUpperCase (s : string) : string :=
  match s with
  | EmptyString => EmptyString
  | String c rest => String (upper_ascii c) (toUpperCase rest)
  end.

(** The first validator that fails decides the error. *)
Fixpoint first_error (checks : list (result unit)) : result unit :=
  match checks with
  | [] => Ok ()
  | Ok _ :: rest => first_error rest
  | Err m :: _ => Err m
  end.

Definition check (failed : bool) (m : string) : result unit :=
  if failed then Err m else Ok ().

(** ** Dates *)

(** [24 * 60 * 60 * 1000], the constant the source spells out. *)
Definition MS_PER_DAY : Z := 86400000.

(** [d.setHours(0, 0, 0, 0)] *)
Definition setHours0 (d : Z) : Z := d - d `mod` MS_PER_DAY.

(** [d.setHours(0, 0, 0, 0)] on a server whose clock is [offset]
    milliseconds ahead of UTC: the local midnight at or before [d]. *)
Definition localMidnight (offset d : Z) : Z :=
  d - (d + offset) `mod` MS_PER_DAY.

(** [d.setDate(d.getDate() - 1)] *)
Definition setDatePrev (d : Z) : Z := d - MS_PER_DAY.

(** The calendar day a date falls on, as a day number. *)
Definition dayOf (d : Z) : Z := d `div` MS_PER_DAY.

(** [dates.sort((a, b) => b - a)]: most recent first. *)
Definition newest_first : relation Z := λ a b, b ≤ a.

Global Instance newest_first_dec a b : Decision (newest_first a b).
Proof. unfold newest_first. apply _. Defined.

(** ** The Habit model *)

Module Habit.

Inductive Frequency := daily | weekly | monthly | custom.

Record t := mk {
  name : string;
  description : string;
  creator : ObjectId;
  goal : string;
  frequency : Frequency;
  duration : Q;
  isActive : bool;
  category : string;
  targetValue : Q;
  unit : string;
  completionDates : list Z;
  createdAt : Z
}.

(** The update document [{ isActive: b }]. *)
Definition set_isActive (b : bool) (h : t) : t :=
  mk (name h) (description h) (creator h) (goal h) (frequency h)
     (duration h) b (category h) (targetValue h) (unit h)
     (completionDates h) (createdAt h).

(** [Math.floor((new Date() - this.createdAt) / (1000*60*60*24)) + 1] *)
Definition daysSinceCreation (now : Z) (h : t) : Z :=
  (now - createdAt h) `div` MS_PER_DAY + 1.

(** [Math.min(daysSinceCreation, this.duration)] *)
Definition expectedCompletions (now : Z) (h : t) : Q :=
  Qmin (inject_Z (daysSinceCreation now h)) (duration h).

(** The [completionRate] virtual. *)
Definition completionRate (now : Z) (h : t) : Q :=
  match completionDates h with
  | [] => 0%Q
  | _ :: _ =>
      let expected := expectedCompletions now h in
      if Qeq_bool expected 0 then 0%Q
      else
        Qmin (inject_Z (Z.of_nat (length (completionDates h))) / expected * 100)
             100
  end.

(** The body of [for (const completionDate of sortedDates)] in the
    [currentStreak] virtual, with the two mutable locals as arguments. *)
Fixpoint streakLoop (sortedDates : list Z) (checkDate streak : Z) : Z :=
  match sortedDates with
  | [] => streak
  | completionDate :: rest =>
      let completionDay := setHours0 completionDate in
      if completionDay =? checkDate then
        streakLoop rest (setDatePrev checkDate) (streak + 1)
      else if completionDay =? checkDate + MS_PER_DAY then
        streakLoop rest (setDatePrev checkDate) (streak + 1)
      else streak
  end.

(** The [currentStreak] virtual. *)
Definition currentStreak (now : Z) (h : t) : Z :=
  match completionDates h with
  | [] => 0
  | _ :: _ =>
      let sortedDates := merge_sort newest_first (completionDates h) in
      let today := setHours0 now in
      streakLoop sortedDates today 0
  end.

Definition set_completionDates (dates : list Z) (h : t) : t :=
  mk (name h) (description h) (creator h) (goal h) (frequency h)
     (duration h) (isActive h) (category h) (targetValue h) (unit h)
     dates (createdAt h).

(** [date.toISOString().split('T')[0]]: the calendar date of a [Date] in
    UTC, which determines and is determined by its day number. *)
Definition isoDate (d : Z) : Z := dayOf d.

(** The validator of [completionDates]:
    [dateStrings.length === new Set(dateStrings).size]. *)
Definition validate_completionDates (dates : list Z) : result Datatypes.unit :=
  let dateStrings := isoDate <$> dates in
  check (negb (length dateStrings =? length (remove_dups dateStrings))%nat)
        "Cannot have duplicate completion dates for the same day".

(** The validators of the other paths. *)
Definition validate_paths (h : t) : result Datatypes.unit :=
  first_error
    [check (negb (truthy (name h))) "Habit name is required";
     check (100 <? String.length (name h))%nat
           "Habit name cannot exceed 100 characters";
     check (500 <? String.length (description h))%nat
           "Description cannot exceed 500 characters";
     check (100 <? String.length (goal h))%nat
           "Goal cannot exceed 100 characters";
     check (negb (Qle_bool 1 (duration h))) "Duration must be at least 1 day";
     check (negb (Qle_bool (duration h) 365)) "Duration cannot exceed 365 days";
     check (50 <? String.length (category h))%nat
           "Category cannot exceed 50 characters";
     check (negb (Qle_bool 0 (targetValue h))) "Target value cannot be negative";
     check (20 <? String.length (unit h))%nat
           "Unit cannot exceed 20 characters"].

Definition validate (h : t) : result Datatypes.unit :=
  first_error [validate_paths h; validate_completionDates (completionDates h)].

(** [habitSchema.pre('save', ...)] lower-cases [frequency]; the values of
    the enumeration are lower case already. *)
Definition pre_save (h : t) : t := h.

(** [habit.save()] for the document stored under [id]. *)
Definition save (id : ObjectId) (h : t) (habits : gmap ObjectId t)
    : result (t * gmap ObjectId t) :=
  match validate h with
  | Err m => Err m
  | Ok _ => let h := pre_save h in Ok (h, <[id := h]> habits)
  end.

(** [setDate] drops the fraction of the day number it is given. *)
Definition truncate (q : Q) : Z :=
  if Qle_bool 0 q then Qfloor q else Qceiling q.

(** The [isExpired] virtual. *)
Definition isExpired (now : Z) (h : t) : bool :=
  if Qeq_bool (duration h) 0 then false
  else
    let expirationDate := createdAt h + truncate (duration h) * MS_PER_DAY in
    expirationDate <? now.

(** The [isCompletedToday] virtual: [today] is the server's local
    midnight, [todayString] its date in UTC. *)
Definition isCompletedToday (offset now : Z) (h : t) : bool :=
  let today := localMidnight offset now in
  let todayString := isoDate today in
  existsb (λ date, isoDate date =? todayString) (completionDates h).

(** The [totalCompletions] virtual. *)
Definition totalCompletions (h : t) : Z :=
  Z.of_nat (length (completionDates h)).

(** [isCompletedOnDate(date)] *)
Definition isCompletedOnDate (date : Z) (h : t) : bool :=
  let dateString := isoDate date in
  existsb (λ existingDate, isoDate existingDate =? dateString)
          (completionDates h).

(** [markCompleted(date)]: [targetDate] is the server's local midnight,
    [dateString] its date in UTC. *)
Definition markCompleted (offset date : Z) (id : ObjectId) (h : t)
    (habits : gmap ObjectId t) : result (t * gmap ObjectId t) :=
  let targetDate := localMidnight offset date in
  let dateString := isoDate targetDate in
  let alreadyCompleted :=
    existsb (λ existingDate, isoDate existingDate =? dateString)
            (completionDates h) in
  let h :=
    if alreadyCompleted then h
    else set_completionDates
           (merge_sort Z.le (completionDates h ++ [targetDate])) h in
  save id h habits.

(** [removeCompletion(date)] *)
Definition removeCompletion (date : Z) (id : ObjectId) (h : t)
    (habits : gmap ObjectId t) : result (t * gmap ObjectId t) :=
  let dateString := isoDate date in
  let h :=
    set_completionDates
      (filter (λ existingDate, isoDate existingDate ≠ dateString)
              (completionDates h)) h in
  save id h habits.

(** [toggleCompletion(date)] *)
Definition toggleCompletion (offset date : Z) (id : ObjectId) (h : t)
    (habits : gmap ObjectId t) : result (t * gmap ObjectId t) :=
  if isCompletedOnDate date h then removeCompletion date id h habits
  else markCompleted offset date id h habits.

End Habit.

(** ** The Progress model *)

Module Progress.

Record t := mk {
  _id : ObjectId;
  habit : ObjectId;
  user : ObjectId;
  date : Z;
  completed : bool;
  completedAt : option Z;
  notes : string;
  value : option Q;
  streak : Q;
  isLateEntry : bool
}.

Definition set_completed (b : bool) (p : t) : t :=
  mk (_id p) (habit p) (user p) (date p) b (completedAt p) (notes p)
     (value p) (streak p) (isLateEntry p).

Definition set_completedAt (c : option Z) (p : t) : t :=
  mk (_id p) (habit p) (user p) (date p) (completed p) c (notes p)
     (value p) (streak p) (isLateEntry p).

(** The schema trims [notes] when the path is assigned. *)
Definition set_notes (n : string) (p : t) : t :=
  mk (_id p) (habit p) (user p) (date p) (completed p) (completedAt p)
     (trim n) (value p) (streak p) (isLateEntry p).

Definition set_value (v : option Q) (p : t) : t :=
  mk (_id p) (habit p) (user p) (date p) (completed p) (completedAt p)
     (notes p) v (streak p) (isLateEntry p).

Definition set_isLateEntry (b : bool) (p : t) : t :=
  mk (_id p) (habit p) (user p) (date p) (completed p) (completedAt p)
     (notes p) (value p) (streak p) b.

Definition set_date (d : Z) (p : t) : t :=
  mk (_id p) (habit p) (user p) d (completed p) (completedAt p)
     (notes p) (value p) (streak p) (isLateEntry p).

(** The schema validators: [notes] at most 500 characters, [value] and
    [streak] not negative. *)
Definition validate (p : t) : result unit :=
  if (500 <? String.length (notes p))%nat then
    Err "Notes cannot exceed 500 characters"
  else if match value p with Some v => negb (Qle_bool 0 v) | None => false end then
    Err "Value cannot be negative"
  else if negb (Qle_bool 0 (streak p)) then
    Err "Streak cannot be negative"
  else Ok ().

(** [progressSchema.pre('save', ...)] *)
Definition pre_save (now : Z) (p : t) : t :=
  let p :=
    if completed p && negb (is_set (completedAt p))
    then set_completedAt (Some now) p else p in
  let p :=
    if negb (completed p) && is_set (completedAt p)
    then set_completedAt None p else p in
  let p :=
    match completedAt p with
    | Some at_ =>
        if completed p then
          let targetDate := setHours0 (date p) in
          let completionDate := setHours0 at_ in
          set_isLateEntry (negb (completionDate =? targetDate)) p
        else p
    | None => p
    end in
  set_date (setHours0 (date p)) p.

(** The unique index [{ habit: 1, user: 1, date: 1 }]: another document
    already holds the key of [p]. *)
Definition duplicate_key (ledger : list t) (p : t) : bool :=
  existsb (λ q, negb (_id q =? _id p)%nat && (habit q =? habit p)%nat
                && (user q =? user p)%nat && (date q =? date p)) ledger.

(** Writing a document: in place when its [_id] is stored, appended
    otherwise. *)
Definition stored (ledger : list t) (id : ObjectId) : bool :=
  existsb (λ q, (_id q =? id)%nat) ledger.

Definition write (p : t) (ledger : list t) : list t :=
  if stored ledger (_id p)
  then (λ q, if (_id q =? _id p)%nat then p else q) <$> ledger
  else ledger ++ [p].

(** [doc.save()]: validation, the pre-save hook, then the write, which
    the unique index may refuse.  On success the saved document and the
    new ledger are returned; on failure nothing is written. *)
Definition save (now : Z) (p : t) (ledger : list t) : result (t * list t) :=
  match validate p with
  | Err m => Err m
  | Ok _ =>
      let p := pre_save now p in
      if duplicate_key ledger p then Err "E11000 duplicate key error"
      else Ok (p, write p ledger)
  end.

(** [Progress.findById(id)] *)
Definition findById (id : ObjectId) (ledger : list t) : option t :=
  List.find (λ q, (_id q =? id)%nat) ledger.

(** [toggleCompletion] *)
Definition toggleCompletion (now : Z) (p : t) (ledger : list t) :=
  save now (set_completed (negb (completed p)) p) ledger.

(** [markCompleted(value = null, notes = '')] *)
Definition markCompleted (now : Z) (v : option Q) (n : string) (p : t)
    (ledger : list t) :=
  let p := set_completed true p in
  let p := set_completedAt (Some now) p in
  let p := match v with Some _ => set_value v p | None => p end in
  let p := if truthy n then set_notes n p else p in
  save now p ledger.

(** [markIncomplete] *)
Definition markIncomplete (now : Z) (p : t) (ledger : list t) :=
  let p := set_completed false p in
  let p := set_completedAt None p in
  save now p ledger.

(** The query [{ user: userId, habit: habitId }]. *)
Definition of_user_habit (userId habitId : ObjectId) (p : t) : bool :=
  (user p =? userId)%nat && (habit p =? habitId)%nat.

(** The query [{ user, habit, date: { $gte: startDate, $lte: endDate } }]. *)
Definition in_window (userId habitId : ObjectId) (startDate endDate : Z)
    (p : t) : bool :=
  of_user_habit userId habitId p
  && (startDate <=? date p) && (date p <=? endDate).

(** [calculateCompletionRate(userId, habitId, days = 30)] *)
Definition calculateCompletionRate (now : Z) (userId habitId : ObjectId)
    (days : Z) (ledger : list t) : Q :=
  let endDate := now in
  let startDate := now - days * MS_PER_DAY in
  let totalEntries :=
    length (filter (λ p, in_window userId habitId startDate endDate p = true)
                   ledger) in
  let completedEntries :=
    length (filter (λ p, (in_window userId habitId startDate endDate p
                          && completed p) = true) ledger) in
  if (0 <? totalEntries)%nat
  then inject_Z (Z.of_nat completedEntries)
       / inject_Z (Z.of_nat totalEntries) * 100
  else 0%Q.

(** [.sort({ date: -1 })] *)
Definition newest_entry_first : relation t := λ p q, date q ≤ date p.

Global Instance newest_entry_first_dec p q :
  Decision (newest_entry_first p q).
Proof. unfold newest_entry_first. apply _. Defined.

(** The body of [for (const entry of entries)] in [getCurrentStreak]. *)
Fixpoint streakLoop (entries : list t) (today streak : Z) : Z :=
  match entries with
  | [] => streak
  | entry :: rest =>
      let entryDate := setHours0 (date entry) in
      let daysDiff := (today - entryDate) `div` MS_PER_DAY in
      if (daysDiff =? streak) && completed entry
      then streakLoop rest today (streak + 1)
      else streak
  end.

(** [getCurrentStreak(userId, habitId)] *)
Definition getCurrentStreak (now : Z) (userId habitId : ObjectId)
    (ledger : list t) : Z :=
  let entries :=
    take 365 (merge_sort newest_entry_first
                (filter (λ p, of_user_habit userId habitId p = true) ledger)) in
  let today := setHours0 now in
  streakLoop entries today 0.

(** A fresh [_id] for a new document. *)
Definition fresh_id (ledger : list t) : ObjectId :=
  S (foldr Nat.max 0%nat (_id <$> ledger)).

(** [createOrUpdate(userId, habitId, date, completed, value = null,
    notes = '')] *)
Definition createOrUpdate (now : Z) (userId habitId : ObjectId) (date_ : Z)
    (completed_ : bool) (value_ : option Q) (notes_ : string)
    (ledger : list t) : result (t * list t) :=
  let targetDate := setHours0 date_ in
  let existingEntry :=
    List.find (λ p, of_user_habit userId habitId p
                    && (targetDate <=? date p)
                    && (date p <? targetDate + MS_PER_DAY)) ledger in
  match existingEntry with
  | Some existingEntry =>
      let p := set_completed completed_ existingEntry in
      let p := match value_ with Some _ => set_value value_ p | None => p end in
      let p := if truthy notes_ then set_notes notes_ p else p in
      let p :=
        if completed_ && negb (is_set (completedAt p))
        then set_completedAt (Some now) p
        else if negb completed_ then set_completedAt None p
        else p in
      save now p ledger
  | None =>
      save now
        (mk (fresh_id ledger) habitId userId targetDate completed_
            (if completed_ then Some now else None)
            (trim notes_) value_ 0 false)
        ledger
  end.

(** [.limit(n)]: the first [n] documents; a limit of 0 is no limit. *)
Definition limit {A} (n : nat) (l : list A) : list A :=
  if (n =? 0)%nat then l else take n l.

(** The part [{ date: { $gte: startDate, $lte: endDate } }] of a query,
    with the bounds that are given. *)
Definition in_range (startDate endDate : option Z) (p : t) : bool :=
  match startDate with Some s => s <=? date p | None => true end
  && match endDate with Some e => date p <=? e | None => true end.

(** [getUserHabitProgress(userId, habitId, startDate = null, endDate = null)]:
    the entries of the user for the habit, from [startDate] and up to
    [endDate] where these are given, most recent first. *)
Definition getUserHabitProgress (userId habitId : ObjectId)
    (startDate endDate : option Z) (ledger : list t) : list t :=
  merge_sort newest_entry_first
    (filter (λ p, (of_user_habit userId habitId p
                   && in_range startDate endDate p) = true) ledger).

End Progress.

(** ** The User model *)

Module User.

Record t := mk {
  username : string;
  email : string;
  password : option string;
  googleId : option string;
  isGoogleUser : bool;
  firstName : string;
  lastName : string;
  avatar : string;
  joinedGroups : list ObjectId;
  createdHabits : list ObjectId;
  isActive : bool
}.

Definition set_joinedGroups (l : list ObjectId) (u : t) : t :=
  mk (username u) (email u) (password u) (googleId u) (isGoogleUser u)
     (firstName u) (lastName u) (avatar u) l (createdHabits u) (isActive u).

Definition set_createdHabits (l : list ObjectId) (u : t) : t :=
  mk (username u) (email u) (password u) (googleId u) (isGoogleUser u)
     (firstName u) (lastName u) (avatar u) (joinedGroups u) l (isActive u).

End User.

(** [$pull]: every occurrence of [x] leaves the array. *)
Definition pull (x : ObjectId) (l : list ObjectId) : list ObjectId :=
  filter (λ y, y ≠ x) l.

(** [[...new Set(array)]]: the first occurrence of each id, in order. *)
Fixpoint dedupe (l : list ObjectId) : list ObjectId :=
  match l with
  | [] => []
  | x :: rest => x :: filter (λ y, y ≠ x) (dedupe rest)
  end.

(** ** The Group model *)

Module Group.

Record Settings := mkSettings {
  allowMemberInvites : bool;
  allowMemberHabitCreation : bool;
  requireApprovalForJoining : bool
}.

Record Statistics := mkStatistics {
  totalHabitsCompleted : Q;
  totalStreaks : Q
}.

Record t := mk {
  name : string;
  description : string;
  members : list ObjectId;
  habits : list ObjectId;
  creator : ObjectId;
  isPrivate : bool;
  maxMembers : Q;
  inviteCode : option string;
  tags : list string;
  settings : Settings;
  statistics : Statistics;
  isActive : bool
}.

Definition set_members (l : list ObjectId) (g : t) : t :=
  mk (name g) (description g) l (habits g) (creator g) (isPrivate g)
     (maxMembers g) (inviteCode g) (tags g) (settings g) (statistics g)
     (isActive g).

Definition set_habits (l : list ObjectId) (g : t) : t :=
  mk (name g) (description g) (members g) l (creator g) (isPrivate g)
     (maxMembers g) (inviteCode g) (tags g) (settings g) (statistics g)
     (isActive g).

Definition set_inviteCode (c : option string) (g : t) : t :=
  mk (name g) (description g) (members g) (habits g) (creator g)
     (isPrivate g) (maxMembers g) c (tags g) (settings g) (statistics g)
     (isActive g).

(** The [memberCount], [habitCount] and [isFull] virtuals. *)
Definition memberCount (g : t) : nat := length (members g).
Definition habitCount (g : t) : nat := length (habits g).
Definition isFull (g : t) : bool :=
  Qle_bool (maxMembers g) (inject_Z (Z.of_nat (memberCount g))).

(** The schema validators, path by path. *)
Definition validate_name (n : string) : result unit :=
  first_error
    [check (negb (truthy n)) "Group name is required";
     check (100 <? String.length n)%nat
           "Group name cannot exceed 100 characters"].

Definition validate_description (d : string) : result unit :=
  check (1000 <? String.length d)%nat
        "Description cannot exceed 1000 characters".

Definition validate_maxMembers (m : Q) : result unit :=
  first_error
    [check (negb (Qle_bool 1 m)) "Maximum members must be at least 1";
     check (negb (Qle_bool m 1000)) "Maximum members cannot exceed 1000"].

Definition validate_inviteCode (c : option string) : result unit :=
  check (match c with Some c => (20 <? String.length c)%nat | None => false end)
        "Invite code cannot exceed 20 characters".

Definition validate_tags (l : list string) : result unit :=
  check (existsb (λ tag, (30 <? String.length tag)%nat) l)
        "Tag cannot exceed 30 characters".

Definition validate_statistics (st : Statistics) : result unit :=
  check (negb (Qle_bool 0 (totalHabitsCompleted st))
         || negb (Qle_bool 0 (totalStreaks st)))
        "Statistics cannot be negative".

Definition validate (g : t) : result unit :=
  first_error
    [validate_name (name g); validate_description (description g);
     validate_maxMembers (maxMembers g); validate_inviteCode (inviteCode g);
     validate_tags (tags g); validate_statistics (statistics g)].

(** [groupSchema.pre('save', ...)]; [code] is what [generateInviteCode]
    draws from [Math.random]. *)
Definition pre_save (code : string) (g : t) : t :=
  let g :=
    if negb (match inviteCode g with Some c => truthy c | None => false end)
       && negb (isPrivate g)
    then set_inviteCode (Some code) g else g in
  let g :=
    if bool_decide (creator g ∈ members g) then g
    else set_members (members g ++ [creator g]) g in
  let g :=
    if (0 <? length (members g))%nat
    then set_members (dedupe (members g)) g else g in
  if (0 <? length (habits g))%nat
  then set_habits (dedupe (habits g)) g else g.

(** [group.save()] for the document stored under [id]. *)
Definition save (code : string) (id : ObjectId) (g : t)
    (groups : gmap ObjectId t) : result (t * gmap ObjectId t) :=
  match validate g with
  | Err m => Err m
  | Ok _ => let g := pre_save code g in Ok (g, <[id := g]> groups)
  end.

(** [addMember(userId)] *)
Definition addMember (code : string) (id userId : ObjectId) (g : t)
    (groups : gmap ObjectId t) : result (t * gmap ObjectId t) :=
  if isFull g then Err "Group is full"
  else
    let g :=
      if bool_decide (userId ∈ members g) then g
      else set_members (members g ++ [userId]) g in
    save code id g groups.

(** [removeMember(userId)] *)
Definition removeMember (code : string) (id userId : ObjectId) (g : t)
    (groups : gmap ObjectId t) : result (t * gmap ObjectId t) :=
  save code id (set_members (pull userId (members g)) g) groups.

(** [addHabit(habitId)] *)
Definition addHabit (code : string) (id habitId : ObjectId) (g : t)
    (groups : gmap ObjectId t) : result (t * gmap ObjectId t) :=
  let g :=
    if bool_decide (habitId ∈ habits g) then g
    else set_habits (habits g ++ [habitId]) g in
  save code id g groups.

(** [removeHabit(habitId)] *)
Definition removeHabit (code : string) (id habitId : ObjectId) (g : t)
    (groups : gmap ObjectId t) : result (t * gmap ObjectId t) :=
  save code id (set_habits (pull habitId (habits g)) g) groups.

(** The query [{ habits: habitId, members: userId, isActive: true }]. *)
Definition find (habitId userId : ObjectId) (groups : gmap ObjectId t)
    : list t :=
  filter (λ g, habitId ∈ habits g ∧ userId ∈ members g ∧ isActive g = true)
         (map_to_list groups).*2.

Definition set_isActive (b : bool) (g : t) : t :=
  mk (name g) (description g) (members g) (habits g) (creator g)
     (isPrivate g) (maxMembers g) (inviteCode g) (tags g) (settings g)
     (statistics g) b.

(** The [activityStatus] virtual. *)
Definition activityStatus (g : t) : string :=
  if negb (isActive g) then "inactive"
  else if (memberCount g =? 0)%nat then "empty"
  else if (habitCount g =? 0)%nat then "no-habits"
  else "active".

End Group.

(** ** The database and the HTTP responses *)

Record Db := mkDb {
  habits : gmap ObjectId Habit.t;
  groups : gmap ObjectId Group.t;
  users : gmap ObjectId User.t;
  progress : list Progress.t
}.

Definition set_db_habits (m : gmap ObjectId Habit.t) (db : Db) : Db :=
  mkDb m (groups db) (users db) (progress db).
Definition set_db_groups (m : gmap ObjectId Group.t) (db : Db) : Db :=
  mkDb (habits db) m (users db) (progress db).
Definition set_db_users (m : gmap ObjectId User.t) (db : Db) : Db :=
  mkDb (habits db) (groups db) m (progress db).
Definition set_db_progress (l : list Progress.t) (db : Db) : Db :=
  mkDb (habits db) (groups db) (users db) l.

(** [res.status(status).json({ success, message, ... })] *)
Record Response := mkResponse {
  status : Z;
  success : bool;
  message : string
}.

(** ** groupController *)

Module groupController.

(** The fields of [req.body] that [createGroup] and [updateGroup] read;
    [None] is an absent field. *)
Record GroupBody := mkGroupBody {
  name : option string;
  description : option string;
  isPrivate : option bool;
  maxMembers : option Q;
  tags : option (list string);
  settings : option Group.Settings
}.

(** [$push: { joinedGroups: groupId }] and [$pull] on the user [userId]. *)
Definition push_joinedGroup (userId groupId : ObjectId)
    (users : gmap ObjectId User.t) : gmap ObjectId User.t :=
  alter (λ u, User.set_joinedGroups (User.joinedGroups u ++ [groupId]) u)
        userId users.

Definition pull_joinedGroup (userId groupId : ObjectId)
    (users : gmap ObjectId User.t) : gmap ObjectId User.t :=
  alter (λ u, User.set_joinedGroups (pull groupId (User.joinedGroups u)) u)
        userId users.

(** [createGroup]: [POST /api/groups] *)
Definition createGroup (code : string) (userId : ObjectId)
    (body : GroupBody) (db : Db) : Response * Db :=
  if negb (truthy (default "" (name body))) then
    (mkResponse 400 false "Group name is required", db)
  else
    let group :=
      Group.mk (trim (default "" (name body)))
               (trim (default "" (description body)))
               [userId] [] userId
               (default false (isPrivate body))
               (default 50%Q (maxMembers body))
               None
               ((λ tag, toLowerCase (trim tag)) <$> default [] (tags body))
               (Group.mkSettings true true false)
               (Group.mkStatistics 0 0)
               true in
    let id := fresh (dom (groups db)) in
    match Group.save code id group (groups db) with
    | Err _ => (mkResponse 500 false "Failed to create group", db)
    | Ok (_, groups') =>
        let db := set_db_groups groups' db in
        let db := set_db_users (push_joinedGroup userId id (users db)) db in
        (mkResponse 201 true "Group created successfully", db)
    end.

(** The update document of [updateGroup], applied to a stored group:
    an absent field leaves its path as it is. *)
Definition apply_update (body : GroupBody) (g : Group.t) : Group.t :=
  Group.mk (from_option trim (Group.name g) (name body))
           (from_option trim (Group.description g) (description body))
           (Group.members g) (Group.habits g) (Group.creator g)
           (default (Group.isPrivate g) (isPrivate body))
           (default (Group.maxMembers g) (maxMembers body))
           (Group.inviteCode g)
           (from_option (fmap (λ tag, toLowerCase (trim tag)))
                        (Group.tags g) (tags body))
           (default (Group.settings g) (settings body))
           (Group.statistics g) (Group.isActive g).

(** [runValidators: true]: the validators of the paths being set. *)
Definition validate_update (body : GroupBody) : result unit :=
  first_error
    [from_option (λ n, Group.validate_name (trim n)) (Ok ()) (name body);
     from_option (λ d, Group.validate_description (trim d)) (Ok ())
                 (description body);
     from_option Group.validate_maxMembers (Ok ()) (maxMembers body);
     from_option (λ l, Group.validate_tags
                         ((λ tag, toLowerCase (trim tag)) <$> l))
                 (Ok ()) (tags body)].

(** [updateGroup]: [PUT /api/groups/:id] *)
Definition updateGroup (userId id : ObjectId) (body : GroupBody)
    (db : Db) : Response * Db :=
  match groups db !! id with
  | None => (mkResponse 404 false "Group not found", db)
  | Some group =>
      if negb (Group.creator group =? userId)%nat then
        (mkResponse 403 false "Not authorized to update this group", db)
      else
        match validate_update body with
        | Err _ => (mkResponse 500 false "Failed to update group", db)
        | Ok _ =>
            (mkResponse 200 true "Group updated successfully",
             set_db_groups (<[id := apply_update body group]> (groups db)) db)
        end
  end.

(** [joinGroup]: [POST /api/groups/:groupId/join] *)
Definition joinGroup (code : string) (userId groupId : ObjectId)
    (inviteCode : option string) (db : Db) : Response * Db :=
  match groups db !! groupId with
  | None => (mkResponse 404 false "Group not found", db)
  | Some group =>
      if negb (Group.isActive group) then
        (mkResponse 404 false "Group not found", db)
      else if bool_decide (userId ∈ Group.members group) then
        (mkResponse 400 false "You are already a member of this group", db)
      else if Group.isFull group then
        (mkResponse 400 false "Group is full", db)
      else if Group.isPrivate group
              && (negb (truthy (default "" inviteCode))
                  || negb (bool_decide (inviteCode = Group.inviteCode group)))
      then
        (mkResponse 403 false "Invalid invite code for private group", db)
      else
        match Group.addMember code groupId userId group (groups db) with
        | Err _ => (mkResponse 500 false "Failed to join group", db)
        | Ok (_, groups') =>
            let db := set_db_groups groups' db in
            let db := set_db_users (push_joinedGroup userId groupId (users db)) db in
            (mkResponse 200 true "Successfully joined the group", db)
        end
  end.

(** [leaveGroup]: [POST /api/groups/:groupId/leave] *)
Definition leaveGroup (code : string) (userId groupId : ObjectId)
    (db : Db) : Response * Db :=
  match groups db !! groupId with
  | None => (mkResponse 404 false "Group not found", db)
  | Some group =>
      if negb (bool_decide (userId ∈ Group.members group)) then
        (mkResponse 400 false "You are not a member of this group", db)
      else if (Group.creator group =? userId)%nat then
        (mkResponse 403 false
           "Group creator cannot leave. Transfer ownership or delete the group.",
         db)
      else
        match Group.removeMember code groupId userId group (groups db) with
        | Err _ => (mkResponse 500 false "Failed to leave group", db)
        | Ok (_, groups') =>
            let db := set_db_groups groups' db in
            let db := set_db_users (pull_joinedGroup userId groupId (users db)) db in
            (mkResponse 200 true "Successfully left the group", db)
        end
  end.

(** [deleteGroup]: [DELETE /api/groups/:id] *)
Definition deleteGroup (userId id : ObjectId) (db : Db) : Response * Db :=
  match groups db !! id with
  | None => (mkResponse 404 false "Group not found", db)
  | Some group =>
      if negb (Group.creator group =? userId)%nat then
        (mkResponse 403 false "Not authorized to delete this group", db)
      else
        let db := set_db_groups (alter (Group.set_isActive false) id (groups db))
                                db in
        let db :=
          set_db_users
            ((λ u, if bool_decide (id ∈ User.joinedGroups u)
                   then User.set_joinedGroups (pull id (User.joinedGroups u)) u
                   else u) <$> users db) db in
        (mkResponse 200 true "Group deleted successfully", db)
  end.

(** [addHabitToGroup]: [POST /api/groups/:groupId/habits]; [habitId] is the
    field of the body, [None] when it is absent. *)
Definition addHabitToGroup (code : string) (userId groupId : ObjectId)
    (habitId : option ObjectId) (db : Db) : Response * Db :=
  match groups db !! groupId with
  | None => (mkResponse 404 false "Group not found", db)
  | Some group =>
      if negb (bool_decide (userId ∈ Group.members group)) then
        (mkResponse 403 false "Not authorized to add habits to this group", db)
      else
        match habitId ≫= λ id, (λ h, (id, h)) <$> habits db !! id with
        | None => (mkResponse 404 false "Habit not found", db)
        | Some (habitId, habit) =>
            let isHabitCreator := (Habit.creator habit =? userId)%nat in
            let canAddHabit :=
              isHabitCreator
              || Group.allowMemberHabitCreation (Group.settings group) in
            if negb canAddHabit then
              (mkResponse 403 false
                 "Not authorized to add this habit to the group", db)
            else
              match Group.addHabit code groupId habitId group (groups db) with
              | Err _ =>
                  (mkResponse 500 false "Failed to add habit to group", db)
              | Ok (_, groups') =>
                  (mkResponse 200 true "Habit added to group successfully",
                   set_db_groups groups' db)
              end
        end
  end.

(** [.populate('members', ...)]: the members whose user document exists. *)
Definition populate_members (users : gmap ObjectId User.t) (g : Group.t)
    : Group.t :=
  Group.set_members (filter (λ m, is_Some (users !! m)) (Group.members g)) g.

(** The [data] of the answer of [findGroupByInviteCode]. *)
Record InviteLookup := mkInviteLookup {
  groupId : ObjectId;
  group : Group.t;
  isMember : bool;
  canJoin : bool
}.

(** [findGroupByInviteCode]: [GET /api/groups/invite/:inviteCode] *)
Definition findGroupByInviteCode (userId : ObjectId) (inviteCode : string)
    (db : Db) : Response * option InviteLookup :=
  if negb (truthy inviteCode) then
    (mkResponse 400 false "Invite code is required", None)
  else
    match List.find
            (λ ig, bool_decide (Group.inviteCode ig.2
                                = Some (toUpperCase inviteCode))
                   && Group.isActive ig.2)
            (map_to_list (groups db)) with
    | None => (mkResponse 404 false "No group found with this invite code", None)
    | Some (id, stored) =>
        let group := populate_members (users db) stored in
        let isMember := bool_decide (userId ∈ Group.members group) in
        (mkResponse 200 true "",
         Some (mkInviteLookup id group isMember
                 (negb isMember && negb (Group.isFull group)
                  && Group.isActive group)))
    end.

End groupController.

(** ** habitController *)

Module habitController.

(** [deleteHabit]: [DELETE /api/habits/:id] by the user [userId]. *)
Definition deleteHabit (userId id : ObjectId) (db : Db) : Response * Db :=
  match habits db !! id with
  | None => (mkResponse 404 false "Habit not found", db)
  | Some habit =>
      if negb (Habit.creator habit =? userId)%nat then
        (mkResponse 403 false "Not authorized to delete this habit", db)
      else
        let db := set_db_habits (alter (Habit.set_isActive false) id (habits db)) db in
        let db :=
          set_db_users
            (alter (λ u, User.set_createdHabits (pull id (User.createdHabits u)) u)
                   userId (users db)) db in
        let db :=
          set_db_groups
            ((λ g, if bool_decide (id ∈ Group.habits g)
                   then Group.set_habits (pull id (Group.habits g)) g
                   else g) <$> groups db) db in
        (mkResponse 200 true "Habit deleted successfully", db)
  end.

(** The fields of [req.body] that [createHabit] and [updateHabit] read;
    [None] is an absent field. *)
Record HabitBody := mkHabitBody {
  name : option string;
  description : option string;
  goal : option string;
  frequency : option string;
  duration : option Q;
  category : option string;
  targetValue : option Q;
  unit : option string;
  isActive : option bool
}.

(** The [enum] of [frequency], applied to the lower-cased string. *)
Definition parseFrequency (s : string) : option Habit.Frequency :=
  if bool_decide (toLowerCase s = "daily") then Some Habit.daily
  else if bool_decide (toLowerCase s = "weekly") then Some Habit.weekly
  else if bool_decide (toLowerCase s = "monthly") then Some Habit.monthly
  else if bool_decide (toLowerCase s = "custom") then Some Habit.custom
  else None.

(** A number is falsy when it is 0. *)
Definition truthy_number (q : option Q) : bool :=
  match q with Some q => negb (Qeq_bool q 0) | None => false end.

(** [createHabit]: [POST /api/habits]; [now] stamps [createdAt]. *)
Definition createHabit (now : Z) (userId : ObjectId) (body : HabitBody)
    (db : Db) : Response * Db :=
  if negb (truthy (default "" (name body)))
     || negb (truthy (default "" (frequency body)))
     || negb (truthy_number (duration body)) then
    (mkResponse 400 false "Name, frequency, and duration are required", db)
  else
    match parseFrequency (default "" (frequency body)) with
    | None => (mkResponse 500 false "Failed to create habit", db)
    | Some frequency_ =>
        let habit :=
          Habit.mk (trim (default "" (name body)))
                   (trim (default "" (description body)))
                   userId
                   (trim (default "" (goal body)))
                   frequency_
                   (default 0%Q (duration body))
                   true
                   (trim (default "general" (category body)))
                   (default 1%Q (targetValue body))
                   (trim (default "times" (unit body)))
                   [] now in
        let id := fresh (dom (habits db)) in
        match Habit.save id habit (habits db) with
        | Err _ => (mkResponse 500 false "Failed to create habit", db)
        | Ok (_, habits') =>
            let db := set_db_habits habits' db in
            let db :=
              set_db_users
                (alter (λ u, User.set_createdHabits
                               (User.createdHabits u ++ [id]) u)
                       userId (users db)) db in
            (mkResponse 201 true "Habit created successfully", db)
        end
    end.

(** The update document of [updateHabit], applied to a stored habit: an
    absent field leaves its path as it is, and [frequency] is set to the
    lower-cased field or to the stored value. *)
Definition apply_update (body : HabitBody) (frequency_ : Habit.Frequency)
    (h : Habit.t) : Habit.t :=
  Habit.mk (from_option trim (Habit.name h) (name body))
           (from_option trim (Habit.description h) (description body))
           (Habit.creator h)
           (from_option trim (Habit.goal h) (goal body))
           frequency_
           (default (Habit.duration h) (duration body))
           (default (Habit.isActive h) (isActive body))
           (from_option trim (Habit.category h) (category body))
           (default (Habit.targetValue h) (targetValue body))
           (from_option trim (Habit.unit h) (unit body))
           (Habit.completionDates h) (Habit.createdAt h).

(** [runValidators: true]: the validators of the paths being set. *)
Definition validate_update (body : HabitBody) : result Datatypes.unit :=
  first_error
    [from_option
       (λ n, first_error
               [check (negb (truthy (trim n))) "Habit name is required";
                check (100 <? String.length (trim n))%nat
                      "Habit name cannot exceed 100 characters"])
       (Ok ()) (name body);
     from_option
       (λ d, check (500 <? String.length (trim d))%nat
                   "Description cannot exceed 500 characters")
       (Ok ()) (description body);
     from_option
       (λ g, check (100 <? String.length (trim g))%nat
                   "Goal cannot exceed 100 characters")
       (Ok ()) (goal body);
     from_option
       (λ d, first_error
               [check (negb (Qle_bool 1 d)) "Duration must be at least 1 day";
                check (negb (Qle_bool d 365)) "Duration cannot exceed 365 days"])
       (Ok ()) (duration body);
     from_option
       (λ c, check (50 <? String.length (trim c))%nat
                   "Category cannot exceed 50 characters")
       (Ok ()) (category body);
     from_option
       (λ v, check (negb (Qle_bool 0 v)) "Target value cannot be negative")
       (Ok ()) (targetValue body);
     from_option
       (λ u, check (20 <? String.length (trim u))%nat
                   "Unit cannot exceed 20 characters")
       (Ok ()) (unit body)].

(** [updateHabit]: [PUT /api/habits/:id] *)
Definition updateHabit (userId id : ObjectId) (body : HabitBody) (db : Db)
    : Response * Db :=
  match habits db !! id with
  | None => (mkResponse 404 false "Habit not found", db)
  | Some habit =>
      if negb (Habit.creator habit =? userId)%nat then
        (mkResponse 403 false "Not authorized to update this habit", db)
      else
        let frequency_ :=
          if truthy (default "" (frequency body))
          then parseFrequency (default "" (frequency body))
          else Some (Habit.frequency habit) in
        match frequency_, validate_update body with
        | Some frequency_, Ok _ =>
            (mkResponse 200 true "Habit updated successfully",
             set_db_habits
               (<[id := apply_update body frequency_ habit]> (habits db)) db)
        | _, _ => (mkResponse 500 false "Failed to update habit", db)
        end
  end.

(** [.sort({ createdAt: -1 })] on habits with their ids. *)
Definition newest_habit_first : relation (ObjectId * Habit.t) :=
  λ a b, Habit.createdAt b.2 ≤ Habit.createdAt a.2.

Global Instance newest_habit_first_dec a b : Decision (newest_habit_first a b).
Proof. unfold newest_habit_first. apply _. Defined.

(** [getHabits]: [GET /api/habits], the active habits the user created. *)
Definition getHabits (userId : ObjectId) (db : Db)
    : Response * list (ObjectId * Habit.t) :=
  (mkResponse 200 true "",
   merge_sort newest_habit_first
     (filter (λ ih, Habit.creator ih.2 = userId ∧ Habit.isActive ih.2 = true)
             (map_to_list (habits db)))).

(** [getGroupHabits]: [GET /api/habits/group/:groupId] *)
Definition getGroupHabits (userId groupId : ObjectId) (db : Db)
    : Response * list (ObjectId * Habit.t) :=
  match groups db !! groupId with
  | None => (mkResponse 404 false "Group not found", [])
  | Some group =>
      if negb (bool_decide (userId ∈ Group.members group)) then
        (mkResponse 403 false "Not authorized to view this group's habits", [])
      else
        (mkResponse 200 true "",
         merge_sort newest_habit_first
           (filter (λ ih, ih.1 ∈ Group.habits group
                          ∧ Habit.isActive ih.2 = true)
                   (map_to_list (habits db))))
  end.

End habitController.

(** ** progressController *)

Module progressController.

(** The fields of [req.body] that [logProgress] reads; [None] is an
    absent field. *)
Record LogBody := mkLogBody {
  habitId : option ObjectId;
  date : option Z;
  completed : option bool;
  value : option Q;
  notes : option string
}.

(** The authorization check shared by the progress handlers: the user
    created the habit, or belongs to an active group that has it. *)
Definition authorized (userId habitId : ObjectId) (habit : Habit.t)
    (db : Db) : bool :=
  let isCreator := (Habit.creator habit =? userId)%nat in
  let isMember :=
    if isCreator then false
    else (0 <? length (Group.find habitId userId (groups db)))%nat in
  isCreator || isMember.

(** [logProgress]: [POST /api/progress/log] *)
Definition logProgress (now : Z) (userId : ObjectId) (body : LogBody)
    (db : Db) : Response * Db :=
  match habitId body with
  | None => (mkResponse 400 false "Habit ID is required", db)
  | Some habitId =>
      match habits db !! habitId with
      | None => (mkResponse 404 false "Habit not found", db)
      | Some habit =>
          if negb (Habit.isActive habit) then
            (mkResponse 404 false "Habit not found", db)
          else if negb (authorized userId habitId habit db) then
            (mkResponse 403 false
               "Not authorized to log progress for this habit", db)
          else
            let targetDate := setHours0 (default now (date body)) in
            match Progress.createOrUpdate now userId habitId targetDate
                    (default true (completed body)) (value body)
                    (default "" (notes body)) (progress db) with
            | Err _ => (mkResponse 500 false "Failed to log progress", db)
            | Ok (p, ledger) =>
                (mkResponse 200 true
                   (if Progress.completed p
                    then "Progress logged successfully"
                    else "Progress updated successfully"),
                 set_db_progress ledger db)
            end
      end
  end.

(** [toggleProgress]: [PUT /api/progress/:progressId/toggle] *)
Definition toggleProgress (now : Z) (userId progressId : ObjectId)
    (db : Db) : Response * Db :=
  match Progress.findById progressId (progress db) with
  | None => (mkResponse 404 false "Progress entry not found", db)
  | Some p =>
      if negb (Progress.user p =? userId)%nat then
        (mkResponse 403 false "Not authorized to modify this progress entry", db)
      else
        match Progress.toggleCompletion now p (progress db) with
        | Err _ => (mkResponse 500 false "Failed to toggle progress", db)
        | Ok (p, ledger) =>
            (mkResponse 200 true
               (if Progress.completed p
                then "Progress marked as completed"
                else "Progress marked as incomplete"),
             set_db_progress ledger db)
        end
  end.

(** [Math.round(x)] *)
Definition round (x : Q) : Z := Qfloor (x + (1 # 2))%Q.

(** The [statistics] and [progress] of the answer of [getHabitProgress]. *)
Record HabitProgress := mkHabitProgress {
  totalEntries : nat;
  completedEntries : nat;
  completionRate : Q;
  currentStreak : Z;
  progressEntries : list Progress.t
}.

(** [getHabitProgress]: [GET /api/progress/habit/:habitId], with the query
    parameters [startDate], [endDate] and [limit]. *)
Definition getHabitProgress (now : Z) (userId habitId : ObjectId)
    (startDate endDate : option Z) (limit : nat) (db : Db)
    : Response * option HabitProgress :=
  match habits db !! habitId with
  | None => (mkResponse 404 false "Habit not found", None)
  | Some habit =>
      if negb (authorized userId habitId habit db) then
        (mkResponse 403 false
           "Not authorized to view progress for this habit", None)
      else
        let progressEntries :=
          Progress.limit limit
            (Progress.getUserHabitProgress userId habitId startDate endDate
                                           (progress db)) in
        let totalEntries := length progressEntries in
        let completedEntries :=
          length (filter (λ entry, Progress.completed entry = true)
                         progressEntries) in
        let completionRate : Q :=
          if (0 <? totalEntries)%nat
          then (inject_Z (Z.of_nat completedEntries)
                / inject_Z (Z.of_nat totalEntries) * 100)%Q
          else 0%Q in
        let currentStreak :=
          Progress.getCurrentStreak now userId habitId (progress db) in
        (mkResponse 200 true "",
         Some (mkHabitProgress totalEntries completedEntries
                 (inject_Z (round (completionRate * 100)%Q) / 100)%Q
                 currentStreak progressEntries))
  end.

(** [markCompleteToday]: [POST /api/progress/complete-today].  When the
    upsert is rejected the [catch] block reads the undeclared [err] and
    throws before it answers: no response is sent. *)
Definition markCompleteToday (now : Z) (userId : ObjectId)
    (habitId : option ObjectId) (db : Db) : option Response * Db :=
  match habitId with
  | None => (Some (mkResponse 400 false "Habit ID is required"), db)
  | Some habitId =>
      match habits db !! habitId with
      | None => (Some (mkResponse 404 false "Habit not found"), db)
      | Some habit =>
          if negb (Habit.isActive habit) then
            (Some (mkResponse 404 false "Habit not found"), db)
          else if negb (authorized userId habitId habit db) then
            (Some (mkResponse 403 false
                     "Not authorized to log progress for this habit"), db)
          else
            let today := setHours0 now in
            let existing :=
              List.find (λ p, Progress.of_user_habit userId habitId p
                              && (Progress.date p =? today)
                              && Progress.completed p) (progress db) in
            match existing with
            | Some _ =>
                (Some (mkResponse 400 false "Habit already completed today"),
                 db)
            | None =>
                match Progress.createOrUpdate now userId habitId today true
                        None "" (progress db) with
                | Err _ => (None, db)
                | Ok (_, ledger) =>
                    (Some (mkResponse 200 true
                             "Habit marked as complete for today!"),
                     set_db_progress ledger db)
                end
            end
      end
  end.

End progressController.

(** ** statsController *)

Module statsController.

(** The [data] of the answer of [getDashboardStats]. *)
Record DashboardStats := mkDashboardStats {
  activeHabits : nat;
  groupsJoined : nat;
  longestStreak : Z;
  weeklyCompletionRate : Z
}.

(** The query [{ creator: userId, isActive: true }] on the habits. *)
Definition activeHabitsOf (userId : ObjectId) (db : Db)
    : list (ObjectId * Habit.t) :=
  filter (λ ih, Habit.creator ih.2 = userId ∧ Habit.isActive ih.2 = true)
         (map_to_list (habits db)).

(** [getDashboardStats]: [GET /api/stats/dashboard] *)
Definition getDashboardStats (now : Z) (userId : ObjectId) (db : Db)
    : Response * DashboardStats :=
  let activeHabitsCount := length (activeHabitsOf userId db) in
  let groupsCount :=
    length (filter (λ ig, userId ∈ Group.members ig.2
                          ∧ Group.isActive ig.2 = true)
                   (map_to_list (groups db))) in
  let longestCurrentStreak :=
    foldl (λ longest ih,
             Z.max longest
                   (Progress.getCurrentStreak now userId ih.1 (progress db)))
          0 (activeHabitsOf userId db) in
  let endDate := now in
  let startDate := now - 7 * MS_PER_DAY in
  let progressEntries :=
    filter (λ p, Progress.user p = userId
                 ∧ startDate ≤ Progress.date p ≤ endDate) (progress db) in
  let totalEntries := length progressEntries in
  let completedEntries :=
    length (filter (λ entry, Progress.completed entry = true)
                   progressEntries) in
  let weeklyCompletionRate :=
    if (0 <? totalEntries)%nat
    then progressController.round
           (inject_Z (Z.of_nat completedEntries)
            / inject_Z (Z.of_nat totalEntries) * 100)%Q
    else 0 in
  (mkResponse 200 true "",
   mkDashboardStats activeHabitsCount groupsCount longestCurrentStreak
                    weeklyCompletionRate).

End statsController.

(** * Specification-level notions and sample data *)

(** Midnight of day number [n]. *)
Definition day (n : Z) : Z := n * MS_PER_DAY.

Definition reading_habit (created : Z) (dates : list Z) : Habit.t :=
  Habit.mk "Read" "" 7%nat "" Habit.daily 30 true "general" 1 "pages"
           dates created.

Definition seven_dates : list Z :=
  [day 3; day 4; day 5; day 6; day 7; day 8; day 9].

(** Two habits agree on every field but [isActive]. *)
Definition same_but_isActive (h h' : Habit.t) : Prop :=
  Habit.name h' = Habit.name h
  ∧ Habit.description h' = Habit.description h
  ∧ Habit.creator h' = Habit.creator h
  ∧ Habit.goal h' = Habit.goal h
  ∧ Habit.frequency h' = Habit.frequency h
  ∧ Habit.duration h' = Habit.duration h
  ∧ Habit.category h' = Habit.category h
  ∧ Habit.targetValue h' = Habit.targetValue h
  ∧ Habit.unit h' = Habit.unit h
  ∧ Habit.completionDates h' = Habit.completionDates h
  ∧ Habit.createdAt h' = Habit.createdAt h.

(** Two groups agree on every field but [habits]. *)
Definition same_but_habits (g g' : Group.t) : Prop :=
  Group.name g' = Group.name g
  ∧ Group.description g' = Group.description g
  ∧ Group.members g' = Group.members g
  ∧ Group.creator g' = Group.creator g
  ∧ Group.isPrivate g' = Group.isPrivate g
  ∧ Group.maxMembers g' = Group.maxMembers g
  ∧ Group.inviteCode g' = Group.inviteCode g
  ∧ Group.tags g' = Group.tags g
  ∧ Group.settings g' = Group.settings g
  ∧ Group.statistics g' = Group.statistics g
  ∧ Group.isActive g' = Group.isActive g.

(** A small database: user 7 created habit 1, which the group 0 of users 7
    and 8 tracks; user 8 logged it on day 9. *)
Definition sample_user (name : string) (joined created : list ObjectId)
    : User.t :=
  User.mk name (name +:+ "@example.org") (Some "hash") None false name "Doe" ""
          joined created true.

Definition sample_group (members habits : list ObjectId) (creator : ObjectId)
    (maxMembers : Q) (isActive : bool) : Group.t :=
  Group.mk "Runners" "" members habits creator false maxMembers
           (Some "ABCDEFGH") [] (Group.mkSettings true true false)
           (Group.mkStatistics 0 0) isActive.

Definition sample_entry (id habit user : ObjectId) (date : Z)
    (completed : bool) : Progress.t :=
  Progress.mk id habit user date completed
              (if completed then Some date else None) "" None 0 false.

Definition sample_db : Db :=
  mkDb {[ 1%nat := reading_habit (day 0) [] ]}
       {[ 0%nat := sample_group [7%nat; 8%nat] [1%nat] 7%nat 2 true ]}
       {[ 7%nat := sample_user "ann" [0%nat] [1%nat];
          8%nat := sample_user "bob" [0%nat] [] ]}
       [sample_entry 1%nat 1%nat 8%nat (day 9) true].

(** The authorization rule of the specification: the user created the
    habit, or is a member of an active group that contains it. *)
Definition may_log (userId habitId : ObjectId) (habit : Habit.t) (db : Db)
    : Prop :=
  Habit.creator habit = userId
  ∨ ∃ gid g, groups db !! gid = Some g
             ∧ habitId ∈ Group.habits g
             ∧ userId ∈ Group.members g
             ∧ Group.isActive g = true.

Definition log_body (habitId : ObjectId) (date : Z) (completed : bool)
    : progressController.LogBody :=
  progressController.mkLogBody (Some habitId) (Some date) (Some completed)
                               None None.

(** The group invariant of the specification: no more members than
    [maxMembers], and the creator among them. *)
Definition group_invariant (g : Group.t) : Prop :=
  (inject_Z (Z.of_nat (Group.memberCount g)) <= Group.maxMembers g)%Q
  ∧ Group.creator g ∈ Group.members g.

(** [maxMembers] is a whole number. *)
Definition whole (q : Q) : Prop := ∃ n : Z, (q == inject_Z n)%Q.

(** The same database with group 0 deactivated. *)
Definition inactive_group_db : Db :=
  set_db_groups {[ 0%nat := sample_group [7%nat; 8%nat] [1%nat] 7%nat 2 false ]}
             sample_db.

(** The creator lowers [maxMembers] to 1. *)
Definition shrink_body : groupController.GroupBody :=
  groupController.mkGroupBody None None None (Some 1%Q) None None.

(** [completedAt] is set exactly when [completed] is true. *)
Definition consistent (p : Progress.t) : Prop :=
  is_Some (Progress.completedAt p) ↔ Progress.completed p = true.

(** The uniqueness tuple of a ledger entry. *)
Definition key (p : Progress.t) : ObjectId * ObjectId * Z :=
  (Progress.user p, Progress.habit p, dayOf (Progress.date p)).

(** At most one entry per (user, habit, calendar day). *)
Definition one_per_day (ledger : list Progress.t) : Prop :=
  NoDup (key <$> ledger).

(** The store gives every document its own [_id]. *)
Definition unique_ids (ledger : list Progress.t) : Prop :=
  NoDup (Progress._id <$> ledger).

(** The operations that end in [save] on a ledger entry. *)
Inductive LedgerOp :=
  | Upsert (userId habitId : ObjectId) (date : Z) (completed : bool)
           (value : option Q) (notes : string)
  | Toggle (id : ObjectId)
  | MarkCompleted (id : ObjectId) (value : option Q) (notes : string)
  | MarkIncomplete (id : ObjectId).

Definition apply_op (now : Z) (op : LedgerOp) (ledger : list Progress.t)
    : result (Progress.t * list Progress.t) :=
  match op with
  | Upsert userId habitId date completed value notes =>
      Progress.createOrUpdate now userId habitId date completed value notes
                              ledger
  | Toggle id =>
      match Progress.findById id ledger with
      | Some p => Progress.toggleCompletion now p ledger
      | None => Err "Progress entry not found"
      end
  | MarkCompleted id value notes =>
      match Progress.findById id ledger with
      | Some p => Progress.markCompleted now value notes p ledger
      | None => Err "Progress entry not found"
      end
  | MarkIncomplete id =>
      match Progress.findById id ledger with
      | Some p => Progress.markIncomplete now p ledger
      | None => Err "Progress entry not found"
      end
  end.

(** The ledger after a sequence of operations, each at its own time; an
    operation that is rejected writes nothing. *)
Fixpoint run_ops (ops : list (Z * LedgerOp)) (ledger : list Progress.t)
    : list Progress.t :=
  match ops with
  | [] => ledger
  | (now, op) :: rest =>
      match apply_op now op ledger with
      | Ok (_, ledger') => run_ops rest ledger'
      | Err _ => run_ops rest ledger
      end
  end.

(** What a successful operation did to the ledger: it rewrote one stored
    entry in place, keeping its [_id] and its key, or it appended an entry
    whose [_id] and key were not stored. *)
Definition rewrote (p' : Progress.t) (l l' : list Progress.t) : Prop :=
  ∃ e, e ∈ l ∧ Progress._id p' = Progress._id e ∧ key p' = key e
       ∧ l' = (λ q, if (Progress._id q =? Progress._id p')%nat then p' else q)
              <$> l.

Definition appended (p' : Progress.t) (l l' : list Progress.t) : Prop :=
  (∀ q, q ∈ l → Progress._id q ≠ Progress._id p' ∧ key q ≠ key p')
  ∧ l' = l ++ [p'].

Definition sample_ops : list (Z * LedgerOp) :=
  [(day 10 + 5, Upsert 8%nat 1%nat (day 10 + 3) true None "");
   (day 10 + 9, Upsert 8%nat 1%nat (day 10 + 8) false (Some 3%Q) "later");
   (day 10 + 11, Toggle 1%nat)].

(** [k] counts the consecutive days ending at [today] on which [done_on]
    holds: the [k] days [today], [today - 1], ... all satisfy it and the
    day before them does not. *)
Definition run_ending (done_on : Z → Prop) (today k : Z) : Prop :=
  0 ≤ k ∧ (∀ i, 0 ≤ i < k → done_on (today - i)) ∧ ¬ done_on (today - k).

(** The same count when at most [cap] days are examined. *)
Definition run_ending_capped (cap : Z) (done_on : Z → Prop) (today k : Z)
    : Prop :=
  0 ≤ k ≤ cap ∧ (∀ i, 0 ≤ i < k → done_on (today - i))
  ∧ (k < cap → ¬ done_on (today - k)).

(** The streak as the specification words it: the run ending at today, or
    the run ending at yesterday when today is not completed. *)
Definition tolerant_streak (done_on : Z → Prop) (today k : Z) : Prop :=
  (done_on today → run_ending done_on today k)
  ∧ (¬ done_on today → run_ending done_on (today - 1) k).

(** Day [d] is among the completion dates of the habit. *)
Definition habit_done (h : Habit.t) (d : Z) : Prop :=
  d ∈ dayOf <$> Habit.completionDates h.

(** The ledger holds an entry of the user for the habit on day [d]. *)
Definition has_entry (ledger : list Progress.t) (userId habitId : ObjectId)
    (d : Z) : Prop :=
  ∃ p, p ∈ ledger ∧ key p = (userId, habitId, d).

(** The ledger holds a completed entry of the user for the habit on day [d]. *)
Definition completed_on (ledger : list Progress.t) (userId habitId : ObjectId)
    (d : Z) : Prop :=
  ∃ p, p ∈ ledger ∧ key p = (userId, habitId, d)
       ∧ Progress.completed p = true.

(** User 8 logged habit 1 on the given days. *)
Definition entries_on (days : list Z) : list Progress.t :=
  imap (λ i d, sample_entry (S i) 1%nat 8%nat (day d + 1000) true) days.


(** The shape in which [save] leaves a group: no id twice among the members
    or the habits, the creator a member, and an invite code unless the
    group is private. *)
Definition saved_form (g : Group.t) : Prop :=
  NoDup (Group.members g) ∧ NoDup (Group.habits g)
  ∧ Group.creator g ∈ Group.members g
  ∧ (Group.isPrivate g = true
     ∨ ∃ c, Group.inviteCode g = Some c ∧ truthy c = true).

(** A database in which group 0 has room: user 7 created it and habit 1,
    user 8 has joined nothing yet. *)
Definition roomy_db : Db :=
  mkDb {[ 1%nat := reading_habit (day 0) [] ]}
       {[ 0%nat := sample_group [7%nat] [1%nat] 7%nat 5 true ]}
       {[ 7%nat := sample_user "ann" [0%nat] [1%nat];
          8%nat := sample_user "bob" [] [] ]}
       [].

(** A request to create a private group. *)
Definition private_body : groupController.GroupBody :=
  groupController.mkGroupBody (Some "Runners") None (Some true) None None None.

(** A request to create a habit, and one that switches a habit on again. *)
Definition meditate_body : habitController.HabitBody :=
  habitController.mkHabitBody (Some " Meditate ") None None (Some "Daily")
                              (Some 21%Q) None None None None.

Definition reactivate_body : habitController.HabitBody :=
  habitController.mkHabitBody None None None None None None None None
                              (Some true).

(** The requests that write to the database, and the database after the
    handler has answered the request of the user [userId]. *)
Inductive Request :=
  | CreateHabit (now : Z) (body : habitController.HabitBody)
  | UpdateHabit (id : ObjectId) (body : habitController.HabitBody)
  | DeleteHabit (id : ObjectId)
  | CreateGroup (code : string) (body : groupController.GroupBody)
  | UpdateGroup (id : ObjectId) (body : groupController.GroupBody)
  | DeleteGroup (id : ObjectId)
  | JoinGroup (code : string) (groupId : ObjectId) (inviteCode : option string)
  | LeaveGroup (code : string) (groupId : ObjectId)
  | AddHabitToGroup (code : string) (groupId : ObjectId)
                    (habitId : option ObjectId)
  | LogProgress (now : Z) (body : progressController.LogBody)
  | ToggleProgress (now : Z) (progressId : ObjectId)
  | MarkCompleteToday (now : Z) (habitId : option ObjectId).

Definition handle (userId : ObjectId) (req : Request) (db : Db) : Db :=
  match req with
  | CreateHabit now body => (habitController.createHabit now userId body db).2
  | UpdateHabit id body => (habitController.updateHabit userId id body db).2
  | DeleteHabit id => (habitController.deleteHabit userId id db).2
  | CreateGroup code body => (groupController.createGroup code userId body db).2
  | UpdateGroup id body => (groupController.updateGroup userId id body db).2
  | DeleteGroup id => (groupController.deleteGroup userId id db).2
  | JoinGroup code groupId inviteCode =>
      (groupController.joinGroup code userId groupId inviteCode db).2
  | LeaveGroup code groupId =>
      (groupController.leaveGroup code userId groupId db).2
  | AddHabitToGroup code groupId habitId =>
      (groupController.addHabitToGroup code userId groupId habitId db).2
  | LogProgress now body => (progressController.logProgress now userId body db).2
  | ToggleProgress now progressId =>
      (progressController.toggleProgress now userId progressId db).2
  | MarkCompleteToday now habitId =>
      (progressController.markCompleteToday now userId habitId db).2
  end.

Fixpoint run_requests (reqs : list (ObjectId * Request)) (db : Db) : Db :=
  match reqs with
  | [] => db
  | (userId, req) :: rest => run_requests rest (handle userId req db)
  end.

(** User 8 logs habit 1 today and yesterday, user 7 logs it and renames it,
    and user 8 creates a habit. *)
Definition sample_requests : list (ObjectId * Request) :=
  [(8%nat, MarkCompleteToday (day 10 + 5) (Some 1%nat));
   (7%nat, LogProgress (day 10 + 6) (log_body 1%nat (day 10) true));
   (7%nat, UpdateHabit 1%nat
             (habitController.mkHabitBody (Some "Read more") None None None
                                          None None None None None));
   (8%nat, CreateHabit (day 10 + 7) meditate_body)].

(** The offset of a server in Asia/Kolkata: UTC+5:30. *)
Definition UTC_plus_0530 : Z := 19800000.

(** * Properties *)

(** ** Calendar arithmetic *)

Ltac day_arith :=
  unfold setHours0, setDatePrev, dayOf, day, MS_PER_DAY in *;
  Z.div_mod_to_equations; lia.

Lemma setHours0_day d : setHours0 d = MS_PER_DAY * dayOf d.
Proof. day_arith. Qed.

Lemma dayOf_setHours0 d : dayOf (setHours0 d) = dayOf d.
Proof. day_arith. Qed.

Lemma dayOf_mono a b : a ≤ b → dayOf a ≤ dayOf b.
Proof. day_arith. Qed.

Lemma dayOf_day n : dayOf (day n) = n.
Proof. day_arith. Qed.

Lemma in_day_window a b :
  (setHours0 a <=? b) && (b <? setHours0 a + MS_PER_DAY) = true
  ↔ dayOf b = dayOf a.
Proof. rewrite andb_true_iff, Z.leb_le, Z.ltb_lt. day_arith. Qed.

(** ** The completion rate of a habit *)

Lemma expectedCompletions_eq now h (n : Z) (d : Q) :
  Habit.daysSinceCreation now h = n → (Habit.duration h == d)%Q →
  (Habit.expectedCompletions now h == Qmin (inject_Z n) d)%Q.
Proof.
  intros Hn Hd. unfold Habit.expectedCompletions. rewrite Hn, Hd. reflexivity.
Qed.

(** C2, as the code computes it: ten whole days after its creation a habit
    of duration 30 with 7 completion dates has [daysSinceCreation = 11]
    (the day of creation counts), hence 11 expected completions and a rate
    of 700/11, about 63.6 percent. *)
Theorem completionRate_ten_days now h :
  10 * MS_PER_DAY ≤ now - Habit.createdAt h < 11 * MS_PER_DAY →
  (Habit.duration h == 30)%Q →
  length (Habit.completionDates h) = 7%nat →
  Habit.daysSinceCreation now h = 11
  ∧ (Habit.expectedCompletions now h == 11)%Q
  ∧ (Habit.completionRate now h == 700 # 11)%Q.
Proof.
  intros Hage Hdur Hlen.
  assert (Hd : Habit.daysSinceCreation now h = 11).
  { unfold Habit.daysSinceCreation. day_arith. }
  assert (He : (Habit.expectedCompletions now h == 11)%Q).
  { rewrite (expectedCompletions_eq now h 11 30 Hd Hdur). reflexivity. }
  repeat split; [exact Hd | exact He |].
  unfold Habit.completionRate.
  destruct (Habit.completionDates h) as [|d0 rest] eqn:E; [discriminate|].
  rewrite Hlen.
  destruct (Qeq_bool (Habit.expectedCompletions now h) 0) eqn:E0.
  - apply Qeq_bool_eq in E0. rewrite He in E0. discriminate.
  - rewrite He. reflexivity.
Qed.

(** The figures of the specification, 10 expected completions and a rate
    of 70, are those of a habit whose ninth day has elapsed and whose tenth
    has not. *)
Lemma completionRate_nine_days now h :
  9 * MS_PER_DAY ≤ now - Habit.createdAt h < 10 * MS_PER_DAY →
  (Habit.duration h == 30)%Q →
  length (Habit.completionDates h) = 7%nat →
  (Habit.expectedCompletions now h == 10)%Q
  ∧ (Habit.completionRate now h == 70)%Q.
Proof.
  intros Hage Hdur Hlen.
  assert (Hd : Habit.daysSinceCreation now h = 10).
  { unfold Habit.daysSinceCreation. day_arith. }
  assert (He : (Habit.expectedCompletions now h == 10)%Q).
  { rewrite (expectedCompletions_eq now h 10 30 Hd Hdur). reflexivity. }
  split; [exact He|].
  unfold Habit.completionRate.
  destruct (Habit.completionDates h) as [|d0 rest] eqn:E; [discriminate|].
  rewrite Hlen.
  destruct (Qeq_bool (Habit.expectedCompletions now h) 0) eqn:E0.
  - apply Qeq_bool_eq in E0. rewrite He in E0. discriminate.
  - rewrite He. reflexivity.
Qed.

Lemma completionRate_ten_days_witness :
  Habit.daysSinceCreation (day 10) (reading_habit (day 0) seven_dates) = 11
  ∧ (Habit.expectedCompletions (day 10) (reading_habit (day 0) seven_dates)
     == 11)%Q
  ∧ (Habit.completionRate (day 10) (reading_habit (day 0) seven_dates)
     == 700 # 11)%Q.
Proof.
  apply (completionRate_ten_days (day 10) (reading_habit (day 0) seven_dates)).
  - simpl. unfold day, MS_PER_DAY. lia.
  - reflexivity.
  - reflexivity.
Defined.

(** C2 as the specification words it fails: a habit created exactly ten
    days ago, of duration 30 and with 7 completion dates, has neither 10
    expected completions nor a rate of 70. *)
Lemma completionRate_ten_days_counterexample :
  let h := reading_habit (day 0) seven_dates in
  let now := day 10 in
  now - Habit.createdAt h = 10 * MS_PER_DAY
  ∧ (Habit.duration h == 30)%Q
  ∧ length (Habit.completionDates h) = 7%nat
  ∧ ¬ (Habit.expectedCompletions now h == 10)%Q
  ∧ ¬ (Habit.completionRate now h == 70)%Q.
Proof.
  repeat split; try reflexivity; intros H; vm_compute in H; discriminate.
Qed.

Lemma percentage_bounds (c t : Z) :
  0 ≤ c → 0 < t →
  (0 <= inject_Z c / inject_Z t * 100)%Q
  ∧ (c ≤ t → (inject_Z c / inject_Z t * 100 <= 100)%Q).
Proof.
  intros Hc Ht.
  assert (Ht' : (0 < inject_Z t)%Q) by (change 0%Q with (inject_Z 0); rewrite <- Zlt_Qlt; exact Ht).
  split.
  - apply Qmult_le_0_compat; [|discriminate].
    apply Qle_shift_div_l; [exact Ht'|].
    rewrite Qmult_0_l. change 0%Q with (inject_Z 0). rewrite <- Zle_Qle. exact Hc.
  - intros Hle.
    apply (Qle_trans _ (1 * 100)); [|discriminate].
    apply Qmult_le_compat_r; [|discriminate].
    apply Qle_shift_div_r; [exact Ht'|].
    rewrite Qmult_1_l. rewrite <- Zle_Qle. exact Hle.
Qed.

Lemma length_filter_and {A} (P Q : A → bool) (l : list A) :
  (length (filter (λ x, (P x && Q x) = true) l)
   ≤ length (filter (λ x, P x = true) l))%nat.
Proof.
  induction l as [|x l IH]; [reflexivity|].
  rewrite !filter_cons.
  destruct (P x) eqn:EP, (Q x) eqn:EQ; simpl;
    repeat case_decide; simpl; try congruence; lia.
Qed.

Lemma calculateCompletionRate_bounds now userId habitId days ledger :
  (0 <= Progress.calculateCompletionRate now userId habitId days ledger <= 100)%Q.
Proof.
  unfold Progress.calculateCompletionRate.
  set (in_w := Progress.in_window userId habitId (now - days * MS_PER_DAY) now).
  pose proof (length_filter_and in_w Progress.completed ledger) as Hsub.
  destruct (0 <? length (filter (λ p, in_w p = true) ledger))%nat eqn:E.
  - apply Nat.ltb_lt in E.
    destruct (percentage_bounds
                (Z.of_nat (length (filter (λ p, (in_w p && Progress.completed p) = true) ledger)))
                (Z.of_nat (length (filter (λ p, in_w p = true) ledger))))
      as [H0 H100]; [lia | lia |].
    split; [exact H0 | apply H100; lia].
  - split; discriminate.
Qed.

Lemma expectedCompletions_pos now h :
  Habit.createdAt h ≤ now → (1 <= Habit.duration h)%Q →
  (1 <= Habit.expectedCompletions now h)%Q.
Proof.
  intros Hc Hd. unfold Habit.expectedCompletions.
  apply Q.min_glb; [|exact Hd].
  change 1%Q with (inject_Z 1). rewrite <- Zle_Qle.
  unfold Habit.daysSinceCreation. day_arith.
Qed.

(** C4: the completion rate lies in [0, 100].  For the habit virtual the
    habit is one the application can hold: created no later than the
    current date, with the duration of at least 1 that the schema demands;
    there the rate is clamped to 100 as soon as the completion dates are at
    least as many as the elapsed days.  For the ledger the bound holds for
    every ledger and window. *)
Theorem completionRate_in_range now h userId habitId days ledger :
  Habit.createdAt h ≤ now → (1 <= Habit.duration h)%Q →
  (0 <= Habit.completionRate now h <= 100)%Q
  ∧ (Habit.daysSinceCreation now h
       ≤ Z.of_nat (length (Habit.completionDates h)) →
     (Habit.completionRate now h == 100)%Q)
  ∧ (0 <= Progress.calculateCompletionRate now userId habitId days ledger
     <= 100)%Q.
Proof.
  intros Hc Hd.
  pose proof (expectedCompletions_pos now h Hc Hd) as He.
  assert (Hpos : (0 < Habit.expectedCompletions now h)%Q).
  { eapply Qlt_le_trans; [|exact He]. reflexivity. }
  split; [|split; [|apply calculateCompletionRate_bounds]].
  - unfold Habit.completionRate.
    destruct (Habit.completionDates h) as [|d0 rest]; [split; discriminate|].
    destruct (Qeq_bool (Habit.expectedCompletions now h) 0);
      [split; discriminate|].
    split; [|apply Q.le_min_r].
    apply Q.min_glb; [|discriminate].
    apply Qmult_le_0_compat; [|discriminate].
    apply Qle_shift_div_l; [exact Hpos|].
    rewrite Qmult_0_l. change 0%Q with (inject_Z 0). rewrite <- Zle_Qle. lia.
  - intros Hmany. unfold Habit.completionRate.
    assert (Hdsc : 1 ≤ Habit.daysSinceCreation now h).
    { unfold Habit.daysSinceCreation. day_arith. }
    destruct (Habit.completionDates h) as [|d0 rest] eqn:E; [simpl in Hmany; lia|].
    destruct (Qeq_bool (Habit.expectedCompletions now h) 0) eqn:E0.
    { apply Qeq_bool_eq in E0. rewrite E0 in Hpos. discriminate. }
    apply Q.min_r.
    apply (Qle_trans _ (1 * 100)); [discriminate|].
    apply Qmult_le_compat_r; [|discriminate].
    apply Qle_shift_div_l; [exact Hpos|].
    rewrite Qmult_1_l.
    eapply Qle_trans; [apply Q.le_min_l|].
    rewrite <- Zle_Qle. exact Hmany.
Qed.

Lemma completionRate_in_range_witness :
  (0 <= Habit.completionRate (day 2) (reading_habit (day 0) seven_dates)
   <= 100)%Q
  ∧ (Habit.daysSinceCreation (day 2) (reading_habit (day 0) seven_dates)
       ≤ Z.of_nat (length (Habit.completionDates
                             (reading_habit (day 0) seven_dates))) →
     (Habit.completionRate (day 2) (reading_habit (day 0) seven_dates)
      == 100)%Q)
  ∧ (0 <= Progress.calculateCompletionRate (day 2) 1%nat 2%nat 30 [] <= 100)%Q.
Proof.
  apply (completionRate_in_range (day 2) (reading_habit (day 0) seven_dates)).
  - simpl. unfold day, MS_PER_DAY. lia.
  - simpl. discriminate.
Defined.

(** ** Deleting a habit *)

Lemma not_elem_of_pull x l : x ∉ pull x l.
Proof. unfold pull. rewrite list_elem_of_filter. tauto. Qed.

Lemma pull_id x l : x ∉ l → pull x l = l.
Proof.
  intros Hx. unfold pull. induction l as [|y l IH]; [reflexivity|].
  rewrite filter_cons. rewrite not_elem_of_cons in Hx. destruct Hx as [Hy Hl].
  case_decide; [|congruence]. f_equal. apply IH, Hl.
Qed.

(** C10: when the creator deletes a habit, the habit document changes in
    [isActive] only, which becomes false; every other habit and the whole
    progress ledger are as before; the creator's [createdHabits] and every
    group's [habits] lose the id and nothing else; all other users are as
    before.  When anyone else asks, the database is unchanged. *)
Theorem deleteHabit_frame userId id db habit :
  habits db !! id = Some habit →
  let db' := (habitController.deleteHabit userId id db).2 in
  (Habit.creator habit = userId →
     (∃ habit', habits db' !! id = Some habit'
                ∧ Habit.isActive habit' = false
                ∧ same_but_isActive habit habit')
     ∧ (∀ id', id' ≠ id → habits db' !! id' = habits db !! id')
     ∧ progress db' = progress db
     ∧ (∀ u, users db !! userId = Some u →
          users db' !! userId
          = Some (User.set_createdHabits (pull id (User.createdHabits u)) u)
          ∧ id ∉ pull id (User.createdHabits u))
     ∧ (∀ uid, uid ≠ userId → users db' !! uid = users db !! uid)
     ∧ (∀ gid g, groups db !! gid = Some g →
          ∃ g', groups db' !! gid = Some g'
                ∧ Group.habits g' = pull id (Group.habits g)
                ∧ (id ∉ Group.habits g')
                ∧ same_but_habits g g')
     ∧ (∀ gid, groups db !! gid = None → groups db' !! gid = None))
  ∧ (Habit.creator habit ≠ userId → db' = db).
Proof.
  intros Hh db'. subst db'. unfold habitController.deleteHabit. rewrite Hh.
  split.
  - intros Hc. rewrite Hc, Nat.eqb_refl. simpl.
    split_and!.
    + exists (Habit.set_isActive false habit).
      rewrite lookup_alter_eq, Hh. simpl. repeat split.
    + intros id' Hne. rewrite lookup_alter_ne by congruence. reflexivity.
    + reflexivity.
    + intros u Hu. rewrite lookup_alter_eq, Hu.
      split; [reflexivity | apply not_elem_of_pull].
    + intros uid Hne. rewrite lookup_alter_ne by congruence. reflexivity.
    + intros gid g Hg. rewrite lookup_fmap, Hg. simpl.
      case_bool_decide as Hin.
      * eexists. split; [reflexivity|]. simpl.
        repeat split. apply not_elem_of_pull.
      * exists g. rewrite (pull_id _ _ Hin). repeat split. exact Hin.
    + intros gid Hg. rewrite lookup_fmap, Hg. reflexivity.
  - intros Hc. apply Nat.eqb_neq in Hc. rewrite Hc. reflexivity.
Qed.

Lemma deleteHabit_frame_witness :
  let db' := (habitController.deleteHabit 7%nat 1%nat sample_db).2 in
  habits db' !! 1%nat = Some (Habit.set_isActive false (reading_habit (day 0) []))
  ∧ progress db' = progress sample_db.
Proof.
  destruct (deleteHabit_frame 7%nat 1%nat sample_db (reading_habit (day 0) []))
    as [Hcreator _]; [reflexivity|].
  destruct (Hcreator eq_refl) as [_ [_ [Hprogress _]]].
  split; [reflexivity | exact Hprogress].
Defined.

(** ** Logging progress *)

Lemma find_nonempty habitId userId (gs : gmap ObjectId Group.t) :
  (0 <? length (Group.find habitId userId gs))%nat = true
  ↔ ∃ gid g, gs !! gid = Some g
             ∧ habitId ∈ Group.habits g
             ∧ userId ∈ Group.members g
             ∧ Group.isActive g = true.
Proof.
  rewrite Nat.ltb_lt. unfold Group.find. split.
  - intros Hlen.
    destruct (filter _ _) as [|g rest] eqn:E; [simpl in Hlen; lia|].
    assert (Hg : g ∈ g :: rest) by apply list_elem_of_here.
    rewrite <- E in Hg. apply list_elem_of_filter in Hg as [HP Hg].
    apply list_elem_of_fmap in Hg as [[gid g'] [-> Hg]].
    apply elem_of_map_to_list in Hg. exists gid, g'. tauto.
  - intros (gid & g & Hg & HP).
    assert (Hin : g ∈ filter (λ g, habitId ∈ Group.habits g
                                   ∧ userId ∈ Group.members g
                                   ∧ Group.isActive g = true)
                             (map_to_list gs).*2).
    { apply list_elem_of_filter. split; [exact HP|].
      apply list_elem_of_fmap. exists (gid, g). split; [reflexivity|].
      apply elem_of_map_to_list, Hg. }
    destruct (filter _ _); [inversion Hin | simpl; lia].
Qed.

Lemma authorized_iff userId habitId habit db :
  progressController.authorized userId habitId habit db = true
  ↔ may_log userId habitId habit db.
Proof.
  unfold progressController.authorized, may_log.
  destruct (Habit.creator habit =? userId)%nat eqn:E; simpl.
  - apply Nat.eqb_eq in E. tauto.
  - apply Nat.eqb_neq in E. rewrite find_nonempty. tauto.
Qed.

(** Whatever the request, a failing answer of [logProgress] leaves the
    database as it was, and a successful one has status 200. *)
Lemma logProgress_failure_writes_nothing now userId body db :
  let r := progressController.logProgress now userId body db in
  (success r.1 = false → r.2 = db) ∧ (success r.1 = true → status r.1 = 200).
Proof.
  unfold progressController.logProgress.
  destruct (progressController.habitId body) as [habitId|];
    [|split; [reflexivity | discriminate]].
  destruct (habits db !! habitId) as [habit|];
    [|split; [reflexivity | discriminate]].
  destruct (negb (Habit.isActive habit)); [split; [reflexivity | discriminate]|].
  destruct (negb (progressController.authorized _ _ _ _));
    [split; [reflexivity | discriminate]|].
  destruct (Progress.createOrUpdate _ _ _ _ _ _ _ _) as [[p ledger]|m];
    simpl; split; try reflexivity; discriminate.
Qed.

(** C9: for a request that names a stored habit, [logProgress] answers
    with a failure and leaves the database as it was whenever the habit is
    inactive or the caller may not log it; a successful answer implies an
    active habit, an authorized caller and a ledger that is the result of
    the upsert; and no failing answer writes anything. *)
Theorem logProgress_guard now userId body db habitId habit :
  progressController.habitId body = Some habitId →
  habits db !! habitId = Some habit →
  let r := progressController.logProgress now userId body db in
  (Habit.isActive habit = false ∨ ¬ may_log userId habitId habit db →
     success r.1 = false ∧ (status r.1 = 404 ∨ status r.1 = 403) ∧ r.2 = db)
  ∧ (success r.1 = true →
       Habit.isActive habit = true
       ∧ may_log userId habitId habit db
       ∧ ∃ p ledger,
           Progress.createOrUpdate now userId habitId
             (setHours0 (default now (progressController.date body)))
             (default true (progressController.completed body))
             (progressController.value body)
             (default "" (progressController.notes body)) (progress db)
           = Ok (p, ledger)
           ∧ r.2 = set_db_progress ledger db)
  ∧ (success r.1 = false → r.2 = db).
Proof.
  intros Hid Hh r. subst r. unfold progressController.logProgress.
  rewrite Hid, Hh.
  destruct (Habit.isActive habit) eqn:Eact; simpl.
  - destruct (progressController.authorized userId habitId habit db) eqn:Eauth;
      simpl.
    + apply authorized_iff in Eauth.
      destruct (Progress.createOrUpdate _ _ _ _ _ _ _ _) as [[p ledger]|m] eqn:Ecu;
        simpl.
      * split_and!; [intros [?|?]; [discriminate | contradiction] | | discriminate].
        intros _. split_and!; [reflexivity | exact Eauth |].
        exists p, ledger. split; reflexivity.
      * split_and!; [intros [?|?]; [discriminate | contradiction]
                    | discriminate | reflexivity].
    + split_and!; [intros _; split_and!; [reflexivity | right; reflexivity | reflexivity]
                  | discriminate | reflexivity].
  - split_and!; [intros _; split_and!; [reflexivity | left; reflexivity | reflexivity]
                | discriminate | reflexivity].
Qed.

Lemma logProgress_guard_witness :
  let r := progressController.logProgress (day 10 + 5) 9%nat
             (log_body 1%nat (day 10 + 3) true) sample_db in
  success r.1 = false ∧ (status r.1 = 404 ∨ status r.1 = 403)
  ∧ r.2 = sample_db.
Proof.
  destruct (logProgress_guard (day 10 + 5) 9%nat
              (log_body 1%nat (day 10 + 3) true) sample_db 1%nat
              (reading_habit (day 0) [])) as [Hreject _];
    [reflexivity | reflexivity |].
  apply Hreject. right. intros Hmay%authorized_iff.
  vm_compute in Hmay. discriminate.
Defined.

(** ** Joining a full group *)

(** C8, as the code decides it: a join request by a non-member to a group
    that has [maxMembers] members or more is refused and writes nothing;
    the answer is 400 "Group is full" when the group is active and 404
    "Group not found" when it is not. *)
Theorem joinGroup_full code userId groupId inviteCode db group :
  groups db !! groupId = Some group →
  (Group.maxMembers group
   <= inject_Z (Z.of_nat (Group.memberCount group)))%Q →
  userId ∉ Group.members group →
  let r := groupController.joinGroup code userId groupId inviteCode db in
  (Group.isActive group = true → r.1 = mkResponse 400 false "Group is full")
  ∧ (Group.isActive group = false →
       r.1 = mkResponse 404 false "Group not found")
  ∧ r.2 = db.
Proof.
  intros Hg Hfull Hnot r. subst r. unfold groupController.joinGroup.
  rewrite Hg.
  destruct (Group.isActive group); simpl.
  - rewrite (bool_decide_eq_false_2 _ Hnot).
    unfold Group.isFull. apply Qle_bool_iff in Hfull. rewrite Hfull.
    split_and!; [reflexivity | discriminate | reflexivity].
  - split_and!; [discriminate | reflexivity | reflexivity].
Qed.

Lemma joinGroup_full_witness :
  let r := groupController.joinGroup "JKLMNOPQ" 9%nat 0%nat None sample_db in
  r.1 = mkResponse 400 false "Group is full" ∧ r.2 = sample_db.
Proof.
  destruct (joinGroup_full "JKLMNOPQ" 9%nat 0%nat None sample_db
              (sample_group [7%nat; 8%nat] [1%nat] 7%nat 2 true))
    as [Hactive [_ Hdb]].
  - reflexivity.
  - vm_compute. discriminate.
  - apply (bool_decide_unpack _). vm_compute. exact I.
  - split; [apply Hactive; reflexivity | exact Hdb].
Defined.

(** C8 as the specification words it fails: a full group that has been
    deactivated answers a join request with 404 "Group not found", which is
    not a conflict; and no answer of [joinGroup] carries the conflict
    status 409, the full active group being refused with 400. *)
Lemma joinGroup_full_counterexample :
  let g := sample_group [7%nat; 8%nat] [1%nat] 7%nat 2 false in
  let r := groupController.joinGroup "JKLMNOPQ" 9%nat 0%nat None
             inactive_group_db in
  groups inactive_group_db !! 0%nat = Some g
  ∧ (inject_Z (Z.of_nat (Group.memberCount g)) == Group.maxMembers g)%Q
  ∧ (9%nat ∉ Group.members g)
  ∧ r.1 = mkResponse 404 false "Group not found"
  ∧ status r.1 ≠ 409
  ∧ status (groupController.joinGroup "JKLMNOPQ" 9%nat 0%nat None sample_db).1
    ≠ 409.
Proof.
  split_and!; try reflexivity; try discriminate.
  apply (bool_decide_unpack _). vm_compute. exact I.
Qed.

(** ** The group invariant *)

Lemma elem_of_dedupe x l : x ∈ dedupe l ↔ x ∈ l.
Proof.
  induction l as [|y l IH]; [reflexivity|]. simpl.
  rewrite !elem_of_cons, list_elem_of_filter, IH.
  destruct (decide (x = y)); tauto.
Qed.

Lemma length_dedupe l : (length (dedupe l) ≤ length l)%nat.
Proof.
  induction l as [|y l IH]; [reflexivity|]. simpl.
  pose proof (length_filter (λ z, z ≠ y) (dedupe l)). lia.
Qed.

Lemma length_pull x l : (length (pull x l) ≤ length l)%nat.
Proof. unfold pull. apply length_filter. Qed.

(** What the pre-save hook guarantees, and what it costs: the creator is a
    member afterwards, and the member list grows only if the creator was
    missing. *)
Lemma pre_save_members code g :
  let g' := Group.pre_save code g in
  Group.creator g' = Group.creator g
  ∧ Group.maxMembers g' = Group.maxMembers g
  ∧ Group.creator g ∈ Group.members g'
  ∧ (∀ x, x ∈ Group.members g' ↔ x ∈ Group.members g ∨ x = Group.creator g)
  ∧ (Group.creator g ∈ Group.members g →
     (length (Group.members g') ≤ length (Group.members g))%nat).
Proof.
  unfold Group.pre_save.
  set (g1 := if negb _ && negb _ then _ else g).
  assert (H1 : Group.members g1 = Group.members g
               ∧ Group.creator g1 = Group.creator g
               ∧ Group.maxMembers g1 = Group.maxMembers g).
  { subst g1. destruct (negb _ && negb _); repeat split. }
  destruct H1 as (Hm1 & Hc1 & Hx1).
  set (g2 := if bool_decide (Group.creator g1 ∈ Group.members g1) then g1 else _).
  assert (H2 : Group.creator g2 = Group.creator g
               ∧ Group.maxMembers g2 = Group.maxMembers g
               ∧ Group.creator g ∈ Group.members g2
               ∧ (∀ x, x ∈ Group.members g2
                       ↔ x ∈ Group.members g ∨ x = Group.creator g)
               ∧ (Group.creator g ∈ Group.members g →
                  Group.members g2 = Group.members g)).
  { subst g2. case_bool_decide as Hin; simpl; rewrite ?Hm1, ?Hc1, ?Hx1 in *.
    - split_and!; try done. intros x. split; [tauto|]. intros [? | ->]; done.
    - split_and!; try done.
      + rewrite elem_of_app, list_elem_of_singleton. tauto.
      + intros x. rewrite elem_of_app, list_elem_of_singleton. tauto. }
  destruct H2 as (Hc2 & Hx2 & Hin2 & Hiff2 & Hsame2).
  set (g3 := if (0 <? length (Group.members g2))%nat then _ else g2).
  assert (H3 : Group.creator g3 = Group.creator g
               ∧ Group.maxMembers g3 = Group.maxMembers g
               ∧ (∀ x, x ∈ Group.members g3 ↔ x ∈ Group.members g2)
               ∧ (length (Group.members g3) ≤ length (Group.members g2))%nat).
  { subst g3. destruct (0 <? length (Group.members g2))%nat; simpl.
    - split_and!; try done.
      + intros x. apply elem_of_dedupe.
      + apply length_dedupe.
    - split_and!; try done. }
  destruct H3 as (Hc3 & Hx3 & Hiff3 & Hlen3).
  assert (H4 : ∀ g0 : Group.t,
             Group.members (if (0 <? length (Group.habits g0))%nat
                            then Group.set_habits (dedupe (Group.habits g0)) g0
                            else g0) = Group.members g0
             ∧ Group.creator (if (0 <? length (Group.habits g0))%nat
                              then Group.set_habits (dedupe (Group.habits g0)) g0
                              else g0) = Group.creator g0
             ∧ Group.maxMembers (if (0 <? length (Group.habits g0))%nat
                                 then Group.set_habits (dedupe (Group.habits g0)) g0
                                 else g0) = Group.maxMembers g0).
  { intros g0. destruct (0 <? length (Group.habits g0))%nat; repeat split. }
  destruct (H4 g3) as (-> & -> & ->).
  split_and!; try done.
  - apply Hiff3, Hin2.
  - intros x. rewrite Hiff3. apply Hiff2.
  - intros Hin. rewrite <- (Hsame2 Hin). exact Hlen3.
Qed.

Lemma save_Ok code id g gs g' gs' :
  Group.save code id g gs = Ok (g', gs') →
  Group.validate g = Ok () ∧ g' = Group.pre_save code g
  ∧ gs' = <[id := g']> gs.
Proof.
  unfold Group.save. destruct (Group.validate g) as [[]|m]; [|discriminate].
  intros [= <- <-]. repeat split.
Qed.

Lemma save_keeps_invariant code id g gs g' gs' :
  Group.save code id g gs = Ok (g', gs') →
  Group.creator g ∈ Group.members g →
  (inject_Z (Z.of_nat (length (Group.members g))) <= Group.maxMembers g)%Q →
  group_invariant g' ∧ gs' = <[id := g']> gs
  ∧ Group.maxMembers g' = Group.maxMembers g.
Proof.
  intros (_ & -> & ->)%save_Ok Hin Hle.
  destruct (pre_save_members code g) as (Hc & Hx & Hin' & _ & Hlen).
  split_and!; [|reflexivity|exact Hx].
  split.
  - unfold Group.memberCount. rewrite Hx.
    eapply Qle_trans; [|exact Hle].
    rewrite <- Zle_Qle. specialize (Hlen Hin). lia.
  - rewrite Hc. exact Hin'.
Qed.



(** X2: [joinGroup] keeps the invariant of a group whose [maxMembers] is a
    whole number, and touches no other group. *)
Lemma joinGroup_invariant code userId groupId inviteCode db g :
  groups db !! groupId = Some g → group_invariant g →
  whole (Group.maxMembers g) →
  let r := groupController.joinGroup code userId groupId inviteCode db in
  (∃ g', groups r.2 !! groupId = Some g' ∧ group_invariant g')
  ∧ (∀ gid, gid ≠ groupId → groups r.2 !! gid = groups db !! gid).
Proof.
  intros Hg [Hcap Hcr] [n Hn] r. subst r.
  unfold groupController.joinGroup. rewrite Hg.
  assert (Hsame : (∃ g', groups db !! groupId = Some g' ∧ group_invariant g')
                  ∧ (∀ gid, gid ≠ groupId → groups db !! gid = groups db !! gid)).
  { split; [exists g; repeat split; assumption | reflexivity]. }
  destruct (negb (Group.isActive g)); [exact Hsame|].
  case_bool_decide as Hmem; [exact Hsame|].
  destruct (Group.isFull g) eqn:Efull; [exact Hsame|].
  destruct (Group.isPrivate g && _); [exact Hsame|].
  unfold Group.addMember. rewrite Efull, (bool_decide_eq_false_2 _ Hmem).
  destruct (Group.save _ _ _ _) as [[g' gs']|m] eqn:E; [|exact Hsame].
  simpl. apply save_keeps_invariant in E as (Hinv & -> & _).
  - split.
    + exists g'. rewrite lookup_insert_eq. split; [reflexivity | exact Hinv].
    + intros gid Hne. rewrite lookup_insert_ne by congruence. reflexivity.
  - simpl. apply elem_of_app. left. exact Hcr.
  - simpl. rewrite length_app. simpl.
    unfold Group.isFull in Efull.
    assert (Hlt : ¬ (Group.maxMembers g
                     <= inject_Z (Z.of_nat (Group.memberCount g)))%Q).
    { rewrite <- Qle_bool_iff, Efull. discriminate. }
    apply Qnot_le_lt in Hlt. rewrite Hn in Hlt. rewrite Hn.
    rewrite <- Zlt_Qlt in Hlt. rewrite <- Zle_Qle.
    unfold Group.memberCount in Hlt. lia.
Qed.

(** X3: [leaveGroup] keeps the invariant, and touches no other group. *)
Lemma leaveGroup_invariant code userId groupId db g :
  groups db !! groupId = Some g → group_invariant g →
  let r := groupController.leaveGroup code userId groupId db in
  (∃ g', groups r.2 !! groupId = Some g' ∧ group_invariant g')
  ∧ (∀ gid, gid ≠ groupId → groups r.2 !! gid = groups db !! gid).
Proof.
  intros Hg [Hcap Hcr] r. subst r.
  unfold groupController.leaveGroup. rewrite Hg.
  assert (Hsame : (∃ g', groups db !! groupId = Some g' ∧ group_invariant g')
                  ∧ (∀ gid, gid ≠ groupId → groups db !! gid = groups db !! gid)).
  { split; [exists g; repeat split; assumption | reflexivity]. }
  destruct (negb (bool_decide _)); [exact Hsame|].
  destruct (Group.creator g =? userId)%nat eqn:Ecr; [exact Hsame|].
  apply Nat.eqb_neq in Ecr.
  unfold Group.removeMember.
  destruct (Group.save _ _ _ _) as [[g' gs']|m] eqn:E; [|exact Hsame].
  simpl. apply save_keeps_invariant in E as (Hinv & -> & _).
  - split.
    + exists g'. rewrite lookup_insert_eq. split; [reflexivity | exact Hinv].
    + intros gid Hne. rewrite lookup_insert_ne by congruence. reflexivity.
  - simpl. unfold pull. apply list_elem_of_filter. split; assumption.
  - simpl. eapply Qle_trans; [|exact Hcap].
    rewrite <- Zle_Qle. pose proof (length_pull userId (Group.members g)).
    unfold Group.memberCount. lia.
Qed.

(** [updateGroup] never changes the members or the creator of a group. *)
Lemma updateGroup_members userId id body db g :
  groups db !! id = Some g →
  let r := groupController.updateGroup userId id body db in
  ∃ g', groups r.2 !! id = Some g'
        ∧ Group.members g' = Group.members g
        ∧ Group.creator g' = Group.creator g.
Proof.
  intros Hg r. subst r. unfold groupController.updateGroup. rewrite Hg.
  destruct (negb _); [exists g; repeat split; exact Hg|].
  destruct (groupController.validate_update body);
    [|exists g; repeat split; exact Hg].
  simpl. rewrite lookup_insert_eq. eexists. repeat split.
Qed.

(** C7 at the input on which it fails: group 0 of the sample database
    satisfies the invariant with its two members and [maxMembers = 2]; its
    creator lowers [maxMembers] to 1; [updateGroup] answers 200 and stores
    the group with the same two members, so that the member count now
    exceeds [maxMembers]. *)
Theorem updateGroup_breaks_capacity :
  let g := sample_group [7%nat; 8%nat] [1%nat] 7%nat 2 true in
  let r := groupController.updateGroup 7%nat 0%nat shrink_body sample_db in
  groups sample_db !! 0%nat = Some g
  ∧ group_invariant g
  ∧ status r.1 = 200
  ∧ groups r.2 !! 0%nat
    = Some (sample_group [7%nat; 8%nat] [1%nat] 7%nat 1 true)
  ∧ ¬ group_invariant (sample_group [7%nat; 8%nat] [1%nat] 7%nat 1 true).
Proof.
  split_and!.
  - reflexivity.
  - split; [discriminate | apply list_elem_of_here].
  - reflexivity.
  - reflexivity.
  - intros [Hcap _]. vm_compute in Hcap. apply Hcap. reflexivity.
Qed.

(** ** The progress ledger *)

Lemma pre_save_fields now p :
  let p' := Progress.pre_save now p in
  Progress._id p' = Progress._id p
  ∧ Progress.user p' = Progress.user p
  ∧ Progress.habit p' = Progress.habit p
  ∧ Progress.date p' = setHours0 (Progress.date p)
  ∧ Progress.completed p' = Progress.completed p
  ∧ Progress.value p' = Progress.value p
  ∧ Progress.notes p' = Progress.notes p.
Proof.
  destruct p as [i h u d c [a|] n v s late]; destruct c;
    unfold Progress.pre_save; simpl; repeat split.
Qed.

Lemma pre_save_consistent now p : consistent (Progress.pre_save now p).
Proof.
  destruct p as [i h u d c [a|] n v s late]; destruct c;
    unfold Progress.pre_save, consistent; simpl;
    split; intros H; try reflexivity; try discriminate;
    try (eexists; reflexivity); destruct H; discriminate.
Qed.

Lemma pre_save_key now p : key (Progress.pre_save now p) = key p.
Proof.
  destruct (pre_save_fields now p) as (_ & Hu & Hh & Hd & _).
  unfold key. rewrite Hu, Hh, Hd, dayOf_setHours0. reflexivity.
Qed.

Lemma save_Ok_ledger now p l p' l' :
  Progress.save now p l = Ok (p', l') →
  p' = Progress.pre_save now p ∧ l' = Progress.write p' l.
Proof.
  unfold Progress.save. destruct (Progress.validate p); [|discriminate].
  destruct (Progress.duplicate_key _ _); [discriminate|].
  intros [= <- <-]. split; reflexivity.
Qed.

Lemma stored_iff l id :
  Progress.stored l id = true ↔ ∃ q, q ∈ l ∧ Progress._id q = id.
Proof.
  unfold Progress.stored. rewrite existsb_exists. split.
  - intros (q & Hq & E). exists q. rewrite list_elem_of_In.
    apply Nat.eqb_eq in E. tauto.
  - intros (q & Hq & E). exists q. rewrite <- list_elem_of_In.
    apply Nat.eqb_eq in E. tauto.
Qed.

Lemma fresh_id_above l q :
  q ∈ l → (Progress._id q < Progress.fresh_id l)%nat.
Proof.
  unfold Progress.fresh_id.
  induction 1 as [q l|q r l _ IH]; rewrite fmap_cons; cbn [foldr]; lia.
Qed.

(** Saving a changed copy of a stored entry rewrites that entry. *)
Lemma save_rewrites now p e l p' l' :
  Progress.save now p l = Ok (p', l') →
  e ∈ l → Progress._id p = Progress._id e → key p = key e →
  rewrote p' l l' ∧ consistent p'.
Proof.
  intros (-> & ->)%save_Ok_ledger He Hid Hkey.
  destruct (pre_save_fields now p) as (Hid' & _).
  split; [|apply pre_save_consistent].
  exists e. split_and!; [exact He | congruence | |].
  - rewrite pre_save_key. exact Hkey.
  - unfold Progress.write.
    assert (Hst : Progress.stored l (Progress._id (Progress.pre_save now p))
                  = true).
    { apply stored_iff. exists e. split; [exact He | congruence]. }
    rewrite Hst. reflexivity.
Qed.

(** Saving a new document whose [_id] and key are not stored appends it. *)
Lemma save_appends now p l p' l' :
  Progress.save now p l = Ok (p', l') →
  (∀ q, q ∈ l → Progress._id q ≠ Progress._id p ∧ key q ≠ key p) →
  appended p' l l' ∧ consistent p'.
Proof.
  intros (-> & ->)%save_Ok_ledger Hnew.
  destruct (pre_save_fields now p) as (Hid' & _).
  split; [|apply pre_save_consistent].
  split.
  - intros q Hq. rewrite pre_save_key, Hid'. apply Hnew, Hq.
  - unfold Progress.write.
    destruct (Progress.stored l _) eqn:Hst; [|reflexivity].
    apply stored_iff in Hst as (q & Hq & E).
    destruct (Hnew q Hq) as [Hne _]. congruence.
Qed.

Lemma findById_Some id l p :
  Progress.findById id l = Some p → p ∈ l ∧ Progress._id p = id.
Proof.
  unfold Progress.findById. intros H. apply find_some in H as [Hin E].
  apply Nat.eqb_eq in E. rewrite list_elem_of_In. tauto.
Qed.

Lemma NoDup_fmap_eq {A B} (f : A → B) (l : list A) x y :
  NoDup (f <$> l) → x ∈ l → y ∈ l → f x = f y → x = y.
Proof.
  induction l as [|z l IH]; intros Hnd Hx Hy E; [inversion Hx|].
  rewrite fmap_cons in Hnd. apply NoDup_cons in Hnd as [Hz Hnd].
  apply elem_of_cons in Hx as [->|Hx]; apply elem_of_cons in Hy as [->|Hy].
  - reflexivity.
  - exfalso. apply Hz. rewrite E. apply list_elem_of_fmap. eauto.
  - exfalso. apply Hz. rewrite <- E. apply list_elem_of_fmap. eauto.
  - apply IH; assumption.
Qed.

Lemma createOrUpdate_shape now u h d c v n l p' l' :
  Progress.createOrUpdate now u h d c v n l = Ok (p', l') →
  key p' = (u, h, dayOf d) ∧ Progress.completed p' = c ∧ consistent p'
  ∧ ((∃ e, e ∈ l ∧ key e = (u, h, dayOf d)) ∧ rewrote p' l l'
     ∨ (∀ q, q ∈ l → key q ≠ (u, h, dayOf d)) ∧ appended p' l l').
Proof.
  unfold Progress.createOrUpdate.
  destruct (List.find _ l) as [e|] eqn:Efind.
  - apply find_some in Efind as [He Hpred].
    apply list_elem_of_In in He.
    rewrite <- andb_assoc, andb_true_iff, in_day_window in Hpred.
    destruct Hpred as [Huh Hday]. unfold Progress.of_user_habit in Huh.
    apply andb_true_iff in Huh as [Hu%Nat.eqb_eq Hh%Nat.eqb_eq].
    assert (Hkey : key e = (u, h, dayOf d)) by (unfold key; congruence).
    set (p := if c && negb _ then _ else _).
    assert (Hp : Progress._id p = Progress._id e ∧ key p = key e
                 ∧ Progress.completed p = c).
    { subst p. destruct v, (truthy n), c; simpl;
        destruct (Progress.completedAt e); simpl; repeat split. }
    destruct Hp as (Hid & Hk & Hc).
    intros Hsave. pose proof Hsave as (-> & _)%save_Ok_ledger.
    destruct (save_rewrites _ _ e _ _ _ Hsave He Hid Hk) as [Hrw Hcons].
    destruct (pre_save_fields now p) as (_ & _ & _ & _ & Hc' & _).
    split_and!; [rewrite pre_save_key; congruence | congruence | exact Hcons |].
    left. split; [exists e; split; assumption | exact Hrw].
  - intros Hsave. pose proof Hsave as (-> & _)%save_Ok_ledger.
    set (p := Progress.mk _ _ _ _ _ _ _ _ _ _) in *.
    assert (Hk : key p = (u, h, dayOf d)).
    { unfold key, p. simpl. rewrite dayOf_setHours0. reflexivity. }
    assert (Hnone : ∀ q, q ∈ l → key q ≠ (u, h, dayOf d)).
    { intros q Hq Hkq. apply list_elem_of_In in Hq.
      pose proof (find_none _ _ Efind q Hq) as Hpred. simpl in Hpred.
      unfold key in Hkq. injection Hkq as Hu Hh Hd.
      rewrite <- andb_assoc in Hpred. apply andb_false_iff in Hpred as [Huh|Hw].
      - unfold Progress.of_user_habit in Huh. subst u h.
        rewrite !Nat.eqb_refl in Huh. discriminate.
      - apply not_true_iff_false in Hw. apply Hw, in_day_window, Hd. }
    destruct (save_appends _ _ _ _ _ Hsave) as [Happ Hcons].
    { intros q Hq. split.
      - pose proof (fresh_id_above l q Hq). unfold p. simpl. lia.
      - rewrite Hk. apply Hnone, Hq. }
    destruct (pre_save_fields now p) as (_ & _ & _ & _ & Hc' & _).
    split_and!; [rewrite pre_save_key; exact Hk | exact Hc' | exact Hcons |].
    right. split; assumption.
Qed.

Lemma apply_op_shape now op l p' l' :
  apply_op now op l = Ok (p', l') →
  consistent p' ∧ (rewrote p' l l' ∨ appended p' l l').
Proof.
  destruct op as [u h d c v n|id|id v n|id]; simpl.
  - intros (_ & _ & Hcons & [[_ H]|[_ H]])%createOrUpdate_shape; tauto.
  - destruct (Progress.findById id l) as [e|] eqn:E; [|discriminate].
    apply findById_Some in E as [He _].
    unfold Progress.toggleCompletion. intros Hsave.
    destruct (save_rewrites _ _ e _ _ _ Hsave He) as [Hrw Hcons];
      [reflexivity | reflexivity | tauto].
  - destruct (Progress.findById id l) as [e|] eqn:E; [|discriminate].
    apply findById_Some in E as [He _].
    unfold Progress.markCompleted. intros Hsave.
    destruct (save_rewrites _ _ e _ _ _ Hsave He) as [Hrw Hcons];
      [destruct v, (truthy n); reflexivity
      | destruct v, (truthy n); reflexivity | tauto].
  - destruct (Progress.findById id l) as [e|] eqn:E; [|discriminate].
    apply findById_Some in E as [He _].
    unfold Progress.markIncomplete. intros Hsave.
    destruct (save_rewrites _ _ e _ _ _ Hsave He) as [Hrw Hcons];
      [reflexivity | reflexivity | tauto].
Qed.

Lemma rewrote_elems p' l l' :
  rewrote p' l l' → p' ∈ l' ∧ (∀ q, q ∈ l' → q = p' ∨ q ∈ l).
Proof.
  intros (e & He & Hid & Hkey & ->). split.
  - apply list_elem_of_fmap. exists e. split; [|exact He].
    rewrite Hid, Nat.eqb_refl. reflexivity.
  - intros q (q0 & -> & Hq0)%list_elem_of_fmap.
    destruct (Progress._id q0 =? Progress._id p')%nat; [left | right]; done.
Qed.

Lemma appended_elems p' l l' :
  appended p' l l' → p' ∈ l' ∧ (∀ q, q ∈ l' → q = p' ∨ q ∈ l).
Proof.
  intros [_ ->]. split.
  - apply elem_of_app. right. apply list_elem_of_here.
  - intros q [Hq|Hq%list_elem_of_singleton]%elem_of_app; [right | left]; done.
Qed.

Lemma rewrote_invariants p' l l' :
  rewrote p' l l' → unique_ids l →
  key <$> l' = key <$> l ∧ Progress._id <$> l' = Progress._id <$> l.
Proof.
  intros (e & He & Hid & Hkey & ->) Hids.
  assert (Hsame : ∀ q, q ∈ l →
            (Progress._id q =? Progress._id p')%nat = true → q = e).
  { intros q Hq E%Nat.eqb_eq.
    apply (NoDup_fmap_eq Progress._id l); [exact Hids | exact Hq | exact He |].
    congruence. }
  split.
  - rewrite <- list_fmap_compose. apply Forall_fmap_ext_1, Forall_forall.
    intros q Hq. simpl.
    destruct (Progress._id q =? Progress._id p')%nat eqn:E; [|reflexivity].
    rewrite (Hsame q Hq E). exact Hkey.
  - rewrite <- list_fmap_compose. apply Forall_fmap_ext_1, Forall_forall.
    intros q Hq. simpl.
    destruct (Progress._id q =? Progress._id p')%nat eqn:E; [|reflexivity].
    symmetry. apply Nat.eqb_eq, E.
Qed.

Lemma appended_invariants p' l l' :
  appended p' l l' → unique_ids l → one_per_day l →
  unique_ids l' ∧ one_per_day l'.
Proof.
  intros [Hnew ->] Hids Hkeys. unfold unique_ids, one_per_day.
  rewrite !fmap_app. simpl. split; apply NoDup_app.
  - split_and!; [exact Hids | | apply NoDup_singleton].
    intros i (q & -> & Hq)%list_elem_of_fmap Hi%list_elem_of_singleton.
    destruct (Hnew q Hq). contradiction.
  - split_and!; [exact Hkeys | | apply NoDup_singleton].
    intros k (q & -> & Hq)%list_elem_of_fmap Hk%list_elem_of_singleton.
    destruct (Hnew q Hq). contradiction.
Qed.

Lemma apply_op_invariants now op l p' l' :
  apply_op now op l = Ok (p', l') → unique_ids l → one_per_day l →
  unique_ids l' ∧ one_per_day l' ∧ p' ∈ l'.
Proof.
  intros [_ [Hrw|Happ]]%apply_op_shape Hids Hkeys.
  - destruct (rewrote_invariants _ _ _ Hrw Hids) as (Hk & Hi).
    destruct (rewrote_elems _ _ _ Hrw) as [Hin _].
    unfold unique_ids, one_per_day. rewrite Hk, Hi. tauto.
  - destruct (appended_invariants _ _ _ Happ Hids Hkeys) as [? ?].
    destruct (appended_elems _ _ _ Happ) as [Hin _]. tauto.
Qed.

Lemma run_ops_invariants ops l :
  unique_ids l → one_per_day l →
  unique_ids (run_ops ops l) ∧ one_per_day (run_ops ops l).
Proof.
  revert l. induction ops as [|[now op] ops IH]; intros l Hids Hkeys;
    [split; assumption|].
  simpl. destruct (apply_op now op l) as [[p' l']|m] eqn:E.
  - apply apply_op_invariants in E as (? & ? & _); [|assumption..].
    apply IH; assumption.
  - apply IH; assumption.
Qed.




Lemma setHours0_idem d : setHours0 (setHours0 d) = setHours0 d.
Proof. day_arith. Qed.

Lemma elem_of_write p l : p ∈ Progress.write p l.
Proof.
  unfold Progress.write. destruct (Progress.stored l (Progress._id p)) eqn:Est.
  - apply stored_iff in Est as (q & Hq & E).
    apply list_elem_of_fmap. exists q. split; [|exact Hq].
    rewrite E, Nat.eqb_refl. reflexivity.
  - apply elem_of_app. right. apply list_elem_of_here.
Qed.

Lemma save_entry_facts now p l p' l' :
  Progress.save now p l = Ok (p', l') →
  setHours0 (Progress.date p') = Progress.date p' ∧ p' ∈ l'.
Proof.
  intros (-> & ->)%save_Ok_ledger.
  destruct (pre_save_fields now p) as (_ & _ & _ & -> & _).
  split; [apply setHours0_idem | apply elem_of_write].
Qed.

Lemma pre_save_validate now p :
  Progress.validate (Progress.pre_save now p) = Progress.validate p
  ∧ Progress.streak (Progress.pre_save now p) = Progress.streak p.
Proof.
  destruct p as [i h u d c [a|] n v s late]; destruct c;
    unfold Progress.pre_save; simpl; split; reflexivity.
Qed.

Lemma duplicate_key_false_intro l p :
  (∀ q, q ∈ l → Progress._id q ≠ Progress._id p →
        ¬ (Progress.habit q = Progress.habit p
           ∧ Progress.user q = Progress.user p
           ∧ Progress.date q = Progress.date p)) →
  Progress.duplicate_key l p = false.
Proof.
  intros Hnone. apply not_true_iff_false. unfold Progress.duplicate_key.
  rewrite existsb_exists. intros (q & Hq%list_elem_of_In & Hpred).
  rewrite !andb_true_iff, negb_true_iff, !Nat.eqb_eq, Nat.eqb_neq, Z.eqb_eq
    in Hpred.
  apply (Hnone q Hq); tauto.
Qed.

Lemma createOrUpdate_saved now u h d c v n l p' l' :
  Progress.createOrUpdate now u h d c v n l = Ok (p', l') →
  ∃ p, Progress.save now p l = Ok (p', l').
Proof.
  unfold Progress.createOrUpdate. destruct (List.find _ l); eauto.
Qed.

Lemma createOrUpdate_entry now u h d c v n l p' l' :
  Progress.createOrUpdate now u h d c v n l = Ok (p', l') →
  p' ∈ l' ∧ Progress.user p' = u ∧ Progress.habit p' = h
  ∧ Progress.date p' = setHours0 d ∧ Progress.completed p' = c.
Proof.
  intros E. pose proof E as (p & Hsave)%createOrUpdate_saved.
  apply save_entry_facts in Hsave as (Hmid & Hin).
  apply createOrUpdate_shape in E as (Hk & Hc & _).
  unfold key in Hk. injection Hk as Hu Hh Hd.
  split_and!; [exact Hin | exact Hu | exact Hh | | exact Hc].
  rewrite <- Hmid. day_arith.
Qed.

Lemma save_Ok_intro now p l :
  Progress.validate p = Ok () →
  Progress.duplicate_key l (Progress.pre_save now p) = false →
  Progress.save now p l
  = Ok (Progress.pre_save now p, Progress.write (Progress.pre_save now p) l).
Proof. unfold Progress.save. intros -> ->. reflexivity. Qed.

Lemma validate_Ok_iff p :
  Progress.validate p = Ok ()
  ↔ (String.length (Progress.notes p) ≤ 500)%nat
    ∧ (∀ q, Progress.value p = Some q → (0 <= q)%Q)
    ∧ (0 <= Progress.streak p)%Q.
Proof.
  unfold Progress.validate.
  destruct (Nat.ltb_spec 500 (String.length (Progress.notes p))) as [Hn|Hn].
  { split; [discriminate | intros (? & _); lia]. }
  destruct (Progress.value p) as [q|].
  - destruct (Qle_bool 0 q) eqn:Eq; cbn [negb].
    + apply Qle_bool_iff in Eq.
      destruct (Qle_bool 0 (Progress.streak p)) eqn:Es; cbn [negb].
      * apply Qle_bool_iff in Es. split; [|reflexivity]. intros _.
        split_and!; [lia | intros ? [= <-]; exact Eq | exact Es].
      * split; [discriminate|]. intros (_ & _ & Hs%Qle_bool_iff). congruence.
    + split; [discriminate|]. intros (_ & Hv & _).
      specialize (Hv q eq_refl). apply Qle_bool_iff in Hv. congruence.
  - destruct (Qle_bool 0 (Progress.streak p)) eqn:Es; cbn [negb].
    + apply Qle_bool_iff in Es. split; [|reflexivity]. intros _.
      split_and!; [lia | discriminate | exact Es].
    + split; [discriminate|]. intros (_ & _ & Hs%Qle_bool_iff). congruence.
Qed.

Lemma createOrUpdate_valid now u h d c v n l p' l' :
  Progress.createOrUpdate now u h d c v n l = Ok (p', l') →
  Progress.validate p' = Ok ().
Proof.
  intros (p & Hsave)%createOrUpdate_saved. unfold Progress.save in Hsave.
  destruct (Progress.validate p) as [[]|] eqn:Hv; [|discriminate].
  destruct (Progress.duplicate_key _ _); [discriminate|].
  injection Hsave as <- _. rewrite (proj1 (pre_save_validate now p)). exact Hv.
Qed.

(** An upsert whose key is stored, with arguments the validators accept,
    succeeds and rewrites the stored entry. *)
Lemma createOrUpdate_rewrites now u h d c v n (l : list Progress.t) e :
  one_per_day l → e ∈ l → key e = (u, h, dayOf d) →
  Progress.validate e = Ok () →
  (String.length (trim n) ≤ 500)%nat → (∀ q, v = Some q → (0 <= q)%Q) →
  ∃ p, Progress.createOrUpdate now u h d c v n l
       = Ok (p, (λ q, if (Progress._id q =? Progress._id e)%nat then p else q)
                <$> l)
       ∧ Progress._id p = Progress._id e
       ∧ Progress.user p = u ∧ Progress.habit p = h
       ∧ Progress.date p = setHours0 d
       ∧ Progress.completed p = c
       ∧ Progress.value p
         = match v with Some _ => v | None => Progress.value e end
       ∧ Progress.notes p = (if truthy n then trim n else Progress.notes e).
Proof.
  intros Hkeys He Hk Hve Hn Hv. unfold Progress.createOrUpdate.
  pose proof Hk as Hk0. unfold key in Hk0. injection Hk0 as Hu Hh Hd.
  destruct (List.find _ l) as [e'|] eqn:Efind.
  - apply find_some in Efind as [He' Hpred].
    apply list_elem_of_In in He'.
    rewrite <- andb_assoc, andb_true_iff, in_day_window in Hpred.
    destruct Hpred as [Huh Hday]. unfold Progress.of_user_habit in Huh.
    apply andb_true_iff in Huh as [Hu'%Nat.eqb_eq Hh'%Nat.eqb_eq].
    assert (e' = e) as ->.
    { apply (NoDup_fmap_eq key l); [exact Hkeys | exact He' | exact He |].
      unfold key. congruence. }
    set (p := if c && negb _ then _ else _).
    assert (Hp : Progress._id p = Progress._id e
                 ∧ Progress.user p = Progress.user e
                 ∧ Progress.habit p = Progress.habit e
                 ∧ Progress.date p = Progress.date e
                 ∧ Progress.completed p = c
                 ∧ Progress.value p
                   = match v with Some _ => v | None => Progress.value e end
                 ∧ Progress.notes p
                   = (if truthy n then trim n else Progress.notes e)
                 ∧ Progress.streak p = Progress.streak e).
    { subst p. destruct v, (truthy n), c; simpl;
        destruct (Progress.completedAt e); simpl; repeat split. }
    destruct Hp as (Hid & Hpu & Hph & Hpd & Hpc & Hpv & Hpn & Hps).
    destruct (pre_save_fields now p)
      as (Hid' & Hu'' & Hh'' & Hd'' & Hc'' & Hv'' & Hn'').
    assert (Hvp : Progress.validate p = Ok ()).
    { apply validate_Ok_iff in Hve as (Hen & Hev & Hes).
      apply validate_Ok_iff. rewrite Hpn, Hpv, Hps. split_and!.
      - destruct (truthy n); assumption.
      - destruct v as [q0|]; [intros q [= <-]; apply Hv; reflexivity | exact Hev].
      - exact Hes. }
    assert (Hdup : Progress.duplicate_key l (Progress.pre_save now p) = false).
    { apply duplicate_key_false_intro. intros q Hq Hne (Hqh & Hqu & Hqd).
      apply Hne. rewrite Hid', Hid. f_equal.
      apply (NoDup_fmap_eq key l); [exact Hkeys | exact Hq | exact He |].
      unfold key. rewrite Hqh, Hqu, Hqd, Hu'', Hh'', Hd'', Hpu, Hph, Hpd.
      rewrite dayOf_setHours0. reflexivity. }
    rewrite (save_Ok_intro _ _ _ Hvp Hdup).
    exists (Progress.pre_save now p).
    assert (Hst : Progress.stored l (Progress._id (Progress.pre_save now p))
                  = true).
    { apply stored_iff. exists e. split; [exact He | congruence]. }
    unfold Progress.write. rewrite Hst, Hid', Hid.
    split_and!; try congruence.
    rewrite Hd'', Hpd. day_arith.
  - exfalso. apply list_elem_of_In in He.
    pose proof (find_none _ _ Efind e He) as Hpred. cbn beta in Hpred.
    rewrite <- andb_assoc in Hpred. apply andb_false_iff in Hpred as [Huh|Hw].
    + unfold Progress.of_user_habit in Huh. subst u h.
      rewrite !Nat.eqb_refl in Huh. discriminate.
    + apply not_true_iff_false in Hw. apply Hw, in_day_window, Hd.
Qed.

(** An upsert whose key is not stored, with arguments the validators
    accept, succeeds and appends an entry. *)
Lemma createOrUpdate_creates now u h d c v n (l : list Progress.t) :
  (∀ q, q ∈ l → key q ≠ (u, h, dayOf d)) →
  (String.length (trim n) ≤ 500)%nat → (∀ q, v = Some q → (0 <= q)%Q) →
  ∃ p, Progress.createOrUpdate now u h d c v n l = Ok (p, l ++ [p])
       ∧ Progress.completed p = c ∧ key p = (u, h, dayOf d).
Proof.
  intros Hnone Hn Hv. unfold Progress.createOrUpdate.
  destruct (List.find _ l) as [e|] eqn:Efind.
  - exfalso. apply find_some in Efind as [He Hpred].
    apply list_elem_of_In in He.
    rewrite <- andb_assoc, andb_true_iff, in_day_window in Hpred.
    destruct Hpred as [Huh Hday]. unfold Progress.of_user_habit in Huh.
    apply andb_true_iff in Huh as [Hu%Nat.eqb_eq Hh%Nat.eqb_eq].
    apply (Hnone e He). unfold key. congruence.
  - set (p := Progress.mk _ _ _ _ _ _ _ _ _ _).
    destruct (pre_save_fields now p)
      as (Hid' & Hu' & Hh' & Hd' & Hc' & _).
    assert (Hvp : Progress.validate p = Ok ()).
    { apply validate_Ok_iff. unfold p. cbn.
      split_and!; [exact Hn | exact Hv | discriminate]. }
    assert (Hdup : Progress.duplicate_key l (Progress.pre_save now p) = false).
    { apply duplicate_key_false_intro. intros q Hq _ (Hqh & Hqu & Hqd).
      apply (Hnone q Hq). unfold key.
      rewrite Hqh, Hqu, Hqd, Hu', Hh', Hd'. unfold p. cbn.
      rewrite !dayOf_setHours0. reflexivity. }
    rewrite (save_Ok_intro _ _ _ Hvp Hdup).
    exists (Progress.pre_save now p).
    assert (Hst : Progress.stored l (Progress._id (Progress.pre_save now p))
                  = false).
    { apply not_true_iff_false. intros (q & Hq & E)%stored_iff.
      pose proof (fresh_id_above l q Hq) as Hlt.
      rewrite Hid' in E. unfold p in E. cbn in E. lia. }
    unfold Progress.write. rewrite Hst.
    split_and!; [reflexivity | rewrite Hc'; reflexivity |].
    rewrite pre_save_key. unfold key, p. cbn.
    rewrite dayOf_setHours0. reflexivity.
Qed.

(** C3: on a ledger with one entry per (user, habit, calendar day), every
    sequence of upserts and other saving operations leaves one entry per
    (user, habit, calendar day).  An upsert that follows a successful
    upsert for the same user, habit and day, with notes and a value that
    the schema validators accept, succeeds and adds no row: it rewrites the
    entry of the first call in place, which keeps its [_id], user, habit
    and date and takes the new [completed] flag, the new value unless it is
    [null] and the new notes unless they are empty.  And the first upsert
    itself succeeds whenever its notes and value are accepted and the
    stored entries are valid. *)
Theorem upsert_one_per_day ops ledger :
  unique_ids ledger → one_per_day ledger →
  one_per_day (run_ops ops ledger)
  ∧ (∀ now1 now2 u h d1 d2 c1 c2 v1 v2 n1 n2 p1 l1,
       dayOf d1 = dayOf d2 →
       Progress.createOrUpdate now1 u h d1 c1 v1 n1 ledger = Ok (p1, l1) →
       (String.length (trim n2) ≤ 500)%nat →
       (∀ q, v2 = Some q → (0 <= q)%Q) →
       ∃ p2 l2,
         Progress.createOrUpdate now2 u h d2 c2 v2 n2 l1 = Ok (p2, l2)
         ∧ l2 = (λ q, if (Progress._id q =? Progress._id p1)%nat
                      then p2 else q) <$> l1
         ∧ length l2 = length l1
         ∧ Progress._id p2 = Progress._id p1
         ∧ Progress.user p2 = u ∧ Progress.habit p2 = h
         ∧ Progress.date p2 = Progress.date p1
         ∧ Progress.completed p2 = c2
         ∧ Progress.value p2
           = match v2 with Some _ => v2 | None => Progress.value p1 end
         ∧ Progress.notes p2
           = (if truthy n2 then trim n2 else Progress.notes p1)
         ∧ p2 ∈ l2
         ∧ one_per_day l2)
  ∧ ((∀ e, e ∈ ledger → Progress.validate e = Ok ()) →
     ∀ now u h d c v n,
       (String.length (trim n) ≤ 500)%nat →
       (∀ q, v = Some q → (0 <= q)%Q) →
       ∃ p l', Progress.createOrUpdate now u h d c v n ledger = Ok (p, l')
               ∧ p ∈ l' ∧ Progress.completed p = c
               ∧ key p = (u, h, dayOf d)).
Proof.
  intros Hids Hkeys. split_and!; [apply run_ops_invariants; assumption | |].
  - intros now1 now2 u h d1 d2 c1 c2 v1 v2 n1 n2 p1 l1 Hday H1 Hn2 Hv2.
    destruct (apply_op_invariants now1 (Upsert u h d1 c1 v1 n1) _ _ _ H1
                Hids Hkeys) as (Hids1 & Hkeys1 & Hin1).
    pose proof (createOrUpdate_valid _ _ _ _ _ _ _ _ _ _ H1) as Hvalid1.
    pose proof (createOrUpdate_entry _ _ _ _ _ _ _ _ _ _ H1)
      as (_ & Hu1 & Hh1 & Hd1 & _).
    assert (Hk1 : key p1 = (u, h, dayOf d2)).
    { unfold key. rewrite Hu1, Hh1, Hd1, dayOf_setHours0, Hday. reflexivity. }
    destruct (createOrUpdate_rewrites now2 u h d2 c2 v2 n2 l1 p1
                Hkeys1 Hin1 Hk1 Hvalid1 Hn2 Hv2)
      as (p2 & H2 & Hid & Hu2 & Hh2 & Hd2 & Hc2 & Hval2 & Hnotes2).
    destruct (apply_op_invariants now2 (Upsert u h d2 c2 v2 n2) _ _ _ H2
                Hids1 Hkeys1) as (_ & Hkeys2 & Hin2).
    eexists p2, _. split; [exact H2|].
    split_and!; try assumption; try reflexivity.
    + apply length_fmap.
    + rewrite Hd2, Hd1. day_arith.
  - intros Hvalid now u h d c v n Hn Hv.
    destruct (List.find (λ e, bool_decide (key e = (u, h, dayOf d))) ledger)
      as [e|] eqn:Efind.
    + apply find_some in Efind as [He%list_elem_of_In Hk%bool_decide_eq_true].
      destruct (createOrUpdate_rewrites now u h d c v n ledger e
                  Hkeys He Hk (Hvalid e He) Hn Hv)
        as (p & H & Hid & Hu & Hh & Hd & Hc & _).
      eexists p, _. split; [exact H|].
      destruct (apply_op_invariants now (Upsert u h d c v n) _ _ _ H
                  Hids Hkeys) as (_ & _ & Hin).
      split_and!; [exact Hin | exact Hc |].
      unfold key. rewrite Hu, Hh, Hd, dayOf_setHours0. reflexivity.
    + destruct (createOrUpdate_creates now u h d c v n ledger)
        as (p & H & Hc & Hk); [|exact Hn | exact Hv |].
      * intros q Hq%list_elem_of_In Hk.
        pose proof (find_none _ _ Efind q Hq) as Hpred. cbn beta in Hpred.
        apply bool_decide_eq_false in Hpred. contradiction.
      * eexists p, _. split; [exact H|].
        split_and!; [|exact Hc | exact Hk].
        apply elem_of_app. right. apply list_elem_of_here.
Qed.

Lemma upsert_one_per_day_witness :
  ∃ p1 l1 p2 l2,
    Progress.createOrUpdate (day 10 + 5) 8%nat 1%nat (day 10 + 3) true None ""
                            [] = Ok (p1, l1)
    ∧ Progress.createOrUpdate (day 10 + 9) 8%nat 1%nat (day 10 + 8) false
                              (Some 3%Q) "later" l1 = Ok (p2, l2)
    ∧ l1 = [Progress.mk 1%nat 1%nat 8%nat (day 10) true (Some (day 10 + 5))
                        "" None 0 false]
    ∧ l2 = [Progress.mk 1%nat 1%nat 8%nat (day 10) false None
                        "later" (Some 3%Q) 0 false]
    ∧ one_per_day l2.
Proof.
  set (p1 := Progress.mk 1%nat 1%nat 8%nat (day 10) true (Some (day 10 + 5))
                         "" None 0 false).
  assert (E1 : Progress.createOrUpdate (day 10 + 5) 8%nat 1%nat (day 10 + 3)
                 true None "" [] = Ok (p1, [p1]))
    by (vm_compute; reflexivity).
  assert (E2 : Progress.createOrUpdate (day 10 + 9) 8%nat 1%nat (day 10 + 8)
                 false (Some 3%Q) "later" [p1]
               = Ok (Progress.mk 1%nat 1%nat 8%nat (day 10) false None
                                 "later" (Some 3%Q) 0 false,
                     [Progress.mk 1%nat 1%nat 8%nat (day 10) false None
                                  "later" (Some 3%Q) 0 false]))
    by (vm_compute; reflexivity).
  destruct (upsert_one_per_day [] []) as (_ & Hsecond & _);
    [apply NoDup_nil_2 | apply NoDup_nil_2 |].
  destruct (Hsecond (day 10 + 5) (day 10 + 9) 8%nat 1%nat (day 10 + 3)
              (day 10 + 8) true false None (Some 3%Q) "" "later" p1 [p1])
    as (p2 & l2 & H2 & _ & _ & _ & _ & _ & _ & _ & _ & _ & _ & Hone).
  - vm_compute. reflexivity.
  - exact E1.
  - apply Nat.leb_le. vm_compute. reflexivity.
  - intros q [= <-]. discriminate.
  - rewrite E2 in H2. injection H2 as <- <-.
    exists p1, [p1]. eexists _, _.
    split; [exact E1|]. split; [exact E2|].
    split; [reflexivity|]. split; [reflexivity | exact Hone].
Defined.

Example run_sample_ops :
  run_ops sample_ops []
  = [Progress.mk 1%nat 1%nat 8%nat (day 10) true (Some (day 10 + 11))
                 "later" (Some 3%Q) 0 false].
Proof. vm_compute. reflexivity. Qed.

(** ** Streaks *)

Global Instance newest_first_trans : Transitive newest_first.
Proof. unfold newest_first. intros a b c. lia. Qed.

Global Instance newest_first_total : Total newest_first.
Proof. unfold newest_first. intros a b. lia. Qed.

Global Instance newest_entry_first_trans :
  Transitive Progress.newest_entry_first.
Proof. unfold Progress.newest_entry_first. intros a b c. lia. Qed.

Global Instance newest_entry_first_total : Total Progress.newest_entry_first.
Proof. unfold Progress.newest_entry_first. intros a b. lia. Qed.

Lemma setHours0_now now : setHours0 now = day (dayOf now).
Proof. day_arith. Qed.

Lemma setHours0_eqb_day d c : (setHours0 d =? day c) = (dayOf d =? c).
Proof.
  destruct (Z.eqb_spec (setHours0 d) (day c)), (Z.eqb_spec (dayOf d) c);
    try reflexivity; exfalso; day_arith.
Qed.

Lemma setHours0_eqb_next d c :
  (setHours0 d =? day c + MS_PER_DAY) = (dayOf d =? c + 1).
Proof.
  destruct (Z.eqb_spec (setHours0 d) (day c + MS_PER_DAY)),
           (Z.eqb_spec (dayOf d) (c + 1));
    try reflexivity; exfalso; day_arith.
Qed.

Lemma setDatePrev_day c : setDatePrev (day c) = day (c - 1).
Proof. day_arith. Qed.

Lemma daysDiff_day t d : (day t - setHours0 d) `div` MS_PER_DAY = t - dayOf d.
Proof. day_arith. Qed.

(** A list sorted most recent first in which no two dates fall on the same
    day is strictly decreasing in the day. *)
Lemma strictly_by_day {A} (f : A → Z) (l : list A) :
  StronglySorted (λ a b, f b ≤ f a) l →
  NoDup ((λ a, dayOf (f a)) <$> l) →
  StronglySorted (λ a b, dayOf (f b) < dayOf (f a)) l.
Proof.
  induction 1 as [|x l Hsorted IH Hall]; intros Hnd; constructor.
  - apply IH. rewrite fmap_cons in Hnd. apply NoDup_cons in Hnd. tauto.
  - rewrite fmap_cons in Hnd. apply NoDup_cons in Hnd as [Hx _].
    rewrite Forall_forall in Hall |- *. intros y Hy.
    pose proof (dayOf_mono _ _ (Hall y Hy)) as Hle.
    assert (dayOf (f y) ≠ dayOf (f x)); [|lia].
    intros E. apply Hx. rewrite <- E.
    apply (list_elem_of_fmap_2 (λ a, dayOf (f a))), Hy.
Qed.

(** The loop of the habit virtual on dates that are strictly decreasing in
    the day and not later than the day [c] being checked. *)
Lemma habit_streakLoop_run l c s :
  StronglySorted (λ a b, dayOf b < dayOf a) l →
  (∀ d, d ∈ l → dayOf d ≤ c) →
  let r := Habit.streakLoop l (day c) s in
  s ≤ r
  ∧ (∀ i, 0 ≤ i < r - s → c - i ∈ dayOf <$> l)
  ∧ c - (r - s) ∉ dayOf <$> l.
Proof.
  intros Hsorted. revert c s.
  induction Hsorted as [|d l Hsorted IH Hall]; intros c s Hle; simpl.
  - split_and!; [lia | intros; lia | apply not_elem_of_nil].
  - rewrite Forall_forall in Hall.
    rewrite setHours0_eqb_day, setHours0_eqb_next, setDatePrev_day.
    pose proof (Hle d (list_elem_of_here _ _)) as Hd.
    destruct (Z.eqb_spec (dayOf d) c) as [Heq|Hne].
    + destruct (IH (c - 1) (s + 1)) as (Hr & Hrun & Hstop).
      { intros y Hy. specialize (Hall y Hy). lia. }
      split_and!; [lia | |].
      * intros i Hi. destruct (decide (i = 0)) as [->|Hi0].
        -- rewrite Z.sub_0_r, <- Heq. apply list_elem_of_here.
        -- apply list_elem_of_further.
           replace (c - i) with (c - 1 - (i - 1)) by lia. apply Hrun. lia.
      * rewrite not_elem_of_cons. split; [lia|].
        replace (c - (Habit.streakLoop l (day (c - 1)) (s + 1) - s))
          with (c - 1 - (Habit.streakLoop l (day (c - 1)) (s + 1) - (s + 1)))
          by lia.
        exact Hstop.
    + destruct (Z.eqb_spec (dayOf d) (c + 1)) as [Heq|_]; [lia|].
      split_and!; [lia | intros; lia |].
      rewrite Z.sub_diag, Z.sub_0_r, not_elem_of_cons. split; [congruence|].
      intros (y & Hy1 & Hy2)%list_elem_of_fmap. specialize (Hall y Hy2). lia.
Qed.

(** The habit virtual on distinct days none of which is later than today:
    its result is the run of completed days that ends today. *)
Lemma currentStreak_run now h :
  NoDup (dayOf <$> Habit.completionDates h) →
  (∀ c, c ∈ Habit.completionDates h → dayOf c ≤ dayOf now) →
  run_ending (habit_done h) (dayOf now) (Habit.currentStreak now h).
Proof.
  intros Hnd Hle. unfold Habit.currentStreak, habit_done.
  destruct (Habit.completionDates h) as [|d0 rest] eqn:E.
  - split_and!; [lia | intros; lia | apply not_elem_of_nil].
  - rewrite <- E in *. clear E d0 rest.
    set (dates := Habit.completionDates h) in *.
    pose proof (merge_sort_Permutation newest_first dates) as Hperm.
    pose proof (StronglySorted_merge_sort newest_first dates) as Hsorted.
    apply (strictly_by_day (λ a, a)) in Hsorted;
      [|change (NoDup (dayOf <$> merge_sort newest_first dates));
        rewrite Hperm; exact Hnd].
    rewrite setHours0_now.
    destruct (habit_streakLoop_run _ (dayOf now) 0 Hsorted) as (Hr & Hrun & Hstop).
    { intros d Hd. apply Hle. rewrite <- Hperm. exact Hd. }
    assert (Hmem : ∀ x, x ∈ dayOf <$> merge_sort newest_first dates
                        ↔ x ∈ dayOf <$> dates).
    { intros x. rewrite Hperm. reflexivity. }
    rewrite Z.sub_0_r in Hstop.
    split_and!; [exact Hr | | rewrite <- Hmem; exact Hstop].
    intros i Hi. apply Hmem, Hrun. lia.
Qed.

(** The loop of [getCurrentStreak] on the first [n] of entries that are
    strictly decreasing in the day and not later than day [t - s]. *)
Lemma progress_streakLoop_run l n t s :
  StronglySorted
    (λ p q, dayOf (Progress.date q) < dayOf (Progress.date p)) l →
  (∀ p, p ∈ l → dayOf (Progress.date p) ≤ t - s) →
  let r := Progress.streakLoop (take n l) (day t) s in
  s ≤ r ≤ s + Z.of_nat n
  ∧ (∀ i, s ≤ i < r →
       ∃ p, p ∈ l ∧ dayOf (Progress.date p) = t - i
            ∧ Progress.completed p = true)
  ∧ (r < s + Z.of_nat n →
       ¬ ∃ p, p ∈ l ∧ dayOf (Progress.date p) = t - r
              ∧ Progress.completed p = true).
Proof.
  intros Hsorted. revert n s.
  induction Hsorted as [|e l Hsorted IH Hall]; intros n s Hle.
  - rewrite take_nil. simpl.
    split_and!; [lia | lia | intros; lia |].
    intros _ (p & Hp & _). inversion Hp.
  - destruct n as [|n].
    { simpl. split_and!; [lia | lia | intros; lia | lia]. }
    rewrite Forall_forall in Hall. cbn [take Progress.streakLoop].
    rewrite daysDiff_day.
    pose proof (Hle e (list_elem_of_here _ _)) as He.
    destruct (Z.eqb_spec (t - dayOf (Progress.date e)) s) as [Heq|Hne];
      [destruct (Progress.completed e) eqn:Ec|]; cbn [andb].
    + destruct (IH n (s + 1)) as (Hr & Hrun & Hstop).
      { intros y Hy. specialize (Hall y Hy). lia. }
      split_and!; [lia | lia | |].
      * intros i Hi. destruct (decide (i = s)) as [->|Hi0].
        -- exists e. split_and!; [apply list_elem_of_here | lia | exact Ec].
        -- destruct (Hrun i) as (p & Hp & Hday & Hc); [lia|].
           exists p. split_and!; [apply list_elem_of_further, Hp | exact Hday | exact Hc].
      * intros Hlt (p & [->|Hp]%elem_of_cons & Hday & Hc); [lia|].
        apply Hstop; [lia|]. exists p. tauto.
    + split_and!; [lia | lia | intros; lia |].
      intros _ (p & [->|Hp]%elem_of_cons & Hday & Hc); [congruence|].
      specialize (Hall p Hp). lia.
    + split_and!; [lia | lia | intros; lia |].
      intros _ (p & [->|Hp]%elem_of_cons & Hday & Hc); [lia|].
      specialize (Hall p Hp). lia.
Qed.

Lemma elem_of_user_habit (ledger : list Progress.t) u h p :
  p ∈ filter (λ p, Progress.of_user_habit u h p = true) ledger
  ↔ p ∈ ledger ∧ Progress.user p = u ∧ Progress.habit p = h.
Proof.
  rewrite list_elem_of_filter. unfold Progress.of_user_habit.
  rewrite andb_true_iff, !Nat.eqb_eq. tauto.
Qed.

(** The days of one user's entries for one habit are distinct when the
    ledger has one entry per (user, habit, day). *)
Lemma one_per_day_user_habit (ledger : list Progress.t) u h :
  one_per_day ledger →
  NoDup ((λ p, dayOf (Progress.date p))
         <$> filter (λ p, Progress.of_user_habit u h p = true) ledger).
Proof.
  intros Hkeys.
  assert (Hsub : NoDup (key <$> filter (λ p, Progress.of_user_habit u h p = true)
                                       ledger)).
  { eapply sublist_NoDup; [exact Hkeys|]. apply fmap_sublist, sublist_filter. }
  apply NoDup_fmap_2_strong; [|eapply NoDup_fmap_1, Hsub].
  intros p q Hp Hq Hday.
  apply (NoDup_fmap_eq key _ p q Hsub Hp Hq).
  apply elem_of_user_habit in Hp as (_ & Hpu & Hph).
  apply elem_of_user_habit in Hq as (_ & Hqu & Hqh).
  unfold key. congruence.
Qed.

(** [getCurrentStreak] on a ledger with one entry per (user, habit, day)
    and no entry of the user for the habit after today: its result is the
    run of days with a completed entry that ends today, among the 365 most
    recent entries. *)
Lemma getCurrentStreak_run now u h ledger :
  one_per_day ledger →
  (∀ d, has_entry ledger u h d → d ≤ dayOf now) →
  run_ending_capped 365 (completed_on ledger u h) (dayOf now)
                    (Progress.getCurrentStreak now u h ledger).
Proof.
  intros Hkeys Hpast. unfold Progress.getCurrentStreak.
  set (entries := filter (λ p, Progress.of_user_habit u h p = true) ledger).
  pose proof (merge_sort_Permutation Progress.newest_entry_first entries)
    as Hperm.
  pose proof (StronglySorted_merge_sort Progress.newest_entry_first entries)
    as Hsorted.
  assert (Hmem : ∀ p, p ∈ merge_sort Progress.newest_entry_first entries
                      ↔ p ∈ ledger ∧ Progress.user p = u
                        ∧ Progress.habit p = h).
  { intros p. rewrite Hperm. apply elem_of_user_habit. }
  apply (strictly_by_day Progress.date) in Hsorted;
    [|rewrite Hperm; apply one_per_day_user_habit, Hkeys].
  rewrite setHours0_now.
  destruct (progress_streakLoop_run _ 365 (dayOf now) 0 Hsorted)
    as (Hr & Hrun & Hstop).
  { intros p (Hp & Hu & Hh)%Hmem. rewrite Z.sub_0_r. apply Hpast.
    exists p. split; [exact Hp|]. unfold key. congruence. }
  split_and!; [lia | lia | |].
  - intros i Hi. destruct (Hrun i) as (p & (Hp & Hu & Hh)%Hmem & Hday & Hc); [lia|].
    exists p. split_and!; [exact Hp | unfold key; congruence | exact Hc].
  - intros Hlt (p & Hp & Hk & Hc). apply Hstop; [lia|].
    unfold key in Hk. injection Hk as Hu Hh Hd.
    exists p. split_and!; [apply Hmem; tauto | exact Hd | exact Hc].
Qed.

(** Without an entry for today [getCurrentStreak] is 0, whatever else the
    ledger holds. *)
Lemma getCurrentStreak_without_today now u h ledger :
  ¬ has_entry ledger u h (dayOf now) →
  Progress.getCurrentStreak now u h ledger = 0.
Proof.
  intros Hno. unfold Progress.getCurrentStreak.
  set (entries := filter (λ p, Progress.of_user_habit u h p = true) ledger).
  pose proof (merge_sort_Permutation Progress.newest_entry_first entries)
    as Hperm.
  destruct (merge_sort _ entries) as [|e rest] eqn:E; [reflexivity|].
  cbn [take Progress.streakLoop].
  rewrite (setHours0_now now), daysDiff_day.
  destruct (Z.eqb_spec (dayOf now - dayOf (Progress.date e)) 0) as [Heq|Hne];
    [|reflexivity].
  exfalso. apply Hno.
  assert (He : e ∈ entries) by (rewrite <- Hperm; apply list_elem_of_here).
  apply elem_of_user_habit in He as (He & Hu & Hh).
  exists e. split; [exact He|]. unfold key. rewrite Hu, Hh. f_equal. lia.
Qed.

(** C1, as the code computes it.  On a ledger with one entry per (user,
    habit, day) and none after today, [getCurrentStreak] is the number of
    consecutive days ending today that have a completed entry, among the
    365 most recent entries; it is 0 when today has no completed entry,
    yesterday being given no tolerance.  On distinct completion days none
    of which is after today, and with today completed, the [currentStreak]
    virtual is the number of consecutive completed days ending today. *)
Theorem streak_counts_run_ending_today now u hid ledger h :
  one_per_day ledger →
  (∀ d, has_entry ledger u hid d → d ≤ dayOf now) →
  NoDup (dayOf <$> Habit.completionDates h) →
  (∀ c, c ∈ Habit.completionDates h → dayOf c ≤ dayOf now) →
  habit_done h (dayOf now) →
  run_ending_capped 365 (completed_on ledger u hid) (dayOf now)
                    (Progress.getCurrentStreak now u hid ledger)
  ∧ (¬ completed_on ledger u hid (dayOf now) →
     Progress.getCurrentStreak now u hid ledger = 0)
  ∧ run_ending (habit_done h) (dayOf now) (Habit.currentStreak now h).
Proof.
  intros Hkeys Hpast Hnd Hle _.
  pose proof (getCurrentStreak_run now u hid ledger Hkeys Hpast) as Hrun.
  split_and!; [exact Hrun | | apply currentStreak_run; assumption].
  intros Hnot. destruct Hrun as (Hk & Hdays & _).
  destruct (decide (Progress.getCurrentStreak now u hid ledger = 0))
    as [E|E]; [exact E|].
  exfalso. apply Hnot. rewrite <- (Z.sub_0_r (dayOf now)). apply Hdays. lia.
Qed.

Lemma streak_counts_run_ending_today_witness :
  let now := day 10 + 5000 in
  let ledger := entries_on [10; 9; 7] in
  let h := reading_habit (day 0) [day 7; day 9 + 60; day 10 + 30] in
  run_ending_capped 365 (completed_on ledger 8%nat 1%nat) (dayOf now)
                    (Progress.getCurrentStreak now 8%nat 1%nat ledger)
  ∧ (¬ completed_on ledger 8%nat 1%nat (dayOf now) →
     Progress.getCurrentStreak now 8%nat 1%nat ledger = 0)
  ∧ run_ending (habit_done h) (dayOf now) (Habit.currentStreak now h).
Proof.
  apply (streak_counts_run_ending_today (day 10 + 5000) 8%nat 1%nat
           (entries_on [10; 9; 7])
           (reading_habit (day 0) [day 7; day 9 + 60; day 10 + 30])).
  - apply (bool_decide_unpack _). vm_compute. exact I.
  - intros d (p & Hp & Hk). vm_compute in Hp.
    repeat (apply elem_of_cons in Hp as [->|Hp];
            [vm_compute in Hk; injection Hk as <-; vm_compute; discriminate|]).
    inversion Hp.
  - apply (bool_decide_unpack _). vm_compute. exact I.
  - intros c Hc. simpl in Hc.
    repeat (apply elem_of_cons in Hc as [->|Hc]; [vm_compute; discriminate|]).
    inversion Hc.
  - unfold habit_done. apply (bool_decide_unpack _). vm_compute. exact I.
Defined.

Example streak_of_the_witness :
  Progress.getCurrentStreak (day 10 + 5000) 8%nat 1%nat (entries_on [10; 9; 7])
  = 2
  ∧ Habit.currentStreak (day 10 + 5000)
      (reading_habit (day 0) [day 7; day 9 + 60; day 10 + 30]) = 2.
Proof. split; vm_compute; reflexivity. Qed.

(** C1 as the specification words it fails: with a completed entry for
    yesterday and none for today, [getCurrentStreak] is 0, where the run
    ending at yesterday has length 1. *)
Lemma streak_tolerance_counterexample :
  let now := day 10 + 5000 in
  let ledger := entries_on [9] in
  one_per_day ledger
  ∧ completed_on ledger 8%nat 1%nat (dayOf now - 1)
  ∧ ¬ completed_on ledger 8%nat 1%nat (dayOf now)
  ∧ Progress.getCurrentStreak now 8%nat 1%nat ledger = 0
  ∧ ¬ tolerant_streak (completed_on ledger 8%nat 1%nat) (dayOf now)
        (Progress.getCurrentStreak now 8%nat 1%nat ledger).
Proof.
  intros now ledger.
  assert (Hyesterday : completed_on ledger 8%nat 1%nat (dayOf now - 1)).
  { exists (sample_entry 1%nat 1%nat 8%nat (day 9 + 1000) true).
    split_and!; [apply list_elem_of_here | reflexivity | reflexivity]. }
  assert (Htoday : ¬ completed_on ledger 8%nat 1%nat (dayOf now)).
  { intros (p & Hp & Hk & _). vm_compute in Hp.
    apply list_elem_of_singleton in Hp as ->. vm_compute in Hk. discriminate. }
  split_and!; [apply (bool_decide_unpack _); vm_compute; exact I
              | exact Hyesterday | exact Htoday | reflexivity |].
  intros [_ Hrun]. destruct (Hrun Htoday) as (_ & _ & Hstop).
  apply Hstop. exact Hyesterday.
Qed.

(** The same with the habit virtual: its second branch compares the
    completion day with the day after the one being checked, so a
    completion yesterday alone gives 0. *)
Example currentStreak_yesterday_only :
  Habit.currentStreak (day 10 + 5000) (reading_habit (day 0) [day 9 + 60]) = 0.
Proof. vm_compute. reflexivity. Qed.

(** An entry dated after today ends the loop of [getCurrentStreak] at once,
    and a date two days ahead does the same to the habit virtual, although
    today is completed. *)
Example streak_with_future_dates :
  Progress.getCurrentStreak (day 10 + 5000) 8%nat 1%nat (entries_on [10; 11])
  = 0
  ∧ Habit.currentStreak (day 10 + 5000)
      (reading_habit (day 0) [day 10 + 30; day 12]) = 0.
Proof. split; vm_compute; reflexivity. Qed.

(** The habit virtual is 0 when neither today nor tomorrow is among the
    completion days. *)
Lemma currentStreak_without_today_tomorrow now h :
  ¬ habit_done h (dayOf now) → ¬ habit_done h (dayOf now + 1) →
  Habit.currentStreak now h = 0.
Proof.
  unfold habit_done, Habit.currentStreak. intros Htoday Htomorrow.
  destruct (Habit.completionDates h) as [|d0 rest] eqn:E; [reflexivity|].
  rewrite <- E in *. clear E d0 rest.
  pose proof (merge_sort_Permutation newest_first (Habit.completionDates h))
    as Hperm.
  destruct (merge_sort _ _) as [|d l]; [reflexivity|].
  assert (Hd : d ∈ Habit.completionDates h)
    by (rewrite <- Hperm; apply list_elem_of_here).
  cbn [Habit.streakLoop].
  rewrite (setHours0_now now), setHours0_eqb_day, setHours0_eqb_next.
  destruct (Z.eqb_spec (dayOf d) (dayOf now)) as [E1|_].
  { exfalso. apply Htoday. rewrite <- E1. apply list_elem_of_fmap_2, Hd. }
  destruct (Z.eqb_spec (dayOf d) (dayOf now + 1)) as [E2|_]; [|reflexivity].
  exfalso. apply Htomorrow. rewrite <- E2. apply list_elem_of_fmap_2, Hd.
Qed.

(** C5 at the input on which it fails: the only completion date of the
    habit is tomorrow, so neither today nor yesterday is present, and the
    [currentStreak] virtual is 1. *)
Theorem currentStreak_tomorrow_only :
  let now := day 10 + 5000 in
  let h := reading_habit (day 0) [day 11 + 60] in
  ¬ habit_done h (dayOf now)
  ∧ ¬ habit_done h (dayOf now - 1)
  ∧ Habit.currentStreak now h = 1.
Proof.
  split_and!; [| | vm_compute; reflexivity];
    intros Hin; vm_compute in Hin;
    apply list_elem_of_singleton in Hin; discriminate.
Qed.

(** ** Completion dates of a habit *)

Lemma length_remove_dups_le {A} `{EqDecision A} (l : list A) :
  (length (remove_dups l) ≤ length l)%nat.
Proof.
  induction l as [|x l IH]; [reflexivity|]. simpl.
  destruct (decide_rel elem_of x l); simpl; lia.
Qed.

Lemma length_remove_dups_NoDup {A} `{EqDecision A} (l : list A) :
  length l = length (remove_dups l) ↔ NoDup l.
Proof.
  induction l as [|x l IH]; [split; [constructor | reflexivity]|]. simpl.
  pose proof (length_remove_dups_le l).
  destruct (decide_rel elem_of x l) as [Hin|Hin]; simpl.
  - split; [lia|]. intros [Hx _]%NoDup_cons. contradiction.
  - rewrite NoDup_cons. split.
    + intros E. split; [exact Hin | apply IH; lia].
    + intros [_ Hnd]. f_equal. apply IH, Hnd.
Qed.

Lemma validate_completionDates_Ok dates :
  Habit.validate_completionDates dates = Ok () ↔ NoDup (dayOf <$> dates).
Proof.
  unfold Habit.validate_completionDates, check.
  change Habit.isoDate with dayOf.
  rewrite <- length_remove_dups_NoDup.
  destruct (Nat.eqb_spec (length (dayOf <$> dates))
                         (length (remove_dups (dayOf <$> dates))));
    cbn [negb]; split; intros; try assumption; try reflexivity;
    try discriminate; contradiction.
Qed.

Lemma validate_habit_Ok h :
  Habit.validate h = Ok ()
  ↔ Habit.validate_paths h = Ok () ∧ NoDup (dayOf <$> Habit.completionDates h).
Proof.
  unfold Habit.validate. simpl. rewrite <- validate_completionDates_Ok.
  destruct (Habit.validate_paths h) as [[]|m];
    destruct (Habit.validate_completionDates _) as [[]|m'];
    split; try tauto; try discriminate; intros [? ?]; discriminate.
Qed.

Lemma isCompletedOnDate_iff date h :
  Habit.isCompletedOnDate date h = true ↔ habit_done h (dayOf date).
Proof.
  unfold Habit.isCompletedOnDate, habit_done.
  change Habit.isoDate with dayOf.
  rewrite existsb_exists, list_elem_of_fmap. split.
  - intros (x & Hx%list_elem_of_In & E%Z.eqb_eq). eauto.
  - intros (x & E & Hx%list_elem_of_In). exists x. rewrite Z.eqb_eq. auto.
Qed.

Lemma save_habit_Ok id h habits :
  Habit.validate h = Ok () → Habit.save id h habits = Ok (h, <[id := h]> habits).
Proof. unfold Habit.save. intros ->. reflexivity. Qed.

Lemma save_habit_inv id h habits h' habits' :
  Habit.save id h habits = Ok (h', habits') →
  Habit.validate h' = Ok () ∧ h' = h ∧ habits' = <[id := h]> habits.
Proof.
  unfold Habit.save, Habit.pre_save.
  destruct (Habit.validate h) as [[]|m] eqn:E; [|discriminate].
  intros [= <- <-]. auto.
Qed.

Lemma localMidnight_UTC d : localMidnight 0 d = setHours0 d.
Proof. unfold localMidnight, setHours0. rewrite Z.add_0_r. reflexivity. Qed.

Lemma dayOf_localMidnight_east offset d :
  0 < offset ≤ MS_PER_DAY →
  dayOf (localMidnight offset d) = dayOf (d + offset) - 1.
Proof.
  unfold localMidnight, dayOf, MS_PER_DAY. intros H.
  Z.div_mod_to_equations. lia.
Qed.

Lemma dayOf_localMidnight_west offset d :
  - MS_PER_DAY < offset ≤ 0 →
  dayOf (localMidnight offset d) = dayOf (d + offset).
Proof.
  unfold localMidnight, dayOf, MS_PER_DAY. intros H.
  Z.div_mod_to_equations. lia.
Qed.

Lemma markCompleted_alreadyCompleted offset date h :
  existsb (λ e, Habit.isoDate e =? Habit.isoDate (localMidnight offset date))
          (Habit.completionDates h) = true
  ↔ habit_done h (dayOf (localMidnight offset date)).
Proof. apply (isCompletedOnDate_iff (localMidnight offset date) h). Qed.

Lemma markCompleted_days offset date id h habits :
  Habit.validate h = Ok () →
  ∃ h', Habit.markCompleted offset date id h habits
        = Ok (h', <[id := h']> habits)
        ∧ (∀ d, habit_done h' d
                ↔ habit_done h d ∨ d = dayOf (localMidnight offset date)).
Proof.
  intros Hvalid. pose proof Hvalid as [Hpaths Hnd]%validate_habit_Ok.
  unfold Habit.markCompleted.
  pose proof (markCompleted_alreadyCompleted offset date h) as Hex.
  destruct (existsb _ (Habit.completionDates h)).
  - exists h. rewrite (save_habit_Ok _ _ _ Hvalid).
    split; [reflexivity|].
    assert (Hdone : habit_done h (dayOf (localMidnight offset date)))
      by (apply Hex; reflexivity).
    intros d. split; [tauto|]. intros [?| ->]; assumption.
  - assert (Hnot : ¬ habit_done h (dayOf (localMidnight offset date))).
    { rewrite <- Hex. discriminate. }
    set (dates := merge_sort Z.le
                    (Habit.completionDates h ++ [localMidnight offset date])).
    assert (Hperm : dates
                    ≡ₚ Habit.completionDates h ++ [localMidnight offset date])
      by apply merge_sort_Permutation.
    assert (Hdays : ∀ d, d ∈ dayOf <$> dates
                         ↔ habit_done h d
                           ∨ d = dayOf (localMidnight offset date)).
    { intros d. rewrite Hperm, fmap_app, elem_of_app. simpl.
      rewrite list_elem_of_singleton. reflexivity. }
    exists (Habit.set_completionDates dates h).
    rewrite save_habit_Ok.
    + split; [reflexivity | exact Hdays].
    + apply validate_habit_Ok. split; [exact Hpaths|]. simpl.
      rewrite Hperm, fmap_app. apply NoDup_app. split_and!; [exact Hnd | |].
      * intros d Hd. simpl. rewrite list_elem_of_singleton.
        intros ->. contradiction.
      * simpl. apply NoDup_singleton.
Qed.

(** X4: [markCompleted] on a valid habit succeeds, on a server whose clock
    is [offset] ahead of UTC.  The day it marks is the UTC date of the
    server's local midnight of the date: afterwards that day is completed
    and no other day changed, the completion dates still fall on distinct
    days, a day that was marked already leaves the habit as it was, and a
    new day is stored as that local midnight in a list sorted by date.  The
    marked day is the day of the date on a UTC server; east of UTC it is
    the day before the local calendar day, west of UTC the local calendar
    day; so [isCompletedOnDate] of the same date answers true afterwards
    exactly when the date's own UTC day was completed or is the marked
    one. *)
Theorem markCompleted_adds_day offset date id h habits :
  Habit.validate h = Ok () →
  let marked := dayOf (localMidnight offset date) in
  ∃ h', Habit.markCompleted offset date id h habits
        = Ok (h', <[id := h']> habits)
        ∧ (∀ d, habit_done h' d ↔ habit_done h d ∨ d = marked)
        ∧ NoDup (dayOf <$> Habit.completionDates h')
        ∧ (habit_done h marked → h' = h)
        ∧ (¬ habit_done h marked →
           localMidnight offset date ∈ Habit.completionDates h'
           ∧ Sorted Z.le (Habit.completionDates h')
           ∧ Habit.totalCompletions h' = Habit.totalCompletions h + 1)
        ∧ (Habit.isCompletedOnDate date h' = true
           ↔ habit_done h (dayOf date) ∨ dayOf date = marked)
        ∧ (offset = 0 → marked = dayOf date)
        ∧ (0 < offset ≤ MS_PER_DAY → marked = dayOf (date + offset) - 1)
        ∧ (- MS_PER_DAY < offset ≤ 0 → marked = dayOf (date + offset)).
Proof.
  intros Hvalid marked. pose proof Hvalid as [Hpaths Hnd]%validate_habit_Ok.
  assert (Hzone : (offset = 0 → marked = dayOf date)
                  ∧ (0 < offset ≤ MS_PER_DAY → marked = dayOf (date + offset) - 1)
                  ∧ (- MS_PER_DAY < offset ≤ 0 → marked = dayOf (date + offset))).
  { subst marked. split_and!.
    - intros ->. rewrite localMidnight_UTC. apply dayOf_setHours0.
    - apply dayOf_localMidnight_east.
    - apply dayOf_localMidnight_west. }
  destruct Hzone as (Hutc & Heast & Hwest).
  unfold Habit.markCompleted.
  pose proof (markCompleted_alreadyCompleted offset date h) as Hex.
  fold marked in Hex.
  destruct (existsb _ (Habit.completionDates h)).
  - assert (Hdone : habit_done h marked) by (apply Hex; reflexivity).
    assert (Hdays : ∀ d, habit_done h d ↔ habit_done h d ∨ d = marked).
    { intros d. split; [tauto|]. intros [?| ->]; assumption. }
    exists h. rewrite (save_habit_Ok _ _ _ Hvalid).
    split_and!; [reflexivity | exact Hdays | exact Hnd | reflexivity
                | contradiction | | exact Hutc | exact Heast | exact Hwest].
    rewrite isCompletedOnDate_iff. apply (Hdays (dayOf date)).
  - assert (Hnot : ¬ habit_done h marked).
    { rewrite <- Hex. discriminate. }
    set (dates := merge_sort Z.le
                    (Habit.completionDates h ++ [localMidnight offset date])).
    assert (Hperm : dates
                    ≡ₚ Habit.completionDates h ++ [localMidnight offset date])
      by apply merge_sort_Permutation.
    assert (Hdays : ∀ d, d ∈ dayOf <$> dates ↔ habit_done h d ∨ d = marked).
    { intros d. rewrite Hperm, fmap_app, elem_of_app. simpl.
      rewrite list_elem_of_singleton. reflexivity. }
    assert (Hnd' : NoDup (dayOf <$> dates)).
    { rewrite Hperm, fmap_app. apply NoDup_app. split_and!; [exact Hnd | |].
      - intros d Hd. simpl. rewrite list_elem_of_singleton.
        intros ->. contradiction.
      - simpl. apply NoDup_singleton. }
    exists (Habit.set_completionDates dates h).
    rewrite save_habit_Ok
      by (apply validate_habit_Ok; split; [exact Hpaths | exact Hnd']).
    split_and!; [reflexivity | exact Hdays | exact Hnd' | contradiction | |
                | exact Hutc | exact Heast | exact Hwest].
    + intros _. simpl. split_and!.
      * rewrite Hperm, elem_of_app, list_elem_of_singleton. right. reflexivity.
      * apply Sorted_merge_sort. intros a b. lia.
      * unfold Habit.totalCompletions. simpl.
        rewrite Hperm, length_app. simpl. lia.
    + rewrite isCompletedOnDate_iff. apply (Hdays (dayOf date)).
Qed.

Lemma removeCompletion_days date id h habits :
  Habit.validate h = Ok () →
  ∃ h', Habit.removeCompletion date id h habits = Ok (h', <[id := h']> habits)
        ∧ Habit.isCompletedOnDate date h' = false
        ∧ (∀ d, habit_done h' d ↔ habit_done h d ∧ d ≠ dayOf date).
Proof.
  intros Hvalid. pose proof Hvalid as [Hpaths Hnd]%validate_habit_Ok.
  unfold Habit.removeCompletion. change Habit.isoDate with dayOf.
  set (dates := filter (λ e, dayOf e ≠ dayOf date) (Habit.completionDates h)).
  assert (Hdays : ∀ d, d ∈ dayOf <$> dates ↔ habit_done h d ∧ d ≠ dayOf date).
  { intros d. unfold habit_done, dates. rewrite !list_elem_of_fmap. split.
    - intros (x & -> & [Hne Hx]%list_elem_of_filter). eauto.
    - intros [(x & -> & Hx) Hne]. exists x. split; [reflexivity|].
      apply list_elem_of_filter. auto. }
  exists (Habit.set_completionDates dates h).
  rewrite save_habit_Ok.
  - split_and!; [reflexivity | | exact Hdays].
    apply not_true_iff_false. rewrite isCompletedOnDate_iff.
    intros [_ Hne]%Hdays. congruence.
  - apply validate_habit_Ok. split; [exact Hpaths|].
    eapply sublist_NoDup; [exact Hnd|]. apply fmap_sublist, sublist_filter.
Qed.

(** X5: [removeCompletion] on a valid habit succeeds; afterwards the day of
    the date is not completed, every other day is as before, and the dates
    that remain are in their former order. *)
Theorem removeCompletion_removes_day date id h habits :
  Habit.validate h = Ok () →
  ∃ h', Habit.removeCompletion date id h habits = Ok (h', <[id := h']> habits)
        ∧ Habit.isCompletedOnDate date h' = false
        ∧ (∀ d, habit_done h' d ↔ habit_done h d ∧ d ≠ dayOf date)
        ∧ Habit.completionDates h' `sublist_of` Habit.completionDates h
        ∧ (¬ habit_done h (dayOf date) → h' = h).
Proof.
  intros Hvalid. pose proof Hvalid as [Hpaths Hnd]%validate_habit_Ok.
  unfold Habit.removeCompletion. change Habit.isoDate with dayOf.
  set (dates := filter (λ e, dayOf e ≠ dayOf date) (Habit.completionDates h)).
  assert (Hsub : dates `sublist_of` Habit.completionDates h)
    by apply sublist_filter.
  assert (Hdays : ∀ d, d ∈ dayOf <$> dates ↔ habit_done h d ∧ d ≠ dayOf date).
  { intros d. unfold habit_done, dates. rewrite !list_elem_of_fmap. split.
    - intros (x & -> & [Hne Hx]%list_elem_of_filter). eauto.
    - intros [(x & -> & Hx) Hne]. exists x. split; [reflexivity|].
      apply list_elem_of_filter. auto. }
  exists (Habit.set_completionDates dates h).
  rewrite save_habit_Ok.
  - split_and!; [reflexivity | | exact Hdays | exact Hsub |].
    + apply not_true_iff_false. rewrite isCompletedOnDate_iff.
      intros [_ Hne]%Hdays. congruence.
    + intros Hnot. destruct h as [n de c g f du a ca tv u cd cr]. simpl in *.
      unfold Habit.set_completionDates. simpl. f_equal.
      unfold dates. clear -Hnot. unfold habit_done in Hnot. simpl in Hnot.
      induction cd as [|x cd IH]; [reflexivity|].
      rewrite filter_cons. rewrite fmap_cons, not_elem_of_cons in Hnot.
      destruct Hnot as [Hx Hcd]. case_decide; [|congruence].
      f_equal. apply IH, Hcd.
  - apply validate_habit_Ok. split; [exact Hpaths|].
    eapply sublist_NoDup; [exact Hnd|]. apply fmap_sublist, Hsub.
Qed.

(** X6: Toggling twice with dates of the same UTC day succeeds both times on
    a valid habit, in every zone.  When the server's local midnight of both
    dates falls on that same UTC day (always so on a UTC server), the first
    call flips whether the day is completed and the second restores the
    set of completed days. *)
Theorem toggleCompletion_twice offset date1 date2 id h habits :
  Habit.validate h = Ok () → dayOf date1 = dayOf date2 →
  ∃ h1 h2,
    Habit.toggleCompletion offset date1 id h habits
    = Ok (h1, <[id := h1]> habits)
    ∧ Habit.toggleCompletion offset date2 id h1 (<[id := h1]> habits)
      = Ok (h2, <[id := h2]> habits)
    ∧ (dayOf (localMidnight offset date1) = dayOf date1 →
       dayOf (localMidnight offset date2) = dayOf date2 →
       Habit.isCompletedOnDate date1 h1
       = negb (Habit.isCompletedOnDate date1 h)
       ∧ (∀ d, habit_done h2 d ↔ habit_done h d)).
Proof.
  intros Hvalid Hday.
  assert (Hvalid_of : ∀ date h0 h0' hs hs',
            (Habit.markCompleted offset date id h0 hs = Ok (h0', hs')
             ∨ Habit.removeCompletion date id h0 hs = Ok (h0', hs')) →
            Habit.validate h0' = Ok ()).
  { intros date h0 h0' hs hs' [E|E].
    - unfold Habit.markCompleted in E. apply save_habit_inv in E. tauto.
    - unfold Habit.removeCompletion in E. apply save_habit_inv in E. tauto. }
  assert (Hsecond : ∀ h1, Habit.validate h1 = Ok () →
            ∃ h2, Habit.toggleCompletion offset date2 id h1 (<[id := h1]> habits)
                  = Ok (h2, <[id := h2]> habits)).
  { intros h1 Hvalid1. unfold Habit.toggleCompletion.
    destruct (Habit.isCompletedOnDate date2 h1).
    - destruct (removeCompletion_days date2 id h1 (<[id := h1]> habits) Hvalid1)
        as (h2 & E2 & _). exists h2. rewrite E2, insert_insert_eq. reflexivity.
    - destruct (markCompleted_days offset date2 id h1 (<[id := h1]> habits)
                  Hvalid1) as (h2 & E2 & _).
      exists h2. rewrite E2, insert_insert_eq. reflexivity. }
  unfold Habit.toggleCompletion at 1.
  destruct (Habit.isCompletedOnDate date1 h) eqn:Edone.
  - destruct (removeCompletion_days date1 id h habits Hvalid)
      as (h1 & E1 & Hoff & Hdays1).
    pose proof (Hvalid_of _ _ _ _ _ (or_intror E1)) as Hvalid1.
    destruct (Hsecond h1 Hvalid1) as (h2 & E2).
    exists h1, h2. split_and!; [exact E1 | exact E2 |].
    intros _ Hzone2. split; [exact Hoff|].
    assert (Hoff2 : Habit.isCompletedOnDate date2 h1 = false).
    { apply not_true_iff_false. rewrite isCompletedOnDate_iff, <- Hday,
        <- isCompletedOnDate_iff, Hoff. discriminate. }
    unfold Habit.toggleCompletion in E2. rewrite Hoff2 in E2.
    destruct (markCompleted_days offset date2 id h1 (<[id := h1]> habits)
                Hvalid1) as (h2' & E2' & Hdays2).
    rewrite E2' in E2. injection E2 as <- _.
    intros d. rewrite Hdays2, Hdays1, Hzone2, <- Hday.
    apply isCompletedOnDate_iff in Edone.
    destruct (decide (d = dayOf date1)) as [->|]; tauto.
  - destruct (markCompleted_days offset date1 id h habits Hvalid)
      as (h1 & E1 & Hdays1).
    pose proof (Hvalid_of _ _ _ _ _ (or_introl E1)) as Hvalid1.
    destruct (Hsecond h1 Hvalid1) as (h2 & E2).
    exists h1, h2. split_and!; [exact E1 | exact E2 |].
    intros Hzone1 _. rewrite Hzone1 in Hdays1.
    assert (Hon : Habit.isCompletedOnDate date1 h1 = true).
    { apply isCompletedOnDate_iff, Hdays1. right. reflexivity. }
    split; [exact Hon|].
    assert (Hon2 : Habit.isCompletedOnDate date2 h1 = true).
    { rewrite isCompletedOnDate_iff, <- Hday, <- isCompletedOnDate_iff.
      exact Hon. }
    unfold Habit.toggleCompletion in E2. rewrite Hon2 in E2.
    destruct (removeCompletion_days date2 id h1 (<[id := h1]> habits)
                Hvalid1) as (h2' & E2' & _ & Hdays2).
    rewrite E2' in E2. injection E2 as <- _.
    intros d. rewrite Hdays2, Hdays1, <- Hday.
    assert (Hnot : ¬ habit_done h (dayOf date1)).
    { rewrite <- isCompletedOnDate_iff, Edone. discriminate. }
    destruct (decide (d = dayOf date1)) as [->|]; tauto.
Qed.

Lemma markCompleted_adds_day_witness :
  ∃ h', Habit.markCompleted 0 (day 10 + 30) 1%nat
          (reading_habit (day 0) [day 8; day 9]) ∅
        = Ok (h', <[1%nat := h']> ∅)
        ∧ Habit.completionDates h' = [day 8; day 9; day 10]
        ∧ Habit.isCompletedOnDate (day 10 + 30) h' = true.
Proof.
  destruct (markCompleted_adds_day 0 (day 10 + 30) 1%nat
              (reading_habit (day 0) [day 8; day 9]) ∅)
    as (h' & E & _ & _ & _ & _ & Hdone & Hutc & _); [vm_compute; reflexivity|].
  exists h'. split; [exact E|]. split.
  - vm_compute in E. injection E as <- _. reflexivity.
  - apply Hdone. right. symmetry. apply Hutc. reflexivity.
Defined.

(** On a server in Asia/Kolkata, [markCompleted] at 11:30 local time on
    day 10 stores the local midnight, whose UTC date is day 9: the date
    that was marked does not count as completed. *)
Example markCompleted_east_of_UTC :
  let h' := reading_habit (day 0) [day 10 - UTC_plus_0530] in
  Habit.markCompleted UTC_plus_0530 (day 10 + 6 * 3600000) 1%nat
    (reading_habit (day 0) []) ∅
  = Ok (h', <[1%nat := h']> ∅)
  ∧ Habit.isCompletedOnDate (day 10 + 6 * 3600000) h' = false
  ∧ Habit.isCompletedOnDate (day 9) h' = true.
Proof. split_and!; vm_compute; reflexivity. Qed.

Lemma removeCompletion_removes_day_witness :
  ∃ h', Habit.removeCompletion (day 9 + 30) 1%nat
          (reading_habit (day 0) [day 8; day 9]) ∅
        = Ok (h', <[1%nat := h']> ∅)
        ∧ Habit.isCompletedOnDate (day 9 + 30) h' = false
        ∧ (∀ d, habit_done h' d
                ↔ habit_done (reading_habit (day 0) [day 8; day 9]) d
                  ∧ d ≠ dayOf (day 9 + 30))
        ∧ Habit.completionDates h'
          `sublist_of` Habit.completionDates (reading_habit (day 0) [day 8; day 9])
        ∧ (¬ habit_done (reading_habit (day 0) [day 8; day 9])
               (dayOf (day 9 + 30)) →
           h' = reading_habit (day 0) [day 8; day 9]).
Proof.
  apply (removeCompletion_removes_day (day 9 + 30) 1%nat
           (reading_habit (day 0) [day 8; day 9]) ∅).
  vm_compute. reflexivity.
Defined.

Lemma toggleCompletion_twice_witness :
  ∃ h1 h2,
    Habit.toggleCompletion 0 (day 9 + 30) 1%nat
      (reading_habit (day 0) [day 8; day 9]) ∅ = Ok (h1, <[1%nat := h1]> ∅)
    ∧ Habit.toggleCompletion 0 (day 9 + 70) 1%nat h1 (<[1%nat := h1]> ∅)
      = Ok (h2, <[1%nat := h2]> ∅)
    ∧ Habit.isCompletedOnDate (day 9 + 30) h1
      = negb (Habit.isCompletedOnDate (day 9 + 30)
                (reading_habit (day 0) [day 8; day 9]))
    ∧ (∀ d, habit_done h2 d
            ↔ habit_done (reading_habit (day 0) [day 8; day 9]) d).
Proof.
  destruct (toggleCompletion_twice 0 (day 9 + 30) (day 9 + 70) 1%nat
              (reading_habit (day 0) [day 8; day 9]) ∅)
    as (h1 & h2 & E1 & E2 & Hround);
    [vm_compute; reflexivity | vm_compute; reflexivity |].
  exists h1, h2. split; [exact E1|]. split; [exact E2|].
  apply Hround; vm_compute; reflexivity.
Defined.

(** On a server in Asia/Kolkata, toggling twice at 11:30 local time on
    day 10 does not undo the first call: the first call marks day 9, the
    second finds day 10 not completed and marks day 9 again. *)
Example toggleCompletion_east_of_UTC :
  let h1 := reading_habit (day 0) [day 10 - UTC_plus_0530] in
  Habit.toggleCompletion UTC_plus_0530 (day 10 + 6 * 3600000) 1%nat
    (reading_habit (day 0) []) ∅ = Ok (h1, <[1%nat := h1]> ∅)
  ∧ Habit.toggleCompletion UTC_plus_0530 (day 10 + 6 * 3600000) 1%nat h1
      (<[1%nat := h1]> ∅) = Ok (h1, <[1%nat := h1]> ∅).
Proof. split; vm_compute; reflexivity. Qed.

(** ** More on the streak and the rate of a habit *)

Lemma habit_streakLoop_bounds l c s :
  s ≤ Habit.streakLoop l c s ≤ s + Z.of_nat (length l).
Proof.
  revert c s. induction l as [|d l IH]; intros c s; simpl; [lia|].
  destruct (setHours0 d =? c).
  - specialize (IH (setDatePrev c) (s + 1)). lia.
  - destruct (setHours0 d =? c + MS_PER_DAY); [|lia].
    specialize (IH (setDatePrev c) (s + 1)). lia.
Qed.

(** X7: The current streak of a habit is never negative and never exceeds the
    number of its completion dates. *)
Theorem currentStreak_bounds now h :
  0 ≤ Habit.currentStreak now h ≤ Habit.totalCompletions h.
Proof.
  unfold Habit.currentStreak, Habit.totalCompletions.
  destruct (Habit.completionDates h) as [|d0 rest] eqn:E; [simpl; lia|].
  rewrite <- E.
  pose proof (habit_streakLoop_bounds
                (merge_sort newest_first (Habit.completionDates h))
                (setHours0 now) 0) as Hb.
  rewrite (merge_sort_Permutation newest_first (Habit.completionDates h)) in Hb
    at 3.
  exact Hb.
Qed.

Lemma isCompletedToday_iff offset now h :
  Habit.isCompletedToday offset now h = true
  ↔ habit_done h (dayOf (localMidnight offset now)).
Proof.
  unfold Habit.isCompletedToday, habit_done. change Habit.isoDate with dayOf.
  rewrite existsb_exists, list_elem_of_fmap. split.
  - intros (x & Hx%list_elem_of_In & E%Z.eqb_eq). eauto.
  - intros (x & E & Hx%list_elem_of_In). exists x. rewrite Z.eqb_eq. auto.
Qed.

(** X8: On a server whose time zone is UTC ([offset] 0, the zone in which
    the streak is modelled), when no completion date is later than today,
    the current streak is positive exactly when the habit is completed
    today. *)
Theorem currentStreak_positive_iff_completed_today now h :
  (∀ c, c ∈ Habit.completionDates h → dayOf c ≤ dayOf now) →
  0 < Habit.currentStreak now h ↔ Habit.isCompletedToday 0 now h = true.
Proof.
  intros Hpast.
  rewrite isCompletedToday_iff, localMidnight_UTC, dayOf_setHours0. split.
  - intros Hpos.
    destruct (decide (dayOf now ∈ dayOf <$> Habit.completionDates h)) as [|Hnot];
      [assumption|].
    rewrite currentStreak_without_today_tomorrow in Hpos; [lia | exact Hnot |].
    intros (c & E & Hc)%list_elem_of_fmap. specialize (Hpast c Hc). lia.
  - intros (c & E & Hc)%list_elem_of_fmap. unfold Habit.currentStreak.
    destruct (Habit.completionDates h) as [|d0 rest] eqn:Edates;
      [inversion Hc|].
    rewrite <- Edates in *. clear Edates d0 rest.
    pose proof (merge_sort_Permutation newest_first (Habit.completionDates h))
      as Hperm.
    pose proof (StronglySorted_merge_sort newest_first (Habit.completionDates h))
      as Hsorted.
    destruct (merge_sort newest_first (Habit.completionDates h)) as [|d l].
    { rewrite <- Hperm in Hc. inversion Hc. }
    apply StronglySorted_inv in Hsorted as [_ Hall].
    rewrite Forall_forall in Hall.
    assert (Hd : dayOf d = dayOf now).
    { assert (Hdin : d ∈ Habit.completionDates h)
        by (rewrite <- Hperm; apply list_elem_of_here).
      pose proof (Hpast d Hdin).
      rewrite <- Hperm in Hc. apply elem_of_cons in Hc as [->|Hc]; [lia|].
      pose proof (dayOf_mono _ _ (Hall c Hc)). lia. }
    cbn [Habit.streakLoop].
    rewrite (setHours0_now now), setHours0_eqb_day, Hd, Z.eqb_refl.
    pose proof (habit_streakLoop_bounds l (setDatePrev (day (dayOf now))) (0 + 1)).
    lia.
Qed.

Lemma currentStreak_positive_iff_completed_today_witness :
  0 < Habit.currentStreak (day 10 + 5000)
        (reading_habit (day 0) [day 9 + 60; day 10 + 30])
  ↔ Habit.isCompletedToday 0 (day 10 + 5000)
      (reading_habit (day 0) [day 9 + 60; day 10 + 30]) = true.
Proof.
  apply (currentStreak_positive_iff_completed_today (day 10 + 5000)
           (reading_habit (day 0) [day 9 + 60; day 10 + 30])).
  intros c Hc. simpl in Hc.
  repeat (apply elem_of_cons in Hc as [->|Hc]; [vm_compute; discriminate|]).
  inversion Hc.
Defined.

(** X9: Once a habit has expired, the number of completions its rate expects
    is the configured duration. *)
Theorem expired_expects_duration now h :
  Habit.isExpired now h = true →
  (Habit.expectedCompletions now h == Habit.duration h)%Q.
Proof.
  unfold Habit.isExpired, Habit.expectedCompletions.
  destruct (Qeq_bool (Habit.duration h) 0); [discriminate|].
  intros Hlt%Z.ltb_lt. apply Q.min_r.
  assert (Hdays : Habit.truncate (Habit.duration h)
                  ≤ (now - Habit.createdAt h) `div` MS_PER_DAY).
  { apply Z.div_le_lower_bound; [unfold MS_PER_DAY; lia | lia]. }
  unfold Habit.truncate, Habit.daysSinceCreation in *.
  destruct (Qle_bool 0 (Habit.duration h)).
  - apply Qlt_le_weak. eapply Qlt_le_trans; [apply Qlt_floor|].
    rewrite <- Zle_Qle. lia.
  - eapply Qle_trans; [apply Qle_ceiling|]. rewrite <- Zle_Qle. lia.
Qed.

Lemma expired_expects_duration_witness :
  (Habit.expectedCompletions (day 40) (reading_habit (day 0) seven_dates)
   == Habit.duration (reading_habit (day 0) seven_dates))%Q.
Proof.
  apply (expired_expects_duration (day 40) (reading_habit (day 0) seven_dates)).
  vm_compute. reflexivity.
Defined.

(** ** More on saving ledger entries *)

Lemma setHours0_eqb_iff a b :
  (setHours0 a =? setHours0 b) = true ↔ dayOf a = dayOf b.
Proof. rewrite Z.eqb_eq. day_arith. Qed.

Lemma duplicate_key_false l p :
  Progress.duplicate_key l p = false →
  ∀ q, q ∈ l → Progress._id q ≠ Progress._id p →
       ¬ (Progress.habit q = Progress.habit p
          ∧ Progress.user q = Progress.user p
          ∧ Progress.date q = Progress.date p).
Proof.
  unfold Progress.duplicate_key. intros Hdup q Hq Hid (Hh & Hu & Hd).
  apply not_true_iff_false in Hdup. apply Hdup, existsb_exists.
  exists q. split; [apply list_elem_of_In, Hq|].
  rewrite Hh, Hu, Hd, !Nat.eqb_refl, Z.eqb_refl, !andb_true_r.
  apply negb_true_iff, Nat.eqb_neq, Hid.
Qed.

Lemma write_elems p l q :
  q ∈ Progress.write p l →
  q = p ∨ (q ∈ l ∧ Progress._id q ≠ Progress._id p).
Proof.
  unfold Progress.write. destruct (Progress.stored l (Progress._id p)) eqn:Est.
  - intros (q0 & -> & Hq0)%list_elem_of_fmap.
    destruct (Nat.eqb_spec (Progress._id q0) (Progress._id p)); auto.
  - intros [Hq|Hq%list_elem_of_singleton]%elem_of_app; [|auto].
    right. split; [exact Hq|]. intros E.
    apply not_true_iff_false in Est. apply Est, stored_iff. eauto.
Qed.

(** X10: What a successful [save] stores: the date of the entry moved to its
    midnight; for a completed entry a completion time, and [isLateEntry]
    telling whether that time falls on another day than the date; and an
    entry that is the only one of the ledger with its habit, user and
    date. *)
Theorem save_stores_normalized_entry now p l p' l' :
  Progress.save now p l = Ok (p', l') →
  Progress.date p' = setHours0 (Progress.date p)
  ∧ setHours0 (Progress.date p') = Progress.date p'
  ∧ (Progress.completed p' = true →
     ∃ at_, Progress.completedAt p' = Some at_
            ∧ (Progress.isLateEntry p' = true
               ↔ dayOf at_ ≠ dayOf (Progress.date p')))
  ∧ p' ∈ l'
  ∧ (∀ q, q ∈ l' → Progress.habit q = Progress.habit p' →
          Progress.user q = Progress.user p' →
          Progress.date q = Progress.date p' → q = p').
Proof.
  unfold Progress.save. destruct (Progress.validate p); [|discriminate].
  destruct (Progress.duplicate_key l (Progress.pre_save now p)) eqn:Edup;
    [discriminate|].
  intros [= <- <-].
  destruct (pre_save_fields now p) as (_ & _ & _ & Hdate & _).
  split_and!.
  - exact Hdate.
  - rewrite Hdate. apply setHours0_idem.
  - rewrite Hdate, dayOf_setHours0. clear.
    destruct p as [i h u d c [a|] n v s late]; destruct c;
      unfold Progress.pre_save; simpl; intros Hc; try discriminate;
      eexists; (split; [reflexivity|]);
      rewrite negb_true_iff, <- not_true_iff_false, setHours0_eqb_iff;
      reflexivity.
  - apply elem_of_write.
  - intros q [->|[Hq Hid]]%write_elems Hh Hu Hd; [reflexivity|].
    exfalso. apply (duplicate_key_false _ _ Edup q Hq Hid). auto.
Qed.

Lemma save_stores_normalized_entry_witness :
  ∃ p' l', Progress.save (day 12 + 7)
             (sample_entry 5%nat 1%nat 8%nat (day 10 + 3) true) []
           = Ok (p', l')
           ∧ Progress.date p' = day 10
           ∧ Progress.isLateEntry p' = false.
Proof.
  eexists _, _. split; [reflexivity|].
  destruct (save_stores_normalized_entry (day 12 + 7)
              (sample_entry 5%nat 1%nat 8%nat (day 10 + 3) true) [] _ _ eq_refl)
    as (Hdate & _).
  split; [rewrite Hdate; vm_compute; reflexivity | reflexivity].
Defined.

(** ** More on the streak of the ledger *)

Lemma progress_streakLoop_bounds l t s :
  s ≤ Progress.streakLoop l t s
  ≤ s + Z.of_nat (length (filter (λ p, Progress.completed p = true) l)).
Proof.
  revert s. induction l as [|e l IH]; intros s; [simpl; lia|].
  cbn [Progress.streakLoop]. rewrite filter_cons.
  destruct (Progress.completed e) eqn:Ec.
  - case_decide; [|congruence]. rewrite length_cons.
    destruct (_ =? s); cbn [andb]; [specialize (IH (s + 1))|]; lia.
  - case_decide; [congruence|]. rewrite andb_false_r. lia.
Qed.

Lemma getCurrentStreak_range now u h ledger :
  0 ≤ Progress.getCurrentStreak now u h ledger ≤ 365.
Proof.
  unfold Progress.getCurrentStreak.
  set (sorted := merge_sort Progress.newest_entry_first _).
  pose proof (progress_streakLoop_bounds (take 365 sorted) (setHours0 now) 0)
    as [H0 Hc].
  pose proof (length_filter (λ p, Progress.completed p = true)
                            (take 365 sorted)).
  pose proof (length_take sorted 365). lia.
Qed.

(** X11: The current streak of a user for a habit is never negative, never more
    than 365, and never more than the number of completed entries the user
    has for the habit. *)
Theorem getCurrentStreak_bounds now u h ledger :
  0 ≤ Progress.getCurrentStreak now u h ledger ≤ 365
  ∧ Progress.getCurrentStreak now u h ledger
    ≤ Z.of_nat (length (filter (λ p, Progress.of_user_habit u h p = true
                                     ∧ Progress.completed p = true) ledger)).
Proof.
  unfold Progress.getCurrentStreak.
  set (entries := filter (λ p, Progress.of_user_habit u h p = true) ledger).
  set (sorted := merge_sort Progress.newest_entry_first entries).
  pose proof (progress_streakLoop_bounds (take 365 sorted) (setHours0 now) 0)
    as [H0 Hc].
  assert (Hlen : (length (filter (λ p, Progress.completed p = true)
                                 (take 365 sorted))
                  ≤ length (take 365 sorted))%nat) by apply length_filter.
  pose proof (length_take sorted 365).
  assert (Hsub : (length (filter (λ p, Progress.completed p = true)
                                 (take 365 sorted))
                  ≤ length (filter (λ p, Progress.completed p = true) sorted))%nat).
  { apply sublist_length. rewrite <- (take_drop 365 sorted) at 2.
    rewrite filter_app. apply sublist_inserts_r. reflexivity. }
  assert (Hperm : filter (λ p, Progress.completed p = true) sorted
                  ≡ₚ filter (λ p, Progress.of_user_habit u h p = true
                                  ∧ Progress.completed p = true) ledger).
  { unfold sorted. rewrite merge_sort_Permutation. unfold entries.
    rewrite list_filter_filter. apply reflexive_eq, list_filter_iff.
    intros x. tauto. }
  rewrite <- Hperm. split; lia.
Qed.

(** ** Toggling and completing for today *)

Lemma findById_rewritten id p l :
  Progress._id p = id → Progress.stored l id = true →
  Progress.findById id
    ((λ q, if (Progress._id q =? Progress._id p)%nat then p else q) <$> l)
  = Some p.
Proof.
  intros <-. unfold Progress.findById, Progress.stored.
  induction l as [|q l IH]; [discriminate|]. simpl.
  destruct (Nat.eqb_spec (Progress._id q) (Progress._id p)) as [E|E]; simpl.
  - intros _. rewrite Nat.eqb_refl. reflexivity.
  - intros Hst. apply Nat.eqb_neq in E. rewrite E. apply IH, Hst.
Qed.

Lemma toggle_saved now e l p1 l1 :
  Progress.findById (Progress._id e) l = Some e →
  Progress.toggleCompletion now e l = Ok (p1, l1) →
  p1 = Progress.pre_save now
         (Progress.set_completed (negb (Progress.completed e)) e)
  ∧ l1 = (λ q, if (Progress._id q =? Progress._id p1)%nat then p1 else q) <$> l
  ∧ Progress.findById (Progress._id e) l1 = Some p1
  ∧ Progress.stored l (Progress._id e) = true.
Proof.
  intros [He _]%findById_Some Hsave. unfold Progress.toggleCompletion in Hsave.
  pose proof Hsave as (-> & ->)%save_Ok_ledger.
  set (p1 := Progress.pre_save now _).
  assert (Hid : Progress._id p1 = Progress._id e).
  { unfold p1. destruct (pre_save_fields now
      (Progress.set_completed (negb (Progress.completed e)) e)) as (-> & _).
    reflexivity. }
  assert (Hst : Progress.stored l (Progress._id e) = true).
  { apply stored_iff. eauto. }
  assert (Hw : Progress.write p1 l
               = (λ q, if (Progress._id q =? Progress._id p1)%nat then p1 else q)
                 <$> l).
  { unfold Progress.write. rewrite Hid, Hst. reflexivity. }
  split_and!; [reflexivity | exact Hw | | exact Hst].
  rewrite Hw. apply findById_rewritten; [exact Hid | exact Hst].
Qed.

Ltac entry_fields :=
  cbn [Progress.set_completed Progress._id Progress.user Progress.habit
       Progress.date Progress.completed Progress.value Progress.notes
       Progress.streak Progress.completedAt Progress.isLateEntry] in *.

Lemma toggleProgress_Ok now userId progressId db :
  status (progressController.toggleProgress now userId progressId db).1 = 200 →
  ∃ e p1 l1,
    Progress.findById progressId (progress db) = Some e
    ∧ Progress.user e = userId
    ∧ Progress.toggleCompletion now e (progress db) = Ok (p1, l1)
    ∧ (progressController.toggleProgress now userId progressId db).2
      = set_db_progress l1 db.
Proof.
  unfold progressController.toggleProgress.
  destruct (Progress.findById progressId (progress db)) as [e|];
    [|cbn; discriminate].
  destruct (Nat.eqb_spec (Progress.user e) userId) as [Hu|Hu];
    [|cbn; discriminate].
  destruct (Progress.toggleCompletion now e (progress db)) as [[p1 l1]|m]
    eqn:E1; [|cbn; discriminate].
  intros _. exists e, p1, l1. cbn. auto.
Qed.

Lemma toggleProgress_run now userId db e p1 l1 :
  Progress.findById (Progress._id e) (progress db) = Some e →
  Progress.user e = userId →
  Progress.toggleCompletion now e (progress db) = Ok (p1, l1) →
  progressController.toggleProgress now userId (Progress._id e) db
  = (mkResponse 200 true
       (if Progress.completed p1 then "Progress marked as completed"
        else "Progress marked as incomplete"),
     set_db_progress l1 db).
Proof.
  intros Hfind Hu E. unfold progressController.toggleProgress.
  rewrite Hfind, Hu, Nat.eqb_refl, E. reflexivity.
Qed.

(** X12: Toggling an entry twice succeeds the second time if it did the first:
    the entry is completed or not as it was at the start, with the habit,
    user, notes and value it had, its date at midnight, and the ledger
    has as many entries as before; the rest of the database is untouched. *)
Theorem toggleProgress_twice now1 now2 userId progressId db e :
  Progress.findById progressId (progress db) = Some e →
  let r1 := progressController.toggleProgress now1 userId progressId db in
  let r2 := progressController.toggleProgress now2 userId progressId r1.2 in
  status r1.1 = 200 →
  status r2.1 = 200
  ∧ length (progress r2.2) = length (progress db)
  ∧ (∃ e2, Progress.findById progressId (progress r2.2) = Some e2
           ∧ Progress.completed e2 = Progress.completed e
           ∧ Progress.habit e2 = Progress.habit e
           ∧ Progress.user e2 = Progress.user e
           ∧ Progress.date e2 = setHours0 (Progress.date e)
           ∧ Progress.notes e2 = Progress.notes e
           ∧ Progress.value e2 = Progress.value e)
  ∧ habits r2.2 = habits db ∧ groups r2.2 = groups db ∧ users r2.2 = users db.
Proof.
  intros Hfind r1 r2 Hok. subst r2 r1.
  destruct (toggleProgress_Ok _ _ _ _ Hok) as (e' & p1 & l1 & Hfind' & Hu & E1 & ->).
  rewrite Hfind in Hfind'. injection Hfind' as <-. clear Hok.
  pose proof (findById_Some _ _ _ Hfind) as [He Hid]. subst progressId.
  destruct (toggle_saved _ _ _ _ _ Hfind E1) as (Hp1 & Hl1 & Hfind1 & Hst).
  pose proof E1 as E1'. unfold Progress.toggleCompletion, Progress.save in E1'.
  destruct (Progress.validate _) as [[]|] eqn:Ev1; [|discriminate].
  destruct (Progress.duplicate_key _ _) eqn:Edup1; [discriminate|].
  clear E1'. rewrite <- Hp1 in Edup1.
  destruct (pre_save_fields now1
              (Progress.set_completed (negb (Progress.completed e)) e))
    as (Hi1 & Hu1 & Hh1 & Hd1 & Hc1 & Hv1 & Hn1).
  rewrite <- Hp1 in Hi1, Hu1, Hh1, Hd1, Hc1, Hv1, Hn1. entry_fields.
  set (q2 := Progress.set_completed (negb (Progress.completed p1)) p1).
  destruct (pre_save_fields now2 q2) as (Hi2 & Hu2 & Hh2 & Hd2 & Hc2 & Hv2 & Hn2).
  unfold q2 in Hi2, Hu2, Hh2, Hd2, Hc2, Hv2, Hn2. entry_fields.
  fold q2 in Hi2, Hu2, Hh2, Hd2, Hc2, Hv2, Hn2.
  assert (Hvalid2 : Progress.validate q2 = Ok ()).
  { rewrite <- Ev1. unfold Progress.validate, q2. entry_fields.
    rewrite Hn1, Hv1.
    replace (Progress.streak p1) with (Progress.streak e); [reflexivity|].
    rewrite Hp1.
    destruct (pre_save_validate now1
                (Progress.set_completed (negb (Progress.completed e)) e))
      as [_ ->]. reflexivity. }
  assert (Hdup2 : Progress.duplicate_key l1 (Progress.pre_save now2 q2) = false).
  { apply duplicate_key_false_intro. intros q Hq Hne.
    rewrite Hh2, Hu2, Hd2, Hd1, setHours0_idem, <- Hd1.
    rewrite Hi2 in Hne.
    rewrite Hl1 in Hq. apply list_elem_of_fmap in Hq as (q0 & -> & Hq0).
    destruct (Nat.eqb_spec (Progress._id q0) (Progress._id p1)) as [E|E];
      [congruence|].
    apply (duplicate_key_false _ _ Edup1 q0 Hq0 E). }
  assert (E2 : Progress.toggleCompletion now2 p1 l1
               = Ok (Progress.pre_save now2 q2,
                     Progress.write (Progress.pre_save now2 q2) l1)).
  { unfold Progress.toggleCompletion, Progress.save. fold q2.
    rewrite Hvalid2, Hdup2. reflexivity. }
  assert (Hfind1' : Progress.findById (Progress._id p1) l1 = Some p1)
    by (rewrite Hi1; exact Hfind1).
  destruct (toggle_saved _ _ _ _ _ Hfind1' E2) as (_ & Hl2 & Hfind2 & _).
  rewrite <- Hi1.
  rewrite (toggleProgress_run now2 userId (set_db_progress l1 db) p1 _ _
             Hfind1' (eq_trans Hu1 Hu) E2).
  cbn [fst snd status progress habits groups users set_db_progress].
  split_and!; try reflexivity.
  - rewrite Hl2, length_fmap, Hl1, length_fmap. reflexivity.
  - exists (Progress.pre_save now2 q2).
    split_and!; [exact Hfind2 | | congruence | congruence | | congruence
                | congruence].
    + rewrite Hc2, Hc1. apply negb_involutive.
    + rewrite Hd2, Hd1. apply setHours0_idem.
Qed.

Lemma toggleProgress_twice_witness :
  let r1 := progressController.toggleProgress (day 11) 8%nat 1%nat sample_db in
  let r2 := progressController.toggleProgress (day 12) 8%nat 1%nat r1.2 in
  status r2.1 = 200 ∧ length (progress r2.2) = length (progress sample_db).
Proof.
  destruct (toggleProgress_twice (day 11) (day 12) 8%nat 1%nat sample_db
              (sample_entry 1%nat 1%nat 8%nat (day 9) true))
    as (Hstatus & Hlen & _); [reflexivity | reflexivity |].
  split; [exact Hstatus | exact Hlen].
Defined.

Lemma markCompleteToday_Ok now userId habitId db :
  (progressController.markCompleteToday now userId (Some habitId) db).1
  = Some (mkResponse 200 true "Habit marked as complete for today!") →
  ∃ habit p ledger,
    habits db !! habitId = Some habit
    ∧ Habit.isActive habit = true
    ∧ progressController.authorized userId habitId habit db = true
    ∧ Progress.createOrUpdate now userId habitId (setHours0 now) true None ""
                              (progress db) = Ok (p, ledger)
    ∧ (progressController.markCompleteToday now userId (Some habitId) db).2
      = set_db_progress ledger db.
Proof.
  unfold progressController.markCompleteToday.
  destruct (habits db !! habitId) as [habit|]; [|cbn; discriminate].
  destruct (Habit.isActive habit) eqn:Eact; [|cbn; discriminate].
  destruct (progressController.authorized userId habitId habit db) eqn:Eauth;
    [|cbn; discriminate].
  cbn [negb]. destruct (List.find _ (progress db)); [cbn; discriminate|].
  destruct (Progress.createOrUpdate _ _ _ _ _ _ _ _) as [[p ledger]|m];
    [|cbn; discriminate].
  intros _. exists habit, p, ledger. cbn. repeat split; assumption.
Qed.

(** X13: After [markCompleteToday] has succeeded, the next call for the same
    user and habit on the same day, on the database that the first call
    left, is refused with 400 "Habit already completed today" and writes
    nothing.  The refusal rests on the completed entry of the day: once
    that entry is toggled to incomplete a further call succeeds again
    ([markCompleteToday_after_toggle]). *)
Theorem markCompleteToday_once_a_day now1 now2 userId habitId db :
  dayOf now1 = dayOf now2 →
  let r1 := progressController.markCompleteToday now1 userId (Some habitId) db in
  r1.1 = Some (mkResponse 200 true "Habit marked as complete for today!") →
  progressController.markCompleteToday now2 userId (Some habitId) r1.2
  = (Some (mkResponse 400 false "Habit already completed today"), r1.2).
Proof.
  intros Hday r1 Hok. subst r1.
  destruct (markCompleteToday_Ok _ _ _ _ Hok)
    as (habit & p & ledger & Hh & Hact & Hauth & Ecu & ->).
  apply createOrUpdate_entry in Ecu as (Hin & Hu & Hhab & Hdate & Hc).
  unfold progressController.markCompleteToday.
  cbn [habits set_db_progress progress]. rewrite Hh, Hact.
  change (progressController.authorized userId habitId habit
            (set_db_progress ledger db))
    with (progressController.authorized userId habitId habit db).
  rewrite Hauth. cbn [negb].
  destruct (List.find _ ledger) as [q|] eqn:Efind; [reflexivity|].
  exfalso. apply list_elem_of_In in Hin.
  pose proof (find_none _ _ Efind p Hin) as Hpred. cbn beta in Hpred.
  unfold Progress.of_user_habit in Hpred.
  rewrite Hu, Hhab, Hc, !Nat.eqb_refl, Hdate in Hpred.
  replace (setHours0 (setHours0 now1)) with (setHours0 now2) in Hpred
    by day_arith.
  rewrite Z.eqb_refl in Hpred. discriminate.
Qed.

Lemma markCompleteToday_once_a_day_witness :
  let r1 := progressController.markCompleteToday (day 10 + 5) 8%nat (Some 1%nat)
              sample_db in
  progressController.markCompleteToday (day 10 + 99) 8%nat (Some 1%nat) r1.2
  = (Some (mkResponse 400 false "Habit already completed today"), r1.2).
Proof.
  apply (markCompleteToday_once_a_day (day 10 + 5) (day 10 + 99) 8%nat 1%nat
           sample_db).
  - vm_compute. reflexivity.
  - vm_compute. reflexivity.
Defined.

Example markCompleteToday_after_toggle :
  let r1 := progressController.markCompleteToday (day 10 + 5) 8%nat (Some 1%nat)
              sample_db in
  let r2 := progressController.toggleProgress (day 10 + 6) 8%nat 2%nat r1.2 in
  let r3 := progressController.markCompleteToday (day 10 + 7) 8%nat (Some 1%nat)
              r2.2 in
  status r2.1 = 200
  ∧ r3.1 = Some (mkResponse 200 true "Habit marked as complete for today!")
  ∧ length (progress r3.2) = length (progress r1.2).
Proof. split_and!; vm_compute; reflexivity. Qed.

(** X14: After [markCompleteToday] has succeeded on a ledger with one entry per
    (user, habit, day) and no entry of the user for the habit after today,
    today has a completed entry and the current streak is at least 1. *)
Theorem markCompleteToday_starts_streak now userId habitId db :
  unique_ids (progress db) → one_per_day (progress db) →
  (∀ d, has_entry (progress db) userId habitId d → d ≤ dayOf now) →
  let r := progressController.markCompleteToday now userId (Some habitId) db in
  r.1 = Some (mkResponse 200 true "Habit marked as complete for today!") →
  completed_on (progress r.2) userId habitId (dayOf now)
  ∧ 1 ≤ Progress.getCurrentStreak now userId habitId (progress r.2).
Proof.
  intros Hids Hkeys Hpast r Hok. subst r.
  destruct (markCompleteToday_Ok _ _ _ _ Hok)
    as (habit & p & ledger & _ & _ & _ & Ecu & ->).
  cbn [progress set_db_progress].
  destruct (apply_op_invariants now
              (Upsert userId habitId (setHours0 now) true None "")
              _ _ _ Ecu Hids Hkeys) as (_ & Hkeys' & _).
  pose proof (createOrUpdate_entry _ _ _ _ _ _ _ _ _ _ Ecu)
    as (Hin & Hu & Hhab & Hdate & Hc).
  assert (Hkp : key p = (userId, habitId, dayOf now)).
  { unfold key. rewrite Hu, Hhab, Hdate, !dayOf_setHours0. reflexivity. }
  assert (Hdone : completed_on ledger userId habitId (dayOf now)).
  { exists p. auto. }
  split; [exact Hdone|].
  assert (Hpast' : ∀ d, has_entry ledger userId habitId d → d ≤ dayOf now).
  { intros d (q & Hq & Hkq).
    apply createOrUpdate_shape in Ecu as (_ & _ & _ & Hshape).
    assert (Hfrom : q = p ∨ q ∈ progress db).
    { destruct Hshape as [[_ Hrw]|[_ Happ]].
      - apply (rewrote_elems _ _ _ Hrw), Hq.
      - apply (appended_elems _ _ _ Happ), Hq. }
    destruct Hfrom as [->|Hold].
    - rewrite Hkp in Hkq. injection Hkq as <-. lia.
    - apply Hpast. exists q. auto. }
  destruct (getCurrentStreak_run now userId habitId ledger Hkeys' Hpast')
    as (Hk & _ & Hstop).
  destruct (decide (Progress.getCurrentStreak now userId habitId ledger = 0))
    as [E|E]; [|lia].
  exfalso. apply Hstop; [lia|]. rewrite E, Z.sub_0_r. exact Hdone.
Qed.

Lemma markCompleteToday_starts_streak_witness :
  let r := progressController.markCompleteToday (day 10 + 5) 8%nat (Some 1%nat)
             sample_db in
  completed_on (progress r.2) 8%nat 1%nat (dayOf (day 10 + 5))
  ∧ 1 ≤ Progress.getCurrentStreak (day 10 + 5) 8%nat 1%nat (progress r.2).
Proof.
  apply (markCompleteToday_starts_streak (day 10 + 5) 8%nat 1%nat sample_db).
  - apply (bool_decide_unpack _). vm_compute. exact I.
  - apply (bool_decide_unpack _). vm_compute. exact I.
  - intros d (p & Hp & Hk). vm_compute in Hp.
    apply list_elem_of_singleton in Hp as ->.
    vm_compute in Hk. injection Hk as <-. vm_compute. discriminate.
  - vm_compute. reflexivity.
Defined.

Example streak_after_markCompleteToday :
  Progress.getCurrentStreak (day 10 + 5) 8%nat 1%nat
    (progress (progressController.markCompleteToday (day 10 + 5) 8%nat
                 (Some 1%nat) sample_db).2) = 2.
Proof. vm_compute. reflexivity. Qed.

(** ** Reading the progress of a habit *)

Lemma round_percentage (x : Q) (scale : Z) :
  0 ≤ scale → (0 <= x)%Q → (x <= inject_Z scale)%Q →
  0 ≤ progressController.round x ≤ scale.
Proof.
  intros Hs H0 Hx. unfold progressController.round. split.
  - change 0 with (Qfloor 0). apply Qfloor_resp_le.
    apply (Qle_trans _ (x + 0)); [rewrite Qplus_0_r; exact H0|].
    apply Qplus_le_r. discriminate.
  - assert (Hlt : (x + (1 # 2) < inject_Z (scale + 1))%Q).
    { rewrite inject_Z_plus, (Qplus_comm x), (Qplus_comm (inject_Z scale)).
      apply Qplus_lt_le_compat; [reflexivity | exact Hx]. }
    assert (Hfl : (inject_Z (Qfloor (x + (1 # 2))) < inject_Z (scale + 1))%Q).
    { eapply Qle_lt_trans; [apply Qfloor_le | exact Hlt]. }
    rewrite <- Zlt_Qlt in Hfl. lia.
Qed.

Lemma elem_of_getUserHabitProgress u h sd ed ledger p :
  p ∈ Progress.getUserHabitProgress u h sd ed ledger
  ↔ p ∈ ledger ∧ Progress.user p = u ∧ Progress.habit p = h
    ∧ Progress.in_range sd ed p = true.
Proof.
  unfold Progress.getUserHabitProgress.
  rewrite merge_sort_Permutation, list_elem_of_filter, andb_true_iff.
  unfold Progress.of_user_habit. rewrite andb_true_iff, !Nat.eqb_eq. tauto.
Qed.

Lemma limit_sublist {A} n (l : list A) : Progress.limit n l `sublist_of` l.
Proof.
  unfold Progress.limit. destruct (n =? 0)%nat; [reflexivity|].
  apply sublist_take.
Qed.

Lemma limit_length {A} n (l : list A) :
  n ≠ 0%nat → (length (Progress.limit n l) ≤ n)%nat.
Proof.
  intros Hn. unfold Progress.limit. apply Nat.eqb_neq in Hn. rewrite Hn.
  rewrite length_take. lia.
Qed.

(** X15: What [getHabitProgress] answers when it answers with data: the entries
    are entries of the user for the habit inside the requested dates, most
    recent first and no more than a non-zero limit; the counts are those of
    the entries returned; the rate is between 0 and 100 and the streak
    between 0 and 365. *)
Theorem getHabitProgress_statistics now u h sd ed lim db resp data :
  progressController.getHabitProgress now u h sd ed lim db = (resp, Some data) →
  status resp = 200
  ∧ progressController.totalEntries data
    = length (progressController.progressEntries data)
  ∧ (progressController.completedEntries data
     ≤ progressController.totalEntries data)%nat
  ∧ (lim ≠ 0%nat → (progressController.totalEntries data ≤ lim)%nat)
  ∧ (∀ p, p ∈ progressController.progressEntries data →
          p ∈ progress db ∧ Progress.user p = u ∧ Progress.habit p = h
          ∧ Progress.in_range sd ed p = true)
  ∧ Sorted Progress.newest_entry_first (progressController.progressEntries data)
  ∧ (0 <= progressController.completionRate data <= 100)%Q
  ∧ 0 ≤ progressController.currentStreak data ≤ 365.
Proof.
  unfold progressController.getHabitProgress.
  destruct (habits db !! h) as [habit|]; [|discriminate].
  destruct (negb _); [discriminate|].
  set (entries := Progress.limit lim _).
  intros [= <- <-].
  cbn [status progressController.totalEntries
       progressController.completedEntries progressController.completionRate
       progressController.currentStreak progressController.progressEntries].
  pose proof (length_filter (λ e, Progress.completed e = true) entries) as Hc.
  assert (Hrate : (0 <= (if (0 <? length entries)%nat
        then inject_Z (Z.of_nat (length (filter (λ e, Progress.completed e = true)
                                                entries)))
             / inject_Z (Z.of_nat (length entries)) * 100
        else 0) <= 100)%Q).
  { destruct (0 <? length entries)%nat eqn:E; [|split; discriminate].
    apply Nat.ltb_lt in E.
    destruct (percentage_bounds
                (Z.of_nat (length (filter (λ e, Progress.completed e = true)
                                          entries)))
                (Z.of_nat (length entries))) as [H0 H100]; [lia | lia |].
    split; [exact H0 | apply H100; lia]. }
  destruct Hrate as [Hr0 Hr100].
  destruct (round_percentage
      ((if (0 <? length entries)%nat
        then inject_Z (Z.of_nat (length (filter (λ e, Progress.completed e = true)
                                                entries)))
             / inject_Z (Z.of_nat (length entries)) * 100
        else 0) * 100)%Q 10000) as [Hlo Hhi]; [lia | | |].
  { apply Qmult_le_0_compat; [exact Hr0 | discriminate]. }
  { change (inject_Z 10000) with (100 * 100)%Q.
    apply Qmult_le_compat_r; [exact Hr100 | discriminate]. }
  pose proof (getCurrentStreak_range now u h (progress db)) as [Hs0 Hs365].
  split_and!; try reflexivity.
  - exact Hc.
  - intros Hlim. apply limit_length, Hlim.
  - intros p Hp. apply (elem_of_getUserHabitProgress u h sd ed).
    eapply elem_of_sublist; [exact Hp | apply limit_sublist].
  - unfold entries, Progress.limit. destruct (lim =? 0)%nat.
    + apply Sorted_merge_sort. apply _.
    + apply StronglySorted_Sorted.
      apply (StronglySorted_app_1_l _ _
               (drop lim (Progress.getUserHabitProgress u h sd ed (progress db)))).
      rewrite take_drop. unfold Progress.getUserHabitProgress.
      apply StronglySorted_merge_sort; apply _.
  - apply Qle_shift_div_l; [reflexivity|]. rewrite Qmult_0_l.
    change 0%Q with (inject_Z 0). rewrite <- Zle_Qle. exact Hlo.
  - apply Qle_shift_div_r; [reflexivity|].
    change (100 * 100)%Q with (inject_Z 10000). rewrite <- Zle_Qle.
    exact Hhi.
  - exact Hs0.
  - exact Hs365.
Qed.

Lemma getHabitProgress_statistics_witness :
  ∃ resp data,
    progressController.getHabitProgress (day 10) 8%nat 1%nat None None 30
                                        sample_db = (resp, Some data)
    ∧ status resp = 200
    ∧ progressController.totalEntries data = 1%nat.
Proof.
  eexists _, _. split; [reflexivity|].
  destruct (getHabitProgress_statistics (day 10) 8%nat 1%nat None None 30
              sample_db _ _ eq_refl) as (Hstatus & _).
  split; [exact Hstatus | reflexivity].
Defined.

(** ** What a deleted habit allows *)

Lemma deleteHabit_run userId id db habit :
  habits db !! id = Some habit → Habit.creator habit = userId →
  habitController.deleteHabit userId id db
  = (mkResponse 200 true "Habit deleted successfully",
     mkDb (alter (Habit.set_isActive false) id (habits db))
          ((λ g, if bool_decide (id ∈ Group.habits g)
                 then Group.set_habits (pull id (Group.habits g)) g
                 else g) <$> groups db)
          (alter (λ u, User.set_createdHabits (pull id (User.createdHabits u)) u)
                 userId (users db))
          (progress db)).
Proof.
  intros Hh Hc. unfold habitController.deleteHabit.
  rewrite Hh, Hc, Nat.eqb_refl. reflexivity.
Qed.

Lemma deleteHabit_unlists userId id db habit :
  habits db !! id = Some habit → Habit.creator habit = userId →
  ∀ gid g, groups (habitController.deleteHabit userId id db).2 !! gid = Some g →
           id ∉ Group.habits g.
Proof.
  intros Hh Hc gid g. rewrite (deleteHabit_run _ _ _ _ Hh Hc). cbn.
  rewrite lookup_fmap. destruct (groups db !! gid) as [g0|]; [|discriminate].
  cbn. intros [= <-]. case_bool_decide as Hin; [apply not_elem_of_pull | exact Hin].
Qed.

(** X16: After its creator has deleted a habit, the creator reads the progress
    of the habit exactly as before, and every other user is refused with
    403, whatever groups they are in. *)
Theorem deleted_habit_history now creatorId id sd ed lim db habit :
  habits db !! id = Some habit → Habit.creator habit = creatorId →
  let db' := (habitController.deleteHabit creatorId id db).2 in
  progressController.getHabitProgress now creatorId id sd ed lim db'
  = progressController.getHabitProgress now creatorId id sd ed lim db
  ∧ (progressController.getHabitProgress now creatorId id sd ed lim db).1
    = mkResponse 200 true ""
  ∧ (∀ userId, userId ≠ creatorId →
       progressController.getHabitProgress now userId id sd ed lim db'
       = (mkResponse 403 false "Not authorized to view progress for this habit",
          None)).
Proof.
  intros Hh Hc db'.
  pose proof (deleteHabit_unlists _ _ _ _ Hh Hc) as Hunlisted.
  subst db'. rewrite (deleteHabit_run _ _ _ _ Hh Hc) in *. cbn [snd] in *.
  unfold progressController.getHabitProgress.
  cbn [habits progress]. rewrite lookup_alter_eq, Hh. cbn [fmap option_fmap option_map].
  unfold progressController.authorized.
  cbn [Habit.creator Habit.set_isActive]. rewrite Hc, Nat.eqb_refl.
  cbn [orb negb]. split_and!; [reflexivity | reflexivity |].
  intros userId Hne. apply Nat.eqb_neq in Hne.
  rewrite (Nat.eqb_sym creatorId userId), Hne. cbn [orb].
  destruct (0 <? length (Group.find id userId _))%nat eqn:Efind; [|reflexivity].
  apply find_nonempty in Efind as (gid & g & Hg & Hin & _).
  exfalso. apply (Hunlisted gid g Hg Hin).
Qed.

Lemma deleted_habit_history_witness :
  let db' := (habitController.deleteHabit 7%nat 1%nat sample_db).2 in
  progressController.getHabitProgress (day 10) 7%nat 1%nat None None 30 db'
  = progressController.getHabitProgress (day 10) 7%nat 1%nat None None 30
                                        sample_db
  ∧ progressController.getHabitProgress (day 10) 8%nat 1%nat None None 30 db'
    = (mkResponse 403 false "Not authorized to view progress for this habit",
       None).
Proof.
  destruct (deleted_habit_history (day 10) 7%nat 1%nat None None 30 sample_db
              (reading_habit (day 0) [])) as (Hsame & _ & Hothers);
    [reflexivity | reflexivity |].
  split; [exact Hsame | apply Hothers; discriminate].
Defined.

(** X17: After its creator has deleted a habit, nobody can log progress for it:
    [logProgress] and [markCompleteToday] answer 404 and write nothing. *)
Theorem deleted_habit_refuses_logging now userId creatorId id body db habit :
  habits db !! id = Some habit → Habit.creator habit = creatorId →
  progressController.habitId body = Some id →
  let db' := (habitController.deleteHabit creatorId id db).2 in
  progressController.logProgress now userId body db'
  = (mkResponse 404 false "Habit not found", db')
  ∧ progressController.markCompleteToday now userId (Some id) db'
    = (Some (mkResponse 404 false "Habit not found"), db').
Proof.
  intros Hh Hc Hid db'. subst db'.
  rewrite (deleteHabit_run _ _ _ _ Hh Hc). cbn [snd].
  unfold progressController.logProgress, progressController.markCompleteToday.
  rewrite Hid. cbn [habits]. rewrite lookup_alter_eq, Hh.
  split; reflexivity.
Qed.

Lemma deleted_habit_refuses_logging_witness :
  let db' := (habitController.deleteHabit 7%nat 1%nat sample_db).2 in
  progressController.logProgress (day 10) 7%nat (log_body 1%nat (day 10) true) db'
  = (mkResponse 404 false "Habit not found", db')
  ∧ progressController.markCompleteToday (day 10) 7%nat (Some 1%nat) db'
    = (Some (mkResponse 404 false "Habit not found"), db').
Proof.
  apply (deleted_habit_refuses_logging (day 10) 7%nat 7%nat 1%nat
           (log_body 1%nat (day 10) true) sample_db (reading_habit (day 0) []));
    reflexivity.
Defined.

(** ** The dashboard *)

Lemma foldl_max_spec {A} (f : A → Z) (l : list A) (init : Z) :
  let m := foldl (λ longest x, Z.max longest (f x)) init l in
  init ≤ m ∧ (∀ x, x ∈ l → f x ≤ m) ∧ (m = init ∨ ∃ x, x ∈ l ∧ f x = m).
Proof.
  revert init. induction l as [|y l IH]; intros init; simpl.
  - split_and!; [lia | intros x Hx; inversion Hx | left; reflexivity].
  - destruct (IH (Z.max init (f y))) as (Hle & Hall & Hatt).
    split_and!; [lia | |].
    + intros x [->|Hx]%elem_of_cons; [lia | apply Hall, Hx].
    + destruct Hatt as [E|(x & Hx & E)].
      * destruct (Z.max_spec init (f y)) as [[_ Hm]|[_ Hm]].
        -- right. exists y. split; [apply list_elem_of_here | congruence].
        -- left. congruence.
      * right. exists x. split; [apply list_elem_of_further, Hx | exact E].
Qed.

Lemma elem_of_activeHabitsOf userId db id h :
  (id, h) ∈ statsController.activeHabitsOf userId db
  ↔ habits db !! id = Some h ∧ Habit.creator h = userId
    ∧ Habit.isActive h = true.
Proof.
  unfold statsController.activeHabitsOf.
  rewrite list_elem_of_filter, elem_of_map_to_list. cbn. tauto.
Qed.

(** X18: The dashboard: the longest streak is the largest current streak among
    the active habits the user created, 0 when there is none, and at most
    365; the weekly completion rate is a whole number between 0 and 100. *)
Theorem getDashboardStats_bounds now userId db :
  let stats := (statsController.getDashboardStats now userId db).2 in
  0 ≤ statsController.longestStreak stats ≤ 365
  ∧ (∀ id h, habits db !! id = Some h → Habit.creator h = userId →
             Habit.isActive h = true →
             Progress.getCurrentStreak now userId id (progress db)
             ≤ statsController.longestStreak stats)
  ∧ (statsController.longestStreak stats = 0
     ∨ ∃ id h, habits db !! id = Some h ∧ Habit.creator h = userId
               ∧ Habit.isActive h = true
               ∧ Progress.getCurrentStreak now userId id (progress db)
                 = statsController.longestStreak stats)
  ∧ 0 ≤ statsController.weeklyCompletionRate stats ≤ 100.
Proof.
  unfold statsController.getDashboardStats.
  cbn [snd statsController.longestStreak statsController.weeklyCompletionRate].
  destruct (foldl_max_spec
              (λ ih : ObjectId * Habit.t,
                 Progress.getCurrentStreak now userId ih.1 (progress db))
              (statsController.activeHabitsOf userId db) 0)
    as (H0 & Hall & Hatt).
  assert (Hatt' :
    foldl (λ longest ih,
             Z.max longest
               (Progress.getCurrentStreak now userId ih.1 (progress db)))
          0 (statsController.activeHabitsOf userId db) = 0
    ∨ ∃ id h, habits db !! id = Some h ∧ Habit.creator h = userId
              ∧ Habit.isActive h = true
              ∧ Progress.getCurrentStreak now userId id (progress db)
                = foldl (λ longest ih,
                           Z.max longest
                             (Progress.getCurrentStreak now userId ih.1
                                                        (progress db)))
                        0 (statsController.activeHabitsOf userId db)).
  { destruct Hatt as [E|([id h] & Hin & E)]; [left; exact E|].
    right. exists id, h. apply elem_of_activeHabitsOf in Hin. tauto. }
  split_and!.
  - exact H0.
  - destruct Hatt' as [->|(id & h & _ & _ & _ & <-)]; [lia|].
    apply getCurrentStreak_range.
  - intros id h Hh Hc Ha.
    apply (Hall (id, h)), elem_of_activeHabitsOf. auto.
  - exact Hatt'.
  - destruct (0 <? _)%nat eqn:E; [|lia].
    apply Nat.ltb_lt in E.
    match goal with |- 0 ≤ progressController.round (inject_Z (Z.of_nat ?c)
                                   / inject_Z (Z.of_nat ?t) * 100) =>
      destruct (percentage_bounds (Z.of_nat c) (Z.of_nat t)) as [Hlo Hhi];
        [lia | lia |];
      pose proof (length_filter (λ e, Progress.completed e = true)
                    (filter (λ p, Progress.user p = userId
                                  ∧ now - 7 * MS_PER_DAY ≤ Progress.date p ≤ now)
                            (progress db))) as Hsub;
      apply (round_percentage _ 100); [lia | exact Hlo | apply Hhi; lia]
    end.
  - destruct (0 <? _)%nat eqn:E; [|lia].
    apply Nat.ltb_lt in E.
    match goal with |- progressController.round (inject_Z (Z.of_nat ?c)
                                   / inject_Z (Z.of_nat ?t) * 100) ≤ 100 =>
      destruct (percentage_bounds (Z.of_nat c) (Z.of_nat t)) as [Hlo Hhi];
        [lia | lia |];
      pose proof (length_filter (λ e, Progress.completed e = true)
                    (filter (λ p, Progress.user p = userId
                                  ∧ now - 7 * MS_PER_DAY ≤ Progress.date p ≤ now)
                            (progress db))) as Hsub;
      apply (round_percentage _ 100); [lia | exact Hlo | apply Hhi; lia]
    end.
Qed.

Example dashboard_of_sample_db :
  (statsController.getDashboardStats (day 10) 7%nat sample_db).2
  = statsController.mkDashboardStats 1 1 0 0
  ∧ (statsController.getDashboardStats (day 10) 8%nat sample_db).2
    = statsController.mkDashboardStats 0 1 0 100.
Proof. split; vm_compute; reflexivity. Qed.

(** ** Saving a group *)

Lemma NoDup_dedupe l : NoDup (dedupe l).
Proof.
  induction l as [|x l IH]; simpl; [constructor|].
  apply NoDup_cons. split.
  - rewrite list_elem_of_filter. tauto.
  - apply NoDup_filter, IH.
Qed.

Lemma dedupe_NoDup l : NoDup l → dedupe l = l.
Proof.
  induction 1 as [|x l Hx _ IH]; simpl; [reflexivity|].
  rewrite IH. f_equal. apply (pull_id x l Hx).
Qed.

Lemma pull_app_last x l : x ∉ l → pull x (l ++ [x]) = l.
Proof.
  intros Hx. unfold pull. rewrite filter_app.
  change (filter (λ y, y ≠ x) l) with (pull x l). rewrite (pull_id x l Hx).
  rewrite filter_cons_False by (intros H; apply H; reflexivity).
  rewrite filter_nil. apply app_nil_r.
Qed.

(** The pre-save hook in one expression. *)
Lemma pre_save_eq code g :
  Group.pre_save code g
  = Group.mk (Group.name g) (Group.description g)
      (dedupe (if bool_decide (Group.creator g ∈ Group.members g)
               then Group.members g
               else Group.members g ++ [Group.creator g]))
      (dedupe (Group.habits g)) (Group.creator g) (Group.isPrivate g)
      (Group.maxMembers g)
      (if negb (match Group.inviteCode g with
                | Some c => truthy c | None => false end)
          && negb (Group.isPrivate g)
       then Some code else Group.inviteCode g)
      (Group.tags g) (Group.settings g) (Group.statistics g)
      (Group.isActive g).
Proof.
  destruct g as [n d ms hs c p mx ic tg st sc ac].
  unfold Group.pre_save. cbn.
  destruct (negb _ && negb p); cbn;
    case_bool_decide; cbn;
    destruct ms as [|m ms]; cbn; destruct hs as [|h hs]; cbn; reflexivity.
Qed.

Lemma saved_form_pre_save code g :
  saved_form g → Group.pre_save code g = g.
Proof.
  intros (Hm & Hh & Hc & Hi). rewrite pre_save_eq.
  rewrite (bool_decide_eq_true_2 _ Hc), (dedupe_NoDup _ Hm), (dedupe_NoDup _ Hh).
  assert (Hcode : negb (match Group.inviteCode g with
                        | Some c => truthy c | None => false end)
                  && negb (Group.isPrivate g) = false).
  { destruct Hi as [-> | (c & -> & ->)]; [apply andb_false_r | reflexivity]. }
  rewrite Hcode. destruct g; reflexivity.
Qed.

Lemma validate_pre_save code g :
  String.length code = 8%nat →
  Group.validate g = Ok () → Group.validate (Group.pre_save code g) = Ok ().
Proof.
  intros Hlen. rewrite pre_save_eq. unfold Group.validate.
  cbn [Group.name Group.description Group.maxMembers Group.inviteCode
       Group.tags Group.statistics].
  cbn [first_error].
  destruct (Group.validate_name _) as [[]|]; [|discriminate].
  destruct (Group.validate_description _) as [[]|]; [|discriminate].
  destruct (Group.validate_maxMembers _) as [[]|]; [|discriminate].
  destruct (negb _ && negb _); [|trivial].
  destruct (Group.validate_inviteCode (Group.inviteCode g)) as [[]|];
    [|discriminate].
  unfold Group.validate_inviteCode. rewrite Hlen. trivial.
Qed.

Lemma truthy_length s n : String.length s = S n → truthy s = true.
Proof. destruct s; [discriminate | reflexivity]. Qed.

(** X19: What [save] stores: a group in saved form, with the members it was
    given plus the creator and the habits it was given; saving the stored
    group again, whatever code is drawn, changes nothing.  [code] has the 8
    characters that [generateInviteCode] draws. *)
Theorem save_group_saved_form code id g gs g' gs' :
  String.length code = 8%nat →
  Group.save code id g gs = Ok (g', gs') →
  gs' !! id = Some g'
  ∧ saved_form g'
  ∧ (∀ x, x ∈ Group.members g' ↔ x ∈ Group.members g ∨ x = Group.creator g)
  ∧ (∀ x, x ∈ Group.habits g' ↔ x ∈ Group.habits g)
  ∧ (∀ code', Group.save code' id g' gs' = Ok (g', gs')).
Proof.
  intros Hlen (Hv & -> & ->)%save_Ok.
  pose proof (truthy_length _ _ Hlen) as Hcode.
  assert (Hform : saved_form (Group.pre_save code g)).
  { rewrite pre_save_eq. unfold saved_form.
    cbn [Group.members Group.habits Group.creator Group.isPrivate
         Group.inviteCode].
    split_and!.
    - apply NoDup_dedupe.
    - apply NoDup_dedupe.
    - apply elem_of_dedupe. case_bool_decide; [assumption|].
      apply elem_of_app. right. apply list_elem_of_here.
    - destruct (Group.isPrivate g); [left; reflexivity|]. right.
      destruct (Group.inviteCode g) as [c|]; cbn [negb andb].
      + destruct (truthy c) eqn:E; cbn [negb andb]; eauto.
      + eauto. }
  split_and!.
  - apply lookup_insert_eq.
  - exact Hform.
  - intros x. rewrite pre_save_eq. cbn [Group.members].
    rewrite elem_of_dedupe.
    case_bool_decide as Hin.
    + split; [tauto|]. intros [? | ->]; assumption.
    + rewrite elem_of_app, list_elem_of_singleton. tauto.
  - intros x. rewrite pre_save_eq. cbn [Group.habits]. apply elem_of_dedupe.
  - intros code'. unfold Group.save.
    rewrite (validate_pre_save code g Hlen Hv).
    rewrite (saved_form_pre_save code' _ Hform), insert_insert_eq.
    reflexivity.
Qed.

Lemma save_group_saved_form_witness :
  let g := Group.mk "Runners" "" [8%nat; 8%nat] [1%nat; 1%nat] 7%nat false 5
                    None [] (Group.mkSettings true true false)
                    (Group.mkStatistics 0 0) true in
  let g' := Group.mk "Runners" "" [8%nat; 7%nat] [1%nat] 7%nat false 5
                     (Some "ABCDEFGH") [] (Group.mkSettings true true false)
                     (Group.mkStatistics 0 0) true in
  Group.save "ABCDEFGH" 0%nat g ∅ = Ok (g', <[0%nat := g']> ∅)
  ∧ saved_form g'
  ∧ ∀ code', Group.save code' 0%nat g' (<[0%nat := g']> ∅)
             = Ok (g', <[0%nat := g']> ∅).
Proof.
  intros g g'.
  assert (H : Group.save "ABCDEFGH" 0%nat g ∅ = Ok (g', <[0%nat := g']> ∅))
    by reflexivity.
  split; [exact H|].
  destruct (save_group_saved_form "ABCDEFGH" 0%nat g ∅ g' _ eq_refl H)
    as (_ & Hform & _ & _ & Hagain).
  split; [exact Hform | exact Hagain].
Defined.

(** ** Joining and leaving a group *)

(** The successful run of [joinGroup]. *)
Lemma joinGroup_run code userId groupId inviteCode db :
  let r := groupController.joinGroup code userId groupId inviteCode db in
  status r.1 = 200 →
  ∃ g, groups db !! groupId = Some g
       ∧ Group.isActive g = true
       ∧ (userId ∉ Group.members g)
       ∧ Group.isFull g = false
       ∧ (Group.isPrivate g = true →
          inviteCode = Group.inviteCode g
          ∧ ∃ c, inviteCode = Some c ∧ truthy c = true)
       ∧ Group.validate g = Ok ()
       ∧ r.2 = set_db_users
                 (groupController.push_joinedGroup userId groupId (users db))
                 (set_db_groups
                    (<[groupId :=
                         Group.pre_save code
                           (Group.set_members (Group.members g ++ [userId]) g)]>
                       (groups db)) db).
Proof.
  unfold groupController.joinGroup.
  destruct (groups db !! groupId) as [g|]; [|discriminate].
  destruct (Group.isActive g) eqn:Eact; [|discriminate]. cbn [negb].
  case_bool_decide as Hmem; [discriminate|].
  destruct (Group.isFull g) eqn:Efull; [discriminate|].
  destruct (Group.isPrivate g && _) eqn:Epriv; [discriminate|].
  unfold Group.addMember. rewrite Efull, (bool_decide_eq_false_2 _ Hmem).
  destruct (Group.save _ _ _ _) as [[g' gs']|m] eqn:E; [|discriminate].
  apply save_Ok in E as (Hv & -> & ->).
  intros _. exists g. split_and!; try done.
  intros Hp. rewrite Hp in Epriv. cbn [andb] in Epriv.
  apply orb_false_iff in Epriv as [Et Eeq].
  apply negb_false_iff in Et. apply negb_false_iff, bool_decide_eq_true in Eeq.
  split; [exact Eeq|].
  destruct inviteCode as [c|]; [|discriminate]. eauto.
Qed.

(** X20: A user who joins a group may, from then on, log progress on every habit
    of the group; the join happens only for an active group that has room
    and that the user is not a member of, and, for a private group, with
    its invite code. *)
Theorem joinGroup_grants_access code userId groupId inviteCode db :
  let r := groupController.joinGroup code userId groupId inviteCode db in
  status r.1 = 200 →
  ∃ g g', groups db !! groupId = Some g
          ∧ Group.isActive g = true
          ∧ (userId ∉ Group.members g)
          ∧ (inject_Z (Z.of_nat (length (Group.members g)))
             < Group.maxMembers g)%Q
          ∧ (Group.isPrivate g = true →
             ∃ c, inviteCode = Some c ∧ Group.inviteCode g = Some c)
          ∧ groups r.2 !! groupId = Some g'
          ∧ (∀ x, x ∈ Group.members g'
                  ↔ x ∈ Group.members g ∨ x = userId ∨ x = Group.creator g)
          ∧ (∀ habitId habit, habitId ∈ Group.habits g →
               progressController.authorized userId habitId habit r.2 = true).
Proof.
  intros r H200. subst r.
  destruct (joinGroup_run code userId groupId inviteCode db H200)
    as (g & Hg & Hact & Hmem & Hfull & Hpriv & Hv & ->).
  set (g' := Group.pre_save code _).
  assert (Hmem' : ∀ x, x ∈ Group.members g'
                       ↔ x ∈ Group.members g ∨ x = userId ∨ x = Group.creator g).
  { intros x. subst g'. rewrite pre_save_eq. cbn [Group.members].
    rewrite elem_of_dedupe. cbn [Group.set_members Group.members Group.creator].
    case_bool_decide as Hin.
    - rewrite elem_of_app, list_elem_of_singleton.
      apply elem_of_app in Hin. rewrite list_elem_of_singleton in Hin.
      split; [tauto|]. intros [? | [? | ->]]; tauto.
    - rewrite !elem_of_app, !list_elem_of_singleton. tauto. }
  exists g, g'. split_and!; try done.
  - unfold Group.isFull, Group.memberCount in Hfull.
    apply Qnot_le_lt. rewrite <- Qle_bool_iff, Hfull. discriminate.
  - intros Hp. destruct (Hpriv Hp) as (E & c & -> & _). eauto.
  - cbn [groups set_db_users set_db_groups]. apply lookup_insert_eq.
  - intros habitId habit Hh. apply authorized_iff. right.
    exists groupId, g'. cbn [groups set_db_users set_db_groups].
    rewrite lookup_insert_eq. split_and!; [reflexivity | | |].
    + subst g'. rewrite pre_save_eq. cbn [Group.habits].
      apply elem_of_dedupe. exact Hh.
    + apply Hmem'. tauto.
    + subst g'. rewrite pre_save_eq. exact Hact.
Qed.

Lemma joinGroup_grants_access_witness :
  let r := groupController.joinGroup "ZZZZZZZZ" 8%nat 0%nat None roomy_db in
  status r.1 = 200
  ∧ progressController.authorized 8%nat 1%nat (reading_habit (day 0) []) r.2
    = true.
Proof.
  split; [reflexivity|].
  destruct (joinGroup_grants_access "ZZZZZZZZ" 8%nat 0%nat None roomy_db
              eq_refl) as (g & g' & Hg & _ & _ & _ & _ & _ & _ & Hauth).
  apply Hauth. injection Hg as <-. apply list_elem_of_here.
Defined.

(** X21: Joining a group and leaving it again restores the database, when the
    group is stored in saved form and the user did not list it among the
    joined groups before. *)
Theorem join_then_leave_restores code1 code2 userId groupId inviteCode db g :
  groups db !! groupId = Some g →
  saved_form g →
  (∀ u, users db !! userId = Some u → groupId ∉ User.joinedGroups u) →
  let r := groupController.joinGroup code1 userId groupId inviteCode db in
  status r.1 = 200 →
  groupController.leaveGroup code2 userId groupId r.2
  = (mkResponse 200 true "Successfully left the group", db).
Proof.
  intros Hg (Hnd & Hndh & Hcr & Hcode) Huser r H200. subst r.
  destruct (joinGroup_run code1 userId groupId inviteCode db H200)
    as (g0 & Hg0 & Hact & Hmem & Hfull & Hpriv & Hv & ->).
  rewrite Hg in Hg0. injection Hg0 as <-.
  set (g1 := Group.set_members (Group.members g ++ [userId]) g).
  assert (Hform1 : saved_form g1).
  { unfold saved_form, g1.
    cbn [Group.set_members Group.members Group.habits Group.creator
         Group.isPrivate Group.inviteCode].
    split_and!; [| exact Hndh | apply elem_of_app; left; exact Hcr | exact Hcode].
    apply NoDup_app. split_and!; [exact Hnd | | apply NoDup_singleton].
    intros x Hx ->%list_elem_of_singleton. contradiction. }
  rewrite (saved_form_pre_save code1 g1 Hform1).
  unfold groupController.leaveGroup.
  cbn [groups users set_db_users set_db_groups].
  rewrite lookup_insert_eq.
  assert (Hin1 : userId ∈ Group.members g1).
  { unfold g1. cbn [Group.set_members Group.members].
    apply elem_of_app. right. apply list_elem_of_here. }
  rewrite (bool_decide_eq_true_2 _ Hin1). cbn [negb].
  assert (Hne : (Group.creator g1 =? userId)%nat = false).
  { apply Nat.eqb_neq. unfold g1. cbn [Group.set_members Group.creator].
    intros <-. contradiction. }
  rewrite Hne. unfold Group.removeMember.
  assert (Hback : Group.set_members (pull userId (Group.members g1)) g1 = g).
  { unfold g1. cbn [Group.set_members Group.members].
    rewrite (pull_app_last _ _ Hmem). destruct g; reflexivity. }
  rewrite Hback. unfold Group.save. rewrite Hv.
  rewrite (saved_form_pre_save code2 g
             (conj Hnd (conj Hndh (conj Hcr Hcode)))).
  rewrite insert_insert_eq, (insert_id _ _ _ Hg).
  assert (Husers : groupController.pull_joinedGroup userId groupId
                     (groupController.push_joinedGroup userId groupId (users db))
                   = users db).
  { unfold groupController.pull_joinedGroup, groupController.push_joinedGroup.
    rewrite alter_alter_eq. apply alter_id. intros u Hu.
    cbn [compose User.set_joinedGroups User.joinedGroups].
    rewrite (pull_app_last _ _ (Huser u Hu)). destruct u; reflexivity. }
  cbn [groups users habits progress set_db_users set_db_groups].
  rewrite Husers. destruct db; reflexivity.
Qed.

Lemma join_then_leave_restores_witness :
  groupController.leaveGroup "YYYYYYYY" 8%nat 0%nat
    (groupController.joinGroup "ZZZZZZZZ" 8%nat 0%nat None roomy_db).2
  = (mkResponse 200 true "Successfully left the group", roomy_db).
Proof.
  apply (join_then_leave_restores "ZZZZZZZZ" "YYYYYYYY" 8%nat 0%nat None
           roomy_db (sample_group [7%nat] [1%nat] 7%nat 5 true)).
  - reflexivity.
  - unfold saved_form. cbn. split_and!.
    + apply NoDup_singleton.
    + apply NoDup_singleton.
    + apply list_elem_of_here.
    + right. eexists. split; reflexivity.
  - intros u Hu. vm_compute in Hu. injection Hu as <-. cbn.
    apply not_elem_of_nil.
  - reflexivity.
Defined.

(** X22: A group that is created private admits nobody as [createGroup]
    leaves it: the pre-save hook draws an invite code for public groups
    only, and [joinGroup] asks a private group for a code equal to the
    stored one, so every request to join is refused, whatever code it
    carries, and the database stays as it is. *)
Theorem created_private_group_is_closed code userId body db :
  groupController.isPrivate body = Some true →
  let r := groupController.createGroup code userId body db in
  status r.1 = 201 →
  ∃ id g, groups db !! id = None
          ∧ groups r.2 !! id = Some g
          ∧ Group.isPrivate g = true
          ∧ Group.inviteCode g = None
          ∧ Group.members g = [userId]
          ∧ ∀ code' u inviteCode,
              let r' := groupController.joinGroup code' u id inviteCode r.2 in
              status r'.1 ≠ 200 ∧ r'.2 = r.2.
Proof.
  intros Hp r. subst r. unfold groupController.createGroup.
  destruct (negb (truthy _)); [discriminate|]. rewrite Hp.
  set (g0 := Group.mk _ _ _ _ _ _ _ _ _ _ _ _).
  destruct (Group.save _ _ _ _) as [[g' gs']|m] eqn:E; [|discriminate].
  apply save_Ok in E as (Hv & -> & ->). intros _.
  set (id := fresh (dom (groups db))).
  assert (Hg' : Group.pre_save code g0
                = Group.mk (Group.name g0) (Group.description g0) [userId] []
                           userId true (Group.maxMembers g0) None
                           (Group.tags g0) (Group.settings g0)
                           (Group.statistics g0) true).
  { rewrite pre_save_eq. subst g0. cbn.
    rewrite bool_decide_eq_true_2 by apply list_elem_of_here. reflexivity. }
  exists id, (Group.pre_save code g0).
  cbn [snd groups set_db_users set_db_groups]. rewrite lookup_insert_eq.
  split_and!.
  - apply not_elem_of_dom, is_fresh.
  - reflexivity.
  - rewrite Hg'. reflexivity.
  - rewrite Hg'. reflexivity.
  - rewrite Hg'. reflexivity.
  - intros code' u inviteCode. unfold groupController.joinGroup.
    cbn [groups set_db_users set_db_groups]. rewrite lookup_insert_eq.
    rewrite Hg'. cbn [Group.isActive Group.members Group.isPrivate
                      Group.inviteCode negb andb].
    case_bool_decide; [split; [discriminate | reflexivity]|].
    destruct (Group.isFull _); [split; [discriminate | reflexivity]|].
    destruct inviteCode as [[|c s]|]; cbn; split; (discriminate || reflexivity).
Qed.

Lemma created_private_group_is_closed_witness :
  let r := groupController.createGroup "ZZZZZZZZ" 8%nat private_body roomy_db in
  status r.1 = 201
  ∧ ∃ id, groups roomy_db !! id = None
          ∧ status (groupController.joinGroup "YYYYYYYY" 7%nat id
                      (Some "ZZZZZZZZ") r.2).1 ≠ 200.
Proof.
  split; [reflexivity|].
  destruct (created_private_group_is_closed "ZZZZZZZZ" 8%nat private_body
              roomy_db eq_refl eq_refl)
    as (id & g & Hnew & _ & _ & _ & _ & Hclosed).
  exists id. split; [exact Hnew|].
  apply (Hclosed "YYYYYYYY" 7%nat (Some "ZZZZZZZZ")).
Defined.

(** ** Deleting a group, sharing a habit, looking a group up *)

(** X23: Deleting a group is the creator's right alone; it answers [joinGroup]
    with 404 from then on, takes the group off every user's list of joined
    groups, leaves the other groups, the habits and the ledger as they are,
    and whoever may still log a habit afterwards owes it to having created
    the habit or to another active group. *)
Theorem deleteGroup_closes_group userId id db g :
  groups db !! id = Some g →
  let r := groupController.deleteGroup userId id db in
  (Group.creator g ≠ userId → status r.1 = 403 ∧ r.2 = db)
  ∧ (Group.creator g = userId →
     status r.1 = 200
     ∧ groups r.2 !! id = Some (Group.set_isActive false g)
     ∧ (∀ gid, gid ≠ id → groups r.2 !! gid = groups db !! gid)
     ∧ (∀ uid, User.joinedGroups <$> users r.2 !! uid
               = (λ u, pull id (User.joinedGroups u)) <$> users db !! uid)
     ∧ habits r.2 = habits db ∧ progress r.2 = progress db
     ∧ (∀ code u inviteCode,
          groupController.joinGroup code u id inviteCode r.2
          = (mkResponse 404 false "Group not found", r.2))
     ∧ (∀ u habitId habit,
          progressController.authorized u habitId habit r.2 = true →
          Habit.creator habit = u
          ∨ ∃ gid g', gid ≠ id ∧ groups db !! gid = Some g'
                      ∧ habitId ∈ Group.habits g' ∧ u ∈ Group.members g'
                      ∧ Group.isActive g' = true)).
Proof.
  intros Hg r. subst r. unfold groupController.deleteGroup. rewrite Hg.
  split.
  - intros Hne. apply Nat.eqb_neq in Hne. rewrite Hne. split; reflexivity.
  - intros Heq. apply Nat.eqb_eq in Heq. rewrite Heq.
    cbn [negb fst snd status groups users habits progress
         set_db_groups set_db_users].
    assert (Hid : alter (Group.set_isActive false) id (groups db) !! id
                  = Some (Group.set_isActive false g)).
    { rewrite lookup_alter_eq, Hg. reflexivity. }
    split_and!; try reflexivity.
    + exact Hid.
    + intros gid Hne. apply lookup_alter_ne. congruence.
    + intros uid. rewrite lookup_fmap.
      destruct (users db !! uid) as [u|]; [|reflexivity].
      cbn [fmap option_fmap option_map]. f_equal.
      case_bool_decide as Hin; [reflexivity|].
      symmetry. apply (pull_id id _ Hin).
    + intros code u inviteCode. unfold groupController.joinGroup.
      cbn [groups set_db_groups set_db_users]. rewrite Hid. reflexivity.
    + intros u habitId habit Hauth. apply authorized_iff in Hauth.
      destruct Hauth as [Hc|(gid & g' & Hg' & Hh & Hm & Ha)]; [left; exact Hc|].
      right. cbn [groups set_db_groups set_db_users] in Hg'.
      destruct (decide (gid = id)) as [->|Hne].
      * rewrite Hid in Hg'. injection Hg' as <-. discriminate Ha.
      * rewrite lookup_alter_ne in Hg' by congruence.
        exists gid, g'. split_and!; assumption.
Qed.

Lemma deleteGroup_closes_group_witness :
  let r := groupController.deleteGroup 7%nat 0%nat sample_db in
  status r.1 = 200
  ∧ groupController.joinGroup "ZZZZZZZZ" 9%nat 0%nat None r.2
    = (mkResponse 404 false "Group not found", r.2)
  ∧ progressController.authorized 8%nat 1%nat (reading_habit (day 0) []) r.2
    = false.
Proof.
  destruct (deleteGroup_closes_group 7%nat 0%nat sample_db
              (sample_group [7%nat; 8%nat] [1%nat] 7%nat 2 true) eq_refl)
    as [_ Hdel].
  destruct (Hdel eq_refl) as (H200 & _ & _ & _ & _ & _ & Hjoin & _).
  split_and!; [exact H200 | apply Hjoin | reflexivity].
Defined.

(** X24: [addHabitToGroup] shares a habit only at the request of a member who
    created the habit or whose group lets members add habits; the habit
    list of the group gains that habit and nothing else, and every member
    of an active group may log the habit from then on.  Any other answer
    leaves the database as it was. *)
Theorem addHabitToGroup_shares_habit code userId groupId habitId db :
  let r := groupController.addHabitToGroup code userId groupId habitId db in
  (status r.1 ≠ 200 → r.2 = db)
  ∧ (status r.1 = 200 →
     ∃ g id habit g',
       habitId = Some id
       ∧ groups db !! groupId = Some g
       ∧ habits db !! id = Some habit
       ∧ userId ∈ Group.members g
       ∧ (Habit.creator habit = userId
          ∨ Group.allowMemberHabitCreation (Group.settings g) = true)
       ∧ groups r.2 !! groupId = Some g'
       ∧ (∀ x, x ∈ Group.habits g' ↔ x ∈ Group.habits g ∨ x = id)
       ∧ NoDup (Group.habits g')
       ∧ (∀ gid, gid ≠ groupId → groups r.2 !! gid = groups db !! gid)
       ∧ (Group.isActive g = true →
          ∀ m, m ∈ Group.members g →
               progressController.authorized m id habit r.2 = true)).
Proof.
  unfold groupController.addHabitToGroup.
  destruct (groups db !! groupId) as [g|] eqn:Hg;
    [|split; [reflexivity | discriminate]].
  case_bool_decide as Hmem; cbn [negb];
    [|split; [reflexivity | discriminate]].
  destruct habitId as [id|]; cbn [mbind option_bind];
    [|split; [reflexivity | discriminate]].
  destruct (habits db !! id) as [habit|] eqn:Hh;
    cbn [fmap option_fmap option_map];
    [|split; [reflexivity | discriminate]].
  destruct (_ || _) eqn:Ecan; cbn [negb];
    [|split; [reflexivity | discriminate]].
  unfold Group.addHabit.
  set (g1 := if bool_decide (id ∈ Group.habits g) then g else _).
  destruct (Group.save _ _ _ _) as [[g' gs']|m] eqn:E;
    [|split; [reflexivity | discriminate]].
  apply save_Ok in E as (Hv & -> & ->).
  split; [intros H; contradiction H; reflexivity|]. intros _.
  assert (Hh1 : ∀ x, x ∈ Group.habits g1 ↔ x ∈ Group.habits g ∨ x = id).
  { intros x. subst g1. case_bool_decide as Hin.
    - split; [tauto|]. intros [? | ->]; assumption.
    - cbn [Group.set_habits Group.habits].
      rewrite elem_of_app, list_elem_of_singleton. tauto. }
  assert (Hm1 : Group.members g1 = Group.members g
                ∧ Group.isActive g1 = Group.isActive g).
  { subst g1. case_bool_decide; split; reflexivity. }
  destruct Hm1 as [Hm1 Ha1].
  exists g, id, habit, (Group.pre_save code g1).
  cbn [snd groups set_db_groups]. rewrite lookup_insert_eq.
  split_and!; try done.
  - apply orb_true_iff in Ecan as [Ec|Ec]; [left | right; exact Ec].
    apply Nat.eqb_eq, Ec.
  - intros x. rewrite pre_save_eq. cbn [Group.habits].
    rewrite elem_of_dedupe. apply Hh1.
  - rewrite pre_save_eq. cbn [Group.habits]. apply NoDup_dedupe.
  - intros gid Hne. apply lookup_insert_ne. congruence.
  - intros Hact m Hm. apply authorized_iff. right.
    exists groupId, (Group.pre_save code g1). cbn [groups set_db_groups].
    rewrite lookup_insert_eq. rewrite pre_save_eq.
    cbn [Group.habits Group.members Group.isActive].
    split_and!; [reflexivity | | |].
    + apply elem_of_dedupe, Hh1. right. reflexivity.
    + apply elem_of_dedupe. rewrite Hm1.
      case_bool_decide; [exact Hm | apply elem_of_app; left; exact Hm].
    + rewrite Ha1. exact Hact.
Qed.

(** X25: When the lookup of a group by its invite code says that the user cannot
    join, [joinGroup] refuses that user with status 400, whatever invite
    code the request carries.  The group the lookup answers with is active
    and stores the upper-cased code. *)
Theorem invite_lookup_cannot_join userId inviteCode db resp l :
  groupController.findGroupByInviteCode userId inviteCode db = (resp, Some l) →
  ∃ stored,
    groups db !! groupController.groupId l = Some stored
    ∧ Group.inviteCode stored = Some (toUpperCase inviteCode)
    ∧ Group.isActive stored = true
    ∧ (groupController.canJoin l = false →
       ∀ code inviteCode',
         let r := groupController.joinGroup code userId
                    (groupController.groupId l) inviteCode' db in
         status r.1 = 400 ∧ r.2 = db).
Proof.
  unfold groupController.findGroupByInviteCode.
  destruct (negb (truthy inviteCode)); [discriminate|].
  destruct (List.find _ _) as [[id stored]|] eqn:Efind; [|discriminate].
  intros [= <- <-]. cbn [groupController.groupId groupController.canJoin].
  apply find_some in Efind as [Hin Hq]. cbn [snd] in Hq.
  apply andb_true_iff in Hq as [Hcode Hact].
  apply bool_decide_eq_true in Hcode.
  apply list_elem_of_In, elem_of_map_to_list in Hin.
  exists stored. split_and!; try done.
  intros Hcan code inviteCode'. unfold groupController.joinGroup.
  rewrite Hin, Hact. cbn [negb].
  unfold groupController.populate_members, Group.isFull, Group.memberCount
    in Hcan.
  cbn [Group.set_members Group.members Group.maxMembers Group.isActive] in Hcan.
  rewrite Hact, andb_true_r in Hcan.
  destruct (bool_decide (userId ∈ Group.members stored)) eqn:Hmem;
    [split; reflexivity|].
  apply bool_decide_eq_false in Hmem.
  assert (Hfull : Group.isFull stored = true).
  { apply andb_false_iff in Hcan as [Hcan|Hcan].
    - apply negb_false_iff, bool_decide_eq_true in Hcan.
      apply list_elem_of_filter in Hcan as [_ Hcan]. contradiction.
    - apply negb_false_iff, Qle_bool_iff in Hcan.
      unfold Group.isFull, Group.memberCount. apply Qle_bool_iff.
      eapply Qle_trans; [exact Hcan|]. rewrite <- Zle_Qle.
      pose proof (length_filter (λ m, is_Some (users db !! m))
                    (Group.members stored)). lia. }
  rewrite Hfull. split; reflexivity.
Qed.

Lemma invite_lookup_cannot_join_witness :
  ∃ resp l,
    groupController.findGroupByInviteCode 9%nat "abcdefgh" sample_db
    = (resp, Some l)
    ∧ groupController.canJoin l = false
    ∧ status (groupController.joinGroup "ZZZZZZZZ" 9%nat
                (groupController.groupId l) (Some "ABCDEFGH") sample_db).1
      = 400.
Proof.
  eexists _, _. split; [vm_compute; reflexivity|]. split; [reflexivity|].
  destruct (invite_lookup_cannot_join 9%nat "abcdefgh" sample_db _ _ eq_refl)
    as (stored & _ & _ & _ & Hno).
  apply (Hno eq_refl "ZZZZZZZZ" (Some "ABCDEFGH")).
Defined.

(** ** Creating, updating and listing habits *)

Lemma elem_of_getHabits userId db id h :
  (id, h) ∈ (habitController.getHabits userId db).2
  ↔ habits db !! id = Some h ∧ Habit.creator h = userId
    ∧ Habit.isActive h = true.
Proof.
  unfold habitController.getHabits. cbn [snd].
  rewrite merge_sort_Permutation, list_elem_of_filter, elem_of_map_to_list.
  cbn [fst snd]. tauto.
Qed.

Lemma elem_of_getGroupHabits userId groupId db id h :
  (id, h) ∈ (habitController.getGroupHabits userId groupId db).2
  ↔ ∃ g, groups db !! groupId = Some g ∧ userId ∈ Group.members g
         ∧ id ∈ Group.habits g
         ∧ habits db !! id = Some h ∧ Habit.isActive h = true.
Proof.
  unfold habitController.getGroupHabits.
  destruct (groups db !! groupId) as [g|].
  - case_bool_decide as Hm; cbn [negb snd].
    + rewrite merge_sort_Permutation, list_elem_of_filter, elem_of_map_to_list.
      cbn [fst snd]. split.
      * intros ([? ?] & ?). exists g. tauto.
      * intros (g' & [= <-] & ?). tauto.
    + split; [intros H; inversion H|].
      intros (g' & [= <-] & ? & _). contradiction.
  - cbn [snd]. split; [intros H; inversion H|].
    intros (g' & [=] & _).
Qed.

(** The two ways [createHabit] ends. *)
Lemma createHabit_run now userId body db :
  (habitController.createHabit now userId body db).2 = db
  ∨ ∃ h, habits db !! fresh (dom (habits db)) = None
         ∧ habits (habitController.createHabit now userId body db).2
           = <[fresh (dom (habits db)) := h]> (habits db)
         ∧ Habit.completionDates h = [].
Proof.
  unfold habitController.createHabit.
  destruct (_ || _); [left; reflexivity|].
  destruct (habitController.parseFrequency _) as [fr|]; [|left; reflexivity].
  set (h0 := Habit.mk _ _ _ _ _ _ _ _ _ _ _ _).
  destruct (Habit.save _ _ _) as [[h' hs']|m] eqn:E; [|left; reflexivity].
  apply save_habit_inv in E as (Hv & -> & ->).
  right. exists h0. split_and!; try reflexivity.
  apply not_elem_of_dom, is_fresh.
Qed.

(** X26: A habit that [createHabit] stores is new, active, valid, owned by the
    caller and without completions, so that its streak and its completion
    rate are 0 at any time; it is appended to the caller's created habits
    and appears in the caller's list of habits.  Any other answer leaves
    the database as it was. *)
Theorem createHabit_creates now userId body db :
  let r := habitController.createHabit now userId body db in
  (status r.1 ≠ 201 → r.2 = db)
  ∧ (status r.1 = 201 →
     ∃ id h,
       habits db !! id = None
       ∧ habits r.2 = <[id := h]> (habits db)
       ∧ Habit.validate h = Ok ()
       ∧ Habit.creator h = userId ∧ Habit.isActive h = true
       ∧ Habit.completionDates h = [] ∧ Habit.createdAt h = now
       ∧ (∀ offset now', Habit.currentStreak now' h = 0
                         ∧ Habit.completionRate now' h = 0%Q
                         ∧ Habit.isCompletedToday offset now' h = false)
       ∧ groups r.2 = groups db ∧ progress r.2 = progress db
       ∧ (User.createdHabits <$> users r.2 !! userId
          = (λ u, User.createdHabits u ++ [id]) <$> users db !! userId)
       ∧ (∀ uid, uid ≠ userId → users r.2 !! uid = users db !! uid)
       ∧ (id, h) ∈ (habitController.getHabits userId r.2).2).
Proof.
  unfold habitController.createHabit.
  destruct (_ || _); [split; [reflexivity | discriminate]|].
  destruct (habitController.parseFrequency _) as [fr|];
    [|split; [reflexivity | discriminate]].
  set (h0 := Habit.mk _ _ _ _ _ _ _ _ _ _ _ _).
  destruct (Habit.save _ _ _) as [[h' hs']|m] eqn:E;
    [|split; [reflexivity | discriminate]].
  apply save_habit_inv in E as (Hv & -> & ->).
  split; [intros H; contradiction H; reflexivity|]. intros _.
  exists (fresh (dom (habits db))), h0.
  cbn [snd habits groups users progress set_db_habits set_db_users].
  split_and!; try reflexivity.
  - apply not_elem_of_dom, is_fresh.
  - exact Hv.
  - intros offset now'. split_and!; reflexivity.
  - rewrite lookup_alter_eq. destruct (users db !! userId); reflexivity.
  - intros uid Hne. apply lookup_alter_ne. congruence.
  - apply elem_of_getHabits. cbn [habits set_db_habits set_db_users].
    rewrite lookup_insert_eq. split_and!; reflexivity.
Qed.

Lemma createHabit_creates_witness :
  let r := habitController.createHabit (day 10) 8%nat meditate_body sample_db in
  status r.1 = 201
  ∧ ∃ id h, habits sample_db !! id = None
            ∧ habits r.2 = <[id := h]> (habits sample_db)
            ∧ Habit.creator h = 8%nat
            ∧ Habit.currentStreak (day 12) h = 0.
Proof.
  split; [reflexivity|].
  destruct (createHabit_creates (day 10) 8%nat meditate_body sample_db)
    as [_ Hok].
  destruct (Hok eq_refl)
    as (id & h & Hnew & Hs & _ & Hc & _ & _ & _ & Hz & _).
  exists id, h. split_and!; [exact Hnew | exact Hs | exact Hc | apply (Hz 0)].
Defined.

(** X27: [updateHabit] is the creator's right alone; whatever the request, it
    leaves the creator, the completion dates and the creation date of the
    habit as they are, hence its streak too, and touches no other habit, no
    group, no user and no progress entry; a duration it stores lies
    between 1 and 365. *)
Theorem updateHabit_frame userId id body db habit :
  habits db !! id = Some habit →
  let r := habitController.updateHabit userId id body db in
  (Habit.creator habit ≠ userId → status r.1 = 403 ∧ r.2 = db)
  ∧ (status r.1 ≠ 200 → r.2 = db)
  ∧ (∃ habit',
       habits r.2 !! id = Some habit'
       ∧ Habit.creator habit' = Habit.creator habit
       ∧ Habit.completionDates habit' = Habit.completionDates habit
       ∧ Habit.createdAt habit' = Habit.createdAt habit
       ∧ (∀ now, Habit.currentStreak now habit'
                 = Habit.currentStreak now habit)
       ∧ (status r.1 = 200 → ∀ d, habitController.duration body = Some d →
            Habit.duration habit' = d ∧ (1 <= d <= 365)%Q))
  ∧ (∀ hid, hid ≠ id → habits r.2 !! hid = habits db !! hid)
  ∧ groups r.2 = groups db ∧ users r.2 = users db
  ∧ progress r.2 = progress db.
Proof.
  intros Hh r. subst r. unfold habitController.updateHabit. rewrite Hh.
  assert (Hsame : ∃ habit',
             habits db !! id = Some habit'
             ∧ Habit.creator habit' = Habit.creator habit
             ∧ Habit.completionDates habit' = Habit.completionDates habit
             ∧ Habit.createdAt habit' = Habit.createdAt habit
             ∧ (∀ now, Habit.currentStreak now habit'
                       = Habit.currentStreak now habit)).
  { exists habit. split_and!; try reflexivity. exact Hh. }
  destruct (Habit.creator habit =? userId)%nat eqn:Ec; cbn [negb].
  - apply Nat.eqb_eq in Ec.
    destruct (if truthy _ then _ else _) as [fr|];
      [destruct (habitController.validate_update body) as [[]|m] eqn:Ev|].
    + cbn [fst snd status habits groups users progress set_db_habits].
      split_and!; try reflexivity.
      * intros Hne. contradiction.
      * intros H. contradiction H. reflexivity.
      * eexists. rewrite lookup_insert_eq. split_and!; try reflexivity.
        intros _ d Hd. cbn [habitController.apply_update Habit.duration].
        rewrite Hd. split; [reflexivity|].
        unfold habitController.validate_update in Ev. rewrite Hd in Ev.
        cbn [first_error from_option] in Ev.
        destruct (from_option _ _ (habitController.name body)) as [[]|];
          [|discriminate].
        destruct (from_option _ _ (habitController.description body)) as [[]|];
          [|discriminate].
        destruct (from_option _ _ (habitController.goal body)) as [[]|];
          [|discriminate].
        unfold check in Ev.
        destruct (Qle_bool 1 d) eqn:E1; cbn [negb] in Ev; [|discriminate].
        destruct (Qle_bool d 365) eqn:E2; cbn [negb] in Ev; [|discriminate].
        split; apply Qle_bool_iff; assumption.
      * intros hid Hne. apply lookup_insert_ne. congruence.
    + cbn [fst snd status]. split_and!; try reflexivity.
      * intros Hne. contradiction.
      * destruct Hsame as (h' & ? & ? & ? & ? & ?). exists h'.
        split_and!; try assumption. discriminate.
    + cbn [fst snd status]. split_and!; try reflexivity.
      * intros Hne. contradiction.
      * destruct Hsame as (h' & ? & ? & ? & ? & ?). exists h'.
        split_and!; try assumption. discriminate.
  - cbn [fst snd status]. split_and!; try reflexivity.
    + intros _. split; reflexivity.
    + destruct Hsame as (h' & ? & ? & ? & ? & ?). exists h'.
      split_and!; try assumption. discriminate.
Qed.

Lemma updateHabit_frame_witness :
  let r := habitController.updateHabit 8%nat 1%nat reactivate_body sample_db in
  status r.1 = 403 ∧ r.2 = sample_db.
Proof.
  destruct (updateHabit_frame 8%nat 1%nat reactivate_body sample_db
              (reading_habit (day 0) []) eq_refl) as [Hother _].
  apply Hother. discriminate.
Defined.

(** X28: A deleted habit leaves every list of habits; but the soft delete can be
    undone by its creator: [updateHabit] with [isActive: true] answers 200
    and stores the habit as it was before the deletion, so that it is
    listed again, while no group tracks it any more and its creator's
    created habits no longer name it. *)
Theorem updateHabit_revives_deleted userId id db habit :
  habits db !! id = Some habit → Habit.creator habit = userId →
  Habit.isActive habit = true →
  let db1 := (habitController.deleteHabit userId id db).2 in
  let r := habitController.updateHabit userId id reactivate_body db1 in
  (∀ u h, (id, h) ∉ (habitController.getHabits u db1).2)
  ∧ (∀ u gid h, (id, h) ∉ (habitController.getGroupHabits u gid db1).2)
  ∧ status r.1 = 200
  ∧ habits r.2 = habits db
  ∧ (id, habit) ∈ (habitController.getHabits userId r.2).2
  ∧ (∀ gid g, groups r.2 !! gid = Some g → id ∉ Group.habits g)
  ∧ (∀ u, users r.2 !! userId = Some u → id ∉ User.createdHabits u).
Proof.
  intros Hh Hc Ha db1 r.
  pose proof (deleteHabit_unlists _ _ _ _ Hh Hc) as Hunlisted.
  subst r db1. rewrite (deleteHabit_run _ _ _ _ Hh Hc) in *. cbn [snd] in *.
  set (db1 := mkDb _ _ _ _) in *.
  assert (H1 : habits db1 !! id = Some (Habit.set_isActive false habit)).
  { subst db1. cbn [habits]. rewrite lookup_alter_eq, Hh. reflexivity. }
  assert (Hrun : habitController.updateHabit userId id reactivate_body db1
                 = (mkResponse 200 true "Habit updated successfully",
                    set_db_habits (habits db) db1)).
  { unfold habitController.updateHabit. rewrite H1.
    cbn [Habit.creator Habit.set_isActive]. rewrite Hc, Nat.eqb_refl.
    cbn [negb]. cbn. do 2 f_equal.
    assert (Hback : habitController.apply_update reactivate_body
                      (Habit.frequency habit)
                      (Habit.set_isActive false habit) = habit).
    { destruct habit. cbn in Ha. rewrite Ha. reflexivity. }
    rewrite Hback, insert_alter_eq. apply insert_id, Hh. }
  rewrite Hrun. cbn [fst snd status habits groups users set_db_habits].
  split_and!; try reflexivity.
  - intros u h Hin. apply elem_of_getHabits in Hin as (Hl & _ & Hact).
    rewrite H1 in Hl. injection Hl as <-. discriminate Hact.
  - intros u gid h Hin.
    apply elem_of_getGroupHabits in Hin as (g & Hg & _ & Hin & _).
    apply (Hunlisted gid g Hg Hin).
  - apply elem_of_getHabits. cbn [habits set_db_habits]. auto.
  - exact Hunlisted.
  - intros u. subst db1. cbn [users]. rewrite lookup_alter_eq.
    destruct (users db !! userId) as [u0|]; [|discriminate].
    intros [= <-]. cbn [User.set_createdHabits User.createdHabits].
    apply not_elem_of_pull.
Qed.

Lemma updateHabit_revives_deleted_witness :
  let db1 := (habitController.deleteHabit 7%nat 1%nat sample_db).2 in
  let r := habitController.updateHabit 7%nat 1%nat reactivate_body db1 in
  (habitController.getHabits 7%nat db1).2 = []
  ∧ (habitController.getHabits 7%nat r.2).2
    = [(1%nat, reading_habit (day 0) [])]
  ∧ (habitController.getGroupHabits 8%nat 0%nat r.2).2 = []
  ∧ habits r.2 = habits sample_db.
Proof.
  split_and!; [vm_compute; reflexivity .. |].
  apply (updateHabit_revives_deleted 7%nat 1%nat sample_db
           (reading_habit (day 0) [])); reflexivity.
Defined.

(** ** What no handler does *)

Ltac run_handler :=
  repeat match goal with
         | |- context [match ?x with _ => _ end] => destruct x
         end;
  try reflexivity.

Lemma group_handlers_keep_habits userId req db :
  match req with
  | CreateHabit _ _ | UpdateHabit _ _ | DeleteHabit _ => True
  | _ => habits (handle userId req db) = habits db
  end.
Proof.
  destruct req; try exact I; cbn [handle].
  - unfold groupController.createGroup. run_handler.
  - unfold groupController.updateGroup. run_handler.
  - unfold groupController.deleteGroup. run_handler.
  - unfold groupController.joinGroup. run_handler.
  - unfold groupController.leaveGroup. run_handler.
  - unfold groupController.addHabitToGroup. run_handler.
  - unfold progressController.logProgress. run_handler.
  - unfold progressController.toggleProgress. run_handler.
  - unfold progressController.markCompleteToday. run_handler.
Qed.

(** What a handler does to the habits: a stored habit keeps its creator,
    its creation date and its completion dates, and a habit that is new
    has no completion dates. *)
Lemma handle_completionDates userId req db :
  (∀ id h, habits db !! id = Some h →
     ∃ h', habits (handle userId req db) !! id = Some h'
           ∧ Habit.completionDates h' = Habit.completionDates h
           ∧ Habit.createdAt h' = Habit.createdAt h
           ∧ Habit.creator h' = Habit.creator h)
  ∧ (∀ id h', habits (handle userId req db) !! id = Some h' →
       habits db !! id = None → Habit.completionDates h' = []).
Proof.
  assert (Hsame : ∀ db' : Db, habits db' = habits db →
    (∀ id h, habits db !! id = Some h →
       ∃ h', habits db' !! id = Some h'
             ∧ Habit.completionDates h' = Habit.completionDates h
             ∧ Habit.createdAt h' = Habit.createdAt h
             ∧ Habit.creator h' = Habit.creator h)
    ∧ (∀ id h', habits db' !! id = Some h' →
         habits db !! id = None → Habit.completionDates h' = [])).
  { intros db' ->. split; [eauto 6 | congruence]. }
  pose proof (group_handlers_keep_habits userId req db) as Hgroup.
  destruct req; try (apply Hsame; exact Hgroup); cbn [handle]; clear Hgroup.
  - (* createHabit *)
    destruct (createHabit_run now userId body db) as [-> | Hrun];
      [apply Hsame; reflexivity|].
    destruct Hrun as (h & Hnew & Hh & Hd).
    rewrite Hh. split.
    + intros id h0 Hid. exists h0. rewrite lookup_insert_ne by congruence. auto.
    + intros id h'. destruct (decide (id = fresh (dom (habits db)))) as [->|Hne].
      * rewrite lookup_insert_eq. intros [= <-] _. exact Hd.
      * rewrite lookup_insert_ne by congruence. congruence.
  - (* updateHabit *)
    unfold habitController.updateHabit.
    destruct (habits db !! id) as [habit|] eqn:Hid; [|apply Hsame; reflexivity].
    destruct (negb _); [apply Hsame; reflexivity|].
    destruct (if truthy _ then _ else _) as [fr|]; [|apply Hsame; reflexivity].
    destruct (habitController.validate_update body);
      [|apply Hsame; reflexivity].
    cbn [snd habits set_db_habits]. split.
    + intros id0 h0 Hid0. destruct (decide (id0 = id)) as [->|Hne].
      * rewrite lookup_insert_eq. eexists. split; [reflexivity|].
        rewrite Hid in Hid0. injection Hid0 as <-. split_and!; reflexivity.
      * rewrite lookup_insert_ne by congruence. eauto 6.
    + intros id0 h'. destruct (decide (id0 = id)) as [->|Hne].
      * congruence.
      * rewrite lookup_insert_ne by congruence. congruence.
  - (* deleteHabit *)
    unfold habitController.deleteHabit.
    destruct (habits db !! id) as [habit|] eqn:Hid; [|apply Hsame; reflexivity].
    destruct (negb _); [apply Hsame; reflexivity|].
    cbn [snd habits set_db_habits set_db_users set_db_groups]. split.
    + intros id0 h0 Hid0. destruct (decide (id0 = id)) as [->|Hne].
      * rewrite lookup_alter_eq, Hid0. eexists. split; [reflexivity|].
        split_and!; reflexivity.
      * rewrite lookup_alter_ne by congruence. eauto 6.
    + intros id0 h'. destruct (decide (id0 = id)) as [->|Hne].
      * congruence.
      * rewrite lookup_alter_ne by congruence. congruence.
Qed.

(** X29: No handler completes a habit: the handlers record completions in the
    progress ledger and none of them calls the [markCompleted] of the Habit
    model.  So when no stored habit has a completion date, none has one
    after any sequence of requests, and the streak and the completion rate
    that the Habit model computes are 0 for every stored habit, whatever
    has been logged. *)
Theorem handlers_never_complete_a_habit reqs db :
  (∀ id h, habits db !! id = Some h → Habit.completionDates h = []) →
  ∀ id h, habits (run_requests reqs db) !! id = Some h →
    Habit.completionDates h = []
    ∧ ∀ offset now, Habit.currentStreak now h = 0
                    ∧ Habit.completionRate now h = 0%Q
                    ∧ Habit.isCompletedToday offset now h = false.
Proof.
  revert db. induction reqs as [|[userId req] reqs IH]; intros db Hdb id h Hh.
  - cbn [run_requests] in Hh. pose proof (Hdb id h Hh) as Hd.
    split; [exact Hd|]. intros offset now.
    unfold Habit.currentStreak, Habit.completionRate, Habit.isCompletedToday.
    rewrite Hd. split_and!; reflexivity.
  - cbn [run_requests] in Hh. revert id h Hh. apply IH.
    intros id0 h0 Hid0.
    destruct (handle_completionDates userId req db) as [Hold Hnew].
    destruct (habits db !! id0) as [h1|] eqn:E1.
    + destruct (Hold id0 h1 E1) as (h' & Hh' & Hd & _).
      rewrite Hh' in Hid0. injection Hid0 as <-. rewrite Hd.
      apply (Hdb id0 h1 E1).
    + apply (Hnew id0 h0 Hid0 E1).
Qed.

Lemma handlers_never_complete_a_habit_witness :
  let db := run_requests sample_requests sample_db in
  Progress.getCurrentStreak (day 10 + 8) 8%nat 1%nat (progress db) = 2
  ∧ ∃ h, habits db !! 1%nat = Some h
         ∧ Habit.name h = "Read more"
         ∧ Habit.currentStreak (day 10 + 8) h = 0.
Proof.
  split; [vm_compute; reflexivity|].
  assert (Hempty : ∀ id h, habits sample_db !! id = Some h →
                           Habit.completionDates h = []).
  { intros id h Hh. unfold sample_db in Hh. cbn [habits] in Hh.
    apply lookup_singleton_Some in Hh as [_ <-]. reflexivity. }
  assert (Hl : habits (run_requests sample_requests sample_db) !! 1%nat
               = Some (Habit.mk "Read more" "" 7%nat "" Habit.daily 30 true
                                "general" 1 "pages" [] (day 0)))
    by (vm_compute; reflexivity).
  eexists. split; [exact Hl|]. split; [reflexivity|].
  apply (proj2 (handlers_never_complete_a_habit sample_requests sample_db
                  Hempty 1%nat _ Hl) 0).
Defined.

(** ** The group invariant under the membership operations *)


Lemma joinGroup_invariant_witness :
  let r := groupController.joinGroup "ZZZZZZZZ" 8%nat 0%nat None roomy_db in
  status r.1 = 200
  ∧ ∃ g', groups r.2 !! 0%nat = Some g' ∧ group_invariant g'.
Proof.
  split; [reflexivity|].
  destruct (joinGroup_invariant "ZZZZZZZZ" 8%nat 0%nat None roomy_db
              (sample_group [7%nat] [1%nat] 7%nat 5 true)) as [Hjoin _].
  - reflexivity.
  - split; [discriminate | apply list_elem_of_here].
  - exists 5. reflexivity.
  - exact Hjoin.
Defined.

Lemma leaveGroup_invariant_witness :
  let r := groupController.leaveGroup "ZZZZZZZZ" 8%nat 0%nat sample_db in
  status r.1 = 200
  ∧ ∃ g', groups r.2 !! 0%nat = Some g' ∧ group_invariant g'.
Proof.
  split; [reflexivity|].
  destruct (leaveGroup_invariant "ZZZZZZZZ" 8%nat 0%nat sample_db
              (sample_group [7%nat; 8%nat] [1%nat] 7%nat 2 true)) as [Hleave _].
  - reflexivity.
  - split; [discriminate | apply list_elem_of_here].
  - exact Hleave.
Defined.

Lemma addHabitToGroup_shares_habit_witness :
  let db := set_db_groups
              {[ 0%nat := sample_group [7%nat; 8%nat] [] 7%nat 5 true ]}
              sample_db in
  let r := groupController.addHabitToGroup "ZZZZZZZZ" 7%nat 0%nat (Some 1%nat)
                                           db in
  progressController.authorized 8%nat 1%nat (reading_habit (day 0) []) db
  = false
  ∧ status r.1 = 200
  ∧ progressController.authorized 8%nat 1%nat (reading_habit (day 0) []) r.2
    = true.
Proof.
  intros db r. split; [reflexivity|]. split; [reflexivity|].
  destruct (addHabitToGroup_shares_habit "ZZZZZZZZ" 7%nat 0%nat (Some 1%nat) db)
    as [_ Hok].
  destruct (Hok eq_refl)
    as (g & id & habit & g' & Hid & Hg & Hh & _ & _ & _ & _ & _ & _ & Hauth).
  injection Hid as <-. injection Hg as <-. injection Hh as <-.
  apply Hauth; [reflexivity|].
  apply list_elem_of_further, list_elem_of_here.
Defined.
